(** * Lead intake handlers of audituniversepro-site

    A shallow embedding of the three [onRequest] handlers of the repository
    (two in [functions/api/lead.js], one in the unnamed source file) and the
    properties of their request pipeline: CORS preflight, body parsing,
    honeypot, normalisation, validation, storage insert and webhook forward.

    Strings are sequences of code units below 256 (Latin-1); field values are
    JSON scalars or form entries.  Platform calls whose result the handlers
    only consume ([request.json()], [fetch], [new URL(..)], the D1 binding)
    are read from the request and from a [World] record. *)

From Stdlib Require Import ZArith List String Ascii Bool Arith Lia DecimalString.
Import ListNotations.

Open Scope string_scope.
Open Scope list_scope.
Open Scope nat_scope.

(* ================================================================= *)
(** ** JavaScript strings *)

Module Js.

(** [WhiteSpace] and [LineTerminator] code units below 256: what
    [String.prototype.trim] strips and what the regex class [\s] matches. *)
Definition isWhiteSpace (c : ascii) : bool :=
  let n := nat_of_ascii c in
  ((9 <=? n) && (n <=? 13)) || (n =? 32) || (n =? 160).

Fixpoint trimStart (s : string) : string :=
  match s with
  | EmptyString => EmptyString
  | String c r => if isWhiteSpace c then trimStart r else s
  end.

Fixpoint trimEnd (s : string) : string :=
  match s with
  | EmptyString => EmptyString
  | String c r =>
      match trimEnd r with
      | EmptyString => if isWhiteSpace c then EmptyString else String c EmptyString
      | r' => String c r'
      end
  end.

Definition trim (s : string) : string := trimEnd (trimStart s).

(** Simple lower-case mapping of one code unit: A-Z, and the Latin-1
    capitals U+00C0..U+00DE except the multiplication sign U+00D7. *)
Definition isUpper (c : ascii) : bool :=
  let n := nat_of_ascii c in
  ((65 <=? n) && (n <=? 90)) ||
  ((192 <=? n) && (n <=? 222) && negb (n =? 215)).

Definition lowerChar (c : ascii) : ascii :=
  if isUpper c then ascii_of_nat (nat_of_ascii c + 32) else c.

Fixpoint toLowerCase (s : string) : string :=
  match s with
  | EmptyString => EmptyString
  | String c r => String (lowerChar c) (toLowerCase r)
  end.

(** [s.slice(0, n)] for a non-negative [n]. *)
Definition slice0 (n : nat) (s : string) : string := substring 0 n s.

Definition startsWith (s p : string) : bool := prefix p s.

Definition endsWith (s p : string) : bool :=
  (String.length p <=? String.length s) &&
  String.eqb (substring (String.length s - String.length p) (String.length p) s) p.

Fixpoint includes (s p : string) : bool :=
  prefix p s ||
  match s with
  | EmptyString => false
  | String _ r => includes r p
  end.

(** Truthiness of a string: non-empty. *)
Definition truthy (s : string) : bool :=
  match s with EmptyString => false | _ => true end.

(** [a || b] on strings. *)
Definition or (a b : string) : string := if truthy a then a else b.

(** [a || null] as bound into a statement. *)
Definition orNull (a : string) : option string :=
  if truthy a then Some a else None.

(** [h || ""] for the result of [headers.get]. *)
Definition orEmpty (h : option string) : string :=
  match h with Some s => s | None => "" end.

(** Values a body field can hold: JSON scalars (numbers are the integral
    ones, printed in decimal), and the [File] entries of a multipart form. *)
Inductive value : Type :=
| Undefined
| Null
| Bool (b : bool)
| Num (n : Z)
| Str (s : string)
| File.

(** [String(v)]. *)
Definition ToString (v : value) : string :=
  match v with
  | Undefined => "undefined"
  | Null => "null"
  | Bool true => "true"
  | Bool false => "false"
  | Num n => NilZero.string_of_int (Z.to_int n)
  | Str s => s
  | File => "[object File]"
  end.

(** [v == null]. *)
Definition isNullish (v : value) : bool :=
  match v with Undefined | Null => true | _ => false end.

(** [ToBoolean(v)]. *)
Definition toBoolean (v : value) : bool :=
  match v with
  | Undefined | Null => false
  | File => true
  | Bool b => b
  | Num n => negb (n =? 0)%Z
  | Str s => truthy s
  end.

(** [a || b] on values. *)
Definition orValue (a b : value) : value := if toBoolean a then a else b.

(** [a ?? b]. *)
Definition coalesce (a b : value) : value := if isNullish a then b else a.

(** Strict equality [v === w] for the primitives above. *)
Definition strictEq (v w : value) : bool :=
  match v, w with
  | Undefined, Undefined | Null, Null => true
  | Bool a, Bool b => Bool.eqb a b
  | Num a, Num b => (a =? b)%Z
  | Str a, Str b => String.eqb a b
  | _, _ => false
  end.

(** An object as the list of its entries in insertion order. *)
Definition entries := list (string * value).

Fixpoint first (k : string) (l : entries) : option value :=
  match l with
  | [] => None
  | (k', v) :: r => if String.eqb k k' then Some v else first k r
  end.

(** [obj[k]] when the object was filled entry by entry ([JSON.parse],
    [Object.fromEntries], [obj[k] = v] in a loop): the last entry wins, a
    missing key reads [undefined]. *)
Definition prop (l : entries) (k : string) : value :=
  match first k (rev l) with Some v => v | None => Undefined end.

(** [form.get(k)]: the first entry of that name, else [null]. *)
Definition formGet (l : entries) (k : string) : value :=
  match first k l with Some v => v | None => Null end.

End Js.

(* ================================================================= *)
(** ** Regular expressions *)

Module Regex.

Inductive regex : Type :=
| Void
| Eps
| Class (p : ascii -> bool)
| Seq (r1 r2 : regex)
| Alt (r1 r2 : regex)
| Star (r : regex).

(** [r+]. *)
Definition Plus (r : regex) : regex := Seq r (Star r).

Fixpoint nullable (r : regex) : bool :=
  match r with
  | Void => false
  | Eps => true
  | Class _ => false
  | Seq r1 r2 => nullable r1 && nullable r2
  | Alt r1 r2 => nullable r1 || nullable r2
  | Star _ => true
  end.

Definition seq (r1 r2 : regex) : regex :=
  match r1, r2 with
  | Void, _ => Void
  | _, Void => Void
  | Eps, _ => r2
  | _, _ => Seq r1 r2
  end.

Definition alt (r1 r2 : regex) : regex :=
  match r1, r2 with
  | Void, _ => r2
  | _, Void => r1
  | _, _ => Alt r1 r2
  end.

Fixpoint deriv (c : ascii) (r : regex) : regex :=
  match r with
  | Void => Void
  | Eps => Void
  | Class p => if p c then Eps else Void
  | Seq r1 r2 =>
      if nullable r1
      then alt (seq (deriv c r1) r2) (deriv c r2)
      else seq (deriv c r1) r2
  | Alt r1 r2 => alt (deriv c r1) (deriv c r2)
  | Star r1 => seq (deriv c r1) (Star r1)
  end.

(** Whole-string match: [/^r$/.test(s)] (no flags). *)
Fixpoint test (r : regex) (s : string) : bool :=
  match s with
  | EmptyString => nullable r
  | String c s' => test (deriv c r) s'
  end.

(** The language of a regex, as a relation. *)
Inductive Matches : regex -> string -> Prop :=
| MEps : Matches Eps ""
| MClass p c : p c = true -> Matches (Class p) (String c "")
| MSeq r1 r2 s1 s2 : Matches r1 s1 -> Matches r2 s2 -> Matches (Seq r1 r2) (s1 ++ s2)%string
| MAltL r1 r2 s : Matches r1 s -> Matches (Alt r1 r2) s
| MAltR r1 r2 s : Matches r2 s -> Matches (Alt r1 r2) s
| MStarNil r : Matches (Star r) ""
| MStarCons r s1 s2 : Matches r s1 -> Matches (Star r) s2 -> Matches (Star r) (s1 ++ s2)%string.

End Regex.

(** [[^\s@]]. *)
Definition notSpaceAt (c : ascii) : bool :=
  negb (Js.isWhiteSpace c) && negb (Ascii.eqb c "@").

(** [/^[^\s@]+@[^\s@]+\.[^\s@]+$/], the pattern of all three variants. *)
Definition emailPattern : Regex.regex :=
  Regex.Seq (Regex.Plus (Regex.Class notSpaceAt))
    (Regex.Seq (Regex.Class (Ascii.eqb "@"))
       (Regex.Seq (Regex.Plus (Regex.Class notSpaceAt))
          (Regex.Seq (Regex.Class (Ascii.eqb "."))
             (Regex.Plus (Regex.Class notSpaceAt))))).

(* ================================================================= *)
(** ** Requests, responses and effects *)

(** The parsed JSON body.  A top-level scalar or array has none of the
    properties the handlers read and behaves as [JsonObject []]; reading a
    property of [null] throws. *)
Inductive JsonBody : Type :=
| JsonNull
| JsonObject (props : Js.entries).

Record Request : Type := mkRequest {
  method : string;
  (** [new URL(request.url).pathname] *)
  pathname : string;
  (** [request.headers.get(..)], [None] for [null] *)
  hdrOrigin : option string;
  hdrContentType : option string;
  hdrReferer : option string;
  hdrUserAgent : option string;
  hdrCfConnectingIp : option string;
  hdrXForwardedFor : option string;
  (** outcome of [request.json()], [None] when it rejects *)
  bodyJson : option JsonBody;
  (** entries of [request.formData()], [None] when it rejects *)
  bodyFormData : option Js.entries;
  (** entries of [new URLSearchParams(await request.text())] *)
  bodyTextParams : option (list (string * string))
}.

(** The values bound into
    [INSERT INTO leads (name, email, website, message, consent, source_path, user_agent)];
    [None] is SQL [NULL]. *)
Record Row : Type := mkRow {
  rowName : option string;
  rowEmail : string;
  rowWebsite : option string;
  rowMessage : option string;
  rowConsent : Z;
  rowSourcePath : option string;
  rowUserAgent : option string
}.

(** The object serialised into the webhook request. *)
Record Payload : Type := mkPayload {
  plName : string;
  plEmail : string;
  plWebsite : string;
  plMessage : string;
  plConsent : bool;
  plSourcePath : string;
  plUserAgent : string;
  plTs : option string;
  plCreatedAt : option string;
  plIp : option string
}.

Record D1Database : Type := mkD1 {
  (** whether [prepare(..).bind(..).run()] resolves for these values *)
  runResolves : Row -> bool
}.

Record Env : Type := mkEnv {
  LEADS_DB : option D1Database;
  LEAD_WEBHOOK_URL : option string
}.

(** [context]; the runtime always passes an [env] object. *)
Record Context : Type := mkContext {
  request : Request;
  env : Env
}.

(** What the runtime decides for the handler. *)
Record World : Type := mkWorld {
  (** [new URL(s).pathname], [None] when the constructor throws *)
  URL_pathname : string -> option string;
  (** whether [fetch(url, ..)] resolves; [false] is a network error *)
  fetchResolves : string -> bool;
  (** [new Date().toISOString()] *)
  nowISO : string
}.

(** The object passed to [JSON.stringify] for the response body. *)
Record Body : Type := mkBody {
  ok : bool;
  error : option string;
  webhook_sent : option bool
}.

Record Response : Type := mkResponse {
  status : Z;
  headers : list (string * string);
  body : option Body
}.

Inductive event : Type :=
| DbRun (r : Row)
| Fetch (url : string) (p : Payload)
| ConsoleWarn
| ConsoleError.

(** An async computation: the effects it performed, and whether it returned
    or threw. *)
Inductive completion (A : Type) : Type :=
| Normal (a : A)
| Throw.
Arguments Normal {A} a.
Arguments Throw {A}.

Definition js (A : Type) : Type := (list event * completion A)%type.

Definition ret {A} (a : A) : js A := ([], Normal a).

Definition throw {A} : js A := ([], Throw).

Definition bind {A B} (m : js A) (k : A -> js B) : js B :=
  match snd m with
  | Normal a => (fst m ++ fst (k a), snd (k a))
  | Throw => (fst m, Throw)
  end.

(** [try { m } catch { handler }]: the effects of [m] up to the throw stay. *)
Definition tryCatch {A} (m : js A) (handler : js A) : js A :=
  match snd m with
  | Normal a => (fst m, Normal a)
  | Throw => (fst m ++ fst handler, snd handler)
  end.

Definition emit (e : event) : js unit := ([e], Normal tt).

Notation "x <- m ;; k" := (bind m (fun x => k))
  (at level 61, m at next level, right associativity).
Notation "m ;; k" := (bind m (fun _ => k))
  (at level 61, right associativity).

(** [await request.json()], [await request.formData()] and
    [new URLSearchParams(await request.text())]. *)
Definition awaitOpt {A} (o : option A) : js A :=
  match o with Some a => ret a | None => throw end.

(** [await env.LEADS_DB.prepare(..).bind(..).run()] *)
Definition d1Run (db : D1Database) (r : Row) : js unit :=
  emit (DbRun r) ;; if runResolves db r then ret tt else throw.

(** [await fetch(url, { method: "POST", .., body: JSON.stringify(p) })] *)
Definition fetchPost (W : World) (url : string) (p : Payload) : js unit :=
  emit (Fetch url p) ;; if fetchResolves W url then ret tt else throw.

Definition isNullBodyStatus (s : Z) : bool :=
  ((s =? 101) || (s =? 204) || (s =? 205) || (s =? 304))%Z.

(** [new Response(body, { status, headers })]: the constructor throws a
    [RangeError] for a status outside 200..599 and a [TypeError] for a
    non-null body with a null-body status. *)
Definition newResponse (b : option Body) (st : Z) (hs : list (string * string))
  : js Response :=
  if ((st <? 200) || (599 <? st))%Z then throw
  else
    match b with
    | Some _ => if isNullBodyStatus st then throw else ret (mkResponse st hs b)
    | None => ret (mkResponse st hs b)
    end.

Fixpoint header (hs : list (string * string)) (name : string) : option string :=
  match hs with
  | [] => None
  | (k, v) :: r => if String.eqb k name then Some v else header r name
  end.

(** The result of [request.headers.get(..)] as a value. *)
Definition headerValue (h : option string) : Js.value :=
  match h with Some s => Js.Str s | None => Js.Null end.

Definition okBody : Body := mkBody true None None.
Definition errBody (msg : string) : Body := mkBody false (Some msg) None.

Definition isFetch (e : event) : bool :=
  match e with Fetch _ _ => true | _ => false end.

(** The rows a run handed to the storage binding. *)
Fixpoint inserts (t : list event) : list Row :=
  match t with
  | [] => []
  | DbRun r :: t' => r :: inserts t'
  | _ :: t' => inserts t'
  end.

Definition trace {A} (m : js A) : list event := fst m.
Definition outcome {A} (m : js A) : completion A := snd m.

Definition callsWebhook {A} (m : js A) : bool := existsb isFetch (trace m).

(* ================================================================= *)
(** ** Variant A: [functions/api/lead.js], first handler *)

Module LeadA.

Definition jsonResponse (b : Body) (st : Z) (origin : string) : js Response :=
  newResponse (Some b) st
    ([("Content-Type", "application/json; charset=utf-8");
      ("Cache-Control", "no-store")]
     ++ (if Js.truthy origin
         then [("Access-Control-Allow-Origin", origin); ("Vary", "Origin")]
         else [])
     ++ [("Access-Control-Allow-Methods", "POST, OPTIONS");
         ("Access-Control-Allow-Headers", "Content-Type");
         ("Access-Control-Max-Age", "86400")]).

Definition allow : list string :=
  ["https://audituniversepro.com"; "https://www.audituniversepro.com"].

Definition pickAllowedOrigin (req : Request) : string :=
  let origin := Js.orEmpty (hdrOrigin req) in
  if negb (Js.truthy origin) then ""
  else if Js.endsWith origin ".pages.dev" then origin
  else if Js.startsWith origin "http://localhost" then origin
  else if existsb (String.eqb origin) allow then origin
  else nth 0 allow "".

Definition normalizeString (v : Js.value) (max : nat) : string :=
  if Js.isNullish v then ""
  else
    let s := Js.trim (Js.ToString v) in
    if max <? String.length s then Js.slice0 max s else s.

Definition isValidEmail (email : string) : bool :=
  Regex.test emailPattern email.

Record Raw : Type := mkRaw {
  name : Js.value;
  email : Js.value;
  website : Js.value;
  message : Js.value;
  consent : Js.value;
  source_path : Js.value;
  company : Js.value
}.

Definition readBody (req : Request) : js Raw :=
  let ct := Js.orEmpty (hdrContentType req) in
  if Js.includes ct "application/json" then
    data <- awaitOpt (bodyJson req) ;;
    match data with
    | JsonNull => throw
    | JsonObject o =>
        ret (mkRaw (Js.prop o "name") (Js.prop o "email") (Js.prop o "website")
                   (Js.prop o "message") (Js.prop o "consent")
                   (Js.prop o "source_path") (Js.prop o "company"))
    end
  else
    form <- awaitOpt (bodyFormData req) ;;
    ret (mkRaw (Js.formGet form "name") (Js.formGet form "email")
               (Js.formGet form "website") (Js.formGet form "message")
               (Js.formGet form "consent") (Js.formGet form "source_path")
               (Js.formGet form "company")).

(** [consentRaw === "1" || consentRaw === "true" || consentRaw === "on" ? 1 : 0]
    with [consentRaw = String(raw.consent ?? "").toLowerCase()]. *)
Definition consentOf (v : Js.value) : Z :=
  let consentRaw := Js.toLowerCase (Js.ToString (Js.coalesce v (Js.Str ""))) in
  if String.eqb consentRaw "1" || String.eqb consentRaw "true"
     || String.eqb consentRaw "on"
  then 1%Z else 0%Z.

(** Modelled from the spec: the source breaks off inside the [catch] block
    of this handler, inside the error text of [{ ok: false, error: .. }]
    (its first letter S is the last character kept); the spec gives
    unexpected exceptions status 500 with a generic message. *)
Definition catchStatus : Z := 500%Z.

(** Modelled from the spec: the error text of the same [catch] block, cut
    off after its first letter; the spec calls it a generic message, and
    variant C, which has the same block, says Server error. *)
Definition catchError : string := "Server error".

Definition onRequest (W : World) (context : Context) : js Response :=
  let request := request context in
  let env := env context in
  let origin := pickAllowedOrigin request in
  if String.eqb (method request) "OPTIONS" then
    jsonResponse okBody 204 origin
  else if negb (String.eqb (method request) "POST") then
    jsonResponse (errBody "Method not allowed") 405 origin
  else
    tryCatch
      (match LEADS_DB env with
       | None => jsonResponse (errBody "Missing D1 binding: LEADS_DB") 500 origin
       | Some db =>
           raw <- readBody request ;;
           let company := normalizeString (company raw) 200 in
           if Js.truthy company then jsonResponse okBody 200 origin
           else
             let name := normalizeString (name raw) 120 in
             let email := Js.toLowerCase (normalizeString (email raw) 200) in
             let website := normalizeString (website raw) 300 in
             let message := normalizeString (message raw) 2000 in
             let consent := consentOf (consent raw) in
             let source_path :=
               Js.or (normalizeString (source_path raw) 300) (pathname request) in
             let user_agent :=
               normalizeString (headerValue (hdrUserAgent request)) 300 in
             if negb (Js.truthy email) || negb (isValidEmail email) then
               jsonResponse (errBody "Valid email is required.") 400 origin
             else
               d1Run db
                 (mkRow (Js.orNull name) email (Js.orNull website)
                        (Js.orNull message) consent (Js.orNull source_path)
                        (Js.orNull user_agent)) ;;
               match LEAD_WEBHOOK_URL env with
               | Some hook =>
                   if Js.truthy hook then
                     fetchPost W hook
                       (mkPayload name email website message
                                  (negb (consent =? 0)%Z) source_path user_agent
                                  (Some (nowISO W)) None None)
                   else ret tt
               | None => ret tt
               end ;;
               jsonResponse okBody 200 origin
       end)
      (jsonResponse (errBody catchError) catchStatus origin).

End LeadA.

(* ================================================================= *)
(** ** Variant B: [functions/api/lead.js], second handler *)

Module LeadB.

Definition corsHeaders (origin : string) : list (string * string) :=
  [("Access-Control-Allow-Origin", Js.or origin "*");
   ("Access-Control-Allow-Methods", "POST, OPTIONS");
   ("Access-Control-Allow-Headers", "Content-Type");
   ("Access-Control-Max-Age", "86400");
   ("Vary", "Origin")].

Definition json (origin : string) (obj : Body) (st : Z) : js Response :=
  newResponse (Some obj) st
    (("Content-Type", "application/json; charset=utf-8") :: corsHeaders origin).

(** [Object.fromEntries(new URLSearchParams(txt))] *)
Definition fromParams (l : list (string * string)) : JsonBody :=
  JsonObject (map (fun kv => (fst kv, Js.Str (snd kv))) l).

(** The [// Parse body] block: [data] after the [try]/[catch]. *)
Definition parseBody (req : Request) : js JsonBody :=
  let ct := Js.toLowerCase (Js.orEmpty (hdrContentType req)) in
  tryCatch
    (if Js.includes ct "application/json" then
       awaitOpt (bodyJson req)
     else if Js.includes ct "application/x-www-form-urlencoded" then
       txt <- awaitOpt (bodyTextParams req) ;; ret (fromParams txt)
     else if Js.includes ct "multipart/form-data" then
       fd <- awaitOpt (bodyFormData req) ;; ret (JsonObject fd)
     else
       txt <- awaitOpt (bodyTextParams req) ;; ret (fromParams txt))
    (ret (JsonObject [])).

(** [data.k] *)
Definition get (data : JsonBody) (k : string) : js Js.value :=
  match data with
  | JsonNull => throw
  | JsonObject o => ret (Js.prop o k)
  end.

Definition str (v : Js.value) : string :=
  Js.trim (if Js.isNullish v then "" else Js.ToString v).

(** [["1", "true", "on", "yes"].includes(consentRaw) ? 1 : 0] with
    [consentRaw = str(data.consent).toLowerCase()]. *)
Definition consentOf (v : Js.value) : Z :=
  let consentRaw := Js.toLowerCase (str v) in
  if existsb (String.eqb consentRaw) ["1"; "true"; "on"; "yes"] then 1%Z else 0%Z.

Definition isValidEmail (email : string) : bool :=
  Regex.test emailPattern email.

Definition onRequest (W : World) (context : Context) : js Response :=
  let request := request context in
  let env := env context in
  let origin := Js.orEmpty (hdrOrigin request) in
  let json := json origin in
  if String.eqb (method request) "OPTIONS" then
    newResponse None 204 (corsHeaders origin)
  else if negb (String.eqb (method request) "POST") then
    json (errBody "Method not allowed. Use POST.") 405%Z
  else
    data <- parseBody request ;;
    dhp <- get data "hp" ;;
    dcompany <- get data "company" ;;
    let hp := str (Js.orValue dhp dcompany) in
    if Js.truthy hp then json okBody 200%Z
    else
      dname <- get data "name" ;;
      demail <- get data "email" ;;
      dwebsite <- get data "website" ;;
      dmessage <- get data "message" ;;
      dsource_path <- get data "source_path" ;;
      let name := Js.slice0 120 (str dname) in
      let email := Js.slice0 200 (str demail) in
      let website := Js.slice0 300 (str dwebsite) in
      let message := Js.slice0 3000 (str dmessage) in
      let source_path := Js.slice0 500 (str dsource_path) in
      let user_agent :=
        Js.slice0 400
          (str (headerValue (hdrUserAgent request))) in
      dconsent <- get data "consent" ;;
      let consent := consentOf dconsent in
      if negb (Js.truthy email) then json (errBody "Email is required.") 400%Z
      else if negb (isValidEmail email) then
        json (errBody "Invalid email format.") 400%Z
      else if (consent =? 0)%Z then json (errBody "Consent is required.") 400%Z
      else
        inserted <-
          tryCatch
            (match LEADS_DB env with
             | None =>
                 r <- json (errBody "Server not configured (LEADS_DB missing).") 500%Z ;;
                 ret (Some r)
             | Some db =>
                 d1Run db
                   (mkRow (Js.orNull name) email (Js.orNull website)
                          (Js.orNull message) consent (Js.orNull source_path)
                          (Js.orNull user_agent)) ;;
                 ret None
             end)
            (r <- json (errBody "Database insert failed.") 500%Z ;; ret (Some r)) ;;
        match inserted with
        | Some r => ret r
        | None =>
            let webhook :=
              str (match LEAD_WEBHOOK_URL env with
                   | Some s => Js.Str s
                   | None => Js.Undefined
                   end) in
            (if Js.truthy webhook then
               let ip :=
                 Js.or (Js.orEmpty (hdrCfConnectingIp request))
                       (Js.or (Js.orEmpty (hdrXForwardedFor request)) "") in
               tryCatch
                 (fetchPost W webhook
                    (mkPayload name email website message
                               (negb (consent =? 0)%Z) source_path user_agent
                               None (Some (nowISO W)) (Some ip)))
                 (ret tt)
             else ret tt) ;;
            json okBody 200%Z
        end.

End LeadB.

(* ================================================================= *)
(** ** Variant C: the unnamed source file *)

Module LeadC.

Definition ALLOWED_ORIGINS : list string :=
  ["https://audituniversepro.com";
   "https://www.audituniversepro.com";
   "https://audituniversepro-site.pages.dev";
   "http://localhost:8000";
   "http://127.0.0.1:8000";
   "http://localhost:8788";
   "http://127.0.0.1:8788"].

Definition normalizeStr (v : Js.value) (maxLen : nat) : string :=
  if Js.isNullish v then ""
  else
    let s := Js.trim (Js.ToString v) in
    if maxLen <? String.length s then Js.slice0 maxLen s else s.

Definition isValidEmail (email : string) : bool :=
  Regex.test emailPattern email.

Definition getAllowedOrigin (req : Request) : string :=
  match hdrOrigin req with
  | None => ""
  | Some origin =>
      if negb (Js.truthy origin) then ""
      else if existsb (String.eqb origin) ALLOWED_ORIGINS then origin
      else ""
  end.

Definition jsonResponse (payload : Body) (st : Z) (origin : string) : js Response :=
  newResponse (Some payload) st
    ([("Content-Type", "application/json; charset=utf-8");
      ("Cache-Control", "no-store")]
     ++ (if Js.truthy origin
         then [("Access-Control-Allow-Origin", origin); ("Vary", "Origin")]
         else [])).

Definition corsPreflight (origin : string) : js Response :=
  newResponse None 204
    ([("Cache-Control", "no-store");
      ("Access-Control-Allow-Methods", "POST, OPTIONS");
      ("Access-Control-Allow-Headers", "Content-Type");
      ("Access-Control-Max-Age", "86400")]
     ++ (if Js.truthy origin
         then [("Access-Control-Allow-Origin", origin); ("Vary", "Origin")]
         else [])).

Definition readBody (req : Request) : js JsonBody :=
  let ct := Js.orEmpty (hdrContentType req) in
  if Js.includes ct "application/json" then awaitOpt (bodyJson req)
  else
    fd <- awaitOpt (bodyFormData req) ;;
    ret (JsonObject fd).

(** [body.k] *)
Definition get (data : JsonBody) (k : string) : js Js.value :=
  match data with
  | JsonNull => throw
  | JsonObject o => ret (Js.prop o k)
  end.

(** [consentRaw === true || consentRaw === "true" || consentRaw === "1" ||
    consentRaw === 1 || consentRaw === "on"] *)
Definition consentOf (consentRaw : Js.value) : bool :=
  Js.strictEq consentRaw (Js.Bool true)
  || Js.strictEq consentRaw (Js.Str "true")
  || Js.strictEq consentRaw (Js.Str "1")
  || Js.strictEq consentRaw (Js.Num 1)
  || Js.strictEq consentRaw (Js.Str "on").

(** The [source_path] block: the supplied value, else the Referer's path
    when it parses and is non-empty, else the request's own path. *)
Definition resolveSourcePath (W : World) (req : Request) (supplied : Js.value)
  : string :=
  let source_path := normalizeStr supplied 500 in
  if negb (Js.truthy source_path) then
    let ref := Js.orEmpty (hdrReferer req) in
    let source_path :=
      if Js.truthy ref then
        match URL_pathname W ref with
        | Some p => Js.or p ""
        | None => source_path
        end
      else source_path in
    if negb (Js.truthy source_path) then Js.or (pathname req) ""
    else source_path
  else source_path.

Definition onRequest (W : World) (context : Context) : js Response :=
  let request := request context in
  let env := env context in
  let origin := getAllowedOrigin request in
  if String.eqb (method request) "OPTIONS" then corsPreflight origin
  else if negb (String.eqb (method request) "POST") then
    jsonResponse (errBody "Method not allowed") 405 origin
  else
    tryCatch
      (body <- readBody request ;;
       bname <- get body "name" ;;
       bemail <- get body "email" ;;
       bwebsite <- get body "website" ;;
       bmessage <- get body "message" ;;
       let name := normalizeStr bname 200 in
       let email := Js.toLowerCase (normalizeStr bemail 200) in
       let website := normalizeStr bwebsite 500 in
       let message := normalizeStr bmessage 4000 in
       consentRaw <- get body "consent" ;;
       let consent := consentOf consentRaw in
       if negb (Js.truthy email) || negb (isValidEmail email) then
         jsonResponse (errBody "Invalid email") 400 origin
       else if negb consent then
         jsonResponse (errBody "Consent required") 400 origin
       else
         bsource_path <- get body "source_path" ;;
         let source_path := resolveSourcePath W request bsource_path in
         let user_agent :=
           normalizeStr (Js.Str (Js.orEmpty (hdrUserAgent request))) 500 in
         match LEADS_DB env with
         | None =>
             jsonResponse (errBody "Server misconfiguration (LEADS_DB missing)")
               500 origin
         | Some db =>
             d1Run db
               (mkRow (Some name) email (Some website) (Some message) 1%Z
                      (Some source_path) (Some user_agent)) ;;
             let hook := Js.trim (Js.orEmpty (LEAD_WEBHOOK_URL env)) in
             webhook_sent <-
               (if Js.truthy hook then
                  tryCatch
                    (fetchPost W hook
                       (mkPayload name email website message true source_path
                                  user_agent (Some (nowISO W)) None None) ;;
                     ret true)
                    (emit ConsoleWarn ;; ret false)
                else ret false) ;;
             jsonResponse (mkBody true None (Some webhook_sent)) 200 origin
         end)
      (emit ConsoleError ;;
       jsonResponse (errBody "Server error") 500 origin).

End LeadC.

(* ================================================================= *)
(** ** The three variants together *)

Inductive variant : Type := VariantA | VariantB | VariantC.

Definition handle (v : variant) (W : World) (context : Context) : js Response :=
  match v with
  | VariantA => LeadA.onRequest W context
  | VariantB => LeadB.onRequest W context
  | VariantC => LeadC.onRequest W context
  end.

(** The status and body object of a run that returned a response. *)
Definition returned (m : js Response) : option (Z * option Body) :=
  match outcome m with
  | Normal r => Some (status r, body r)
  | Throw => None
  end.

Definition statusOf (m : js Response) : option Z :=
  match outcome m with
  | Normal r => Some (status r)
  | Throw => None
  end.

(** The value of a response header of a run, [None] when the run threw or
    the header is not set. *)
Definition headerOf (m : js Response) (name : string) : option string :=
  match outcome m with
  | Normal r => header (headers r) name
  | Throw => None
  end.

(* ================================================================= *)
(** ** Reading a request as a submission

    The expressions of the handlers that the properties below speak about,
    named per variant. *)

(** [raw.k] in variant A. *)
Definition rawField (raw : LeadA.Raw) (k : string) : Js.value :=
  if String.eqb k "name" then LeadA.name raw
  else if String.eqb k "email" then LeadA.email raw
  else if String.eqb k "website" then LeadA.website raw
  else if String.eqb k "message" then LeadA.message raw
  else if String.eqb k "consent" then LeadA.consent raw
  else if String.eqb k "source_path" then LeadA.source_path raw
  else if String.eqb k "company" then LeadA.company raw
  else Js.Undefined.

(** The body fields as the variant reads them ([raw.k], [data.k], [body.k]);
    [None] when reading the body throws or yields [null]. *)
Definition fieldsOf (v : variant) (req : Request) : option (string -> Js.value) :=
  match v with
  | VariantA =>
      match outcome (LeadA.readBody req) with
      | Normal raw => Some (rawField raw)
      | Throw => None
      end
  | VariantB =>
      match outcome (LeadB.parseBody req) with
      | Normal (JsonObject o) => Some (Js.prop o)
      | _ => None
      end
  | VariantC =>
      match outcome (LeadC.readBody req) with
      | Normal (JsonObject o) => Some (Js.prop o)
      | _ => None
      end
  end.

(** The value a variant tests as honeypot; variant C has no such test. *)
Definition honeypotOf (v : variant) (fs : string -> Js.value) : option string :=
  match v with
  | VariantA => Some (LeadA.normalizeString (fs "company") 200)
  | VariantB => Some (LeadB.str (Js.orValue (fs "hp") (fs "company")))
  | VariantC => None
  end.

(** The email a variant validates and binds. *)
Definition emailOf (v : variant) (fs : string -> Js.value) : string :=
  match v with
  | VariantA => Js.toLowerCase (LeadA.normalizeString (fs "email") 200)
  | VariantB => Js.slice0 200 (LeadB.str (fs "email"))
  | VariantC => Js.toLowerCase (LeadC.normalizeStr (fs "email") 200)
  end.

Definition emailValid (e : string) : bool :=
  Js.truthy e && Regex.test emailPattern e.

(** The consent flag a variant computes. *)
Definition consentOf (v : variant) (c : Js.value) : bool :=
  match v with
  | VariantA => negb (LeadA.consentOf c =? 0)%Z
  | VariantB => negb (LeadB.consentOf c =? 0)%Z
  | VariantC => LeadC.consentOf c
  end.

(** Variants B and C reject a submission without consent; A stores the flag. *)
Definition requiresConsent (v : variant) : bool :=
  match v with VariantA => false | _ => true end.

Definition honeypotEmpty (v : variant) (fs : string -> Js.value) : bool :=
  match honeypotOf v fs with
  | Some h => negb (Js.truthy h)
  | None => true
  end.

(** A submission that passes the honeypot test and the validation of [v]. *)
Definition passesValidation (v : variant) (fs : string -> Js.value) : bool :=
  honeypotEmpty v fs
  && emailValid (emailOf v fs)
  && (negb (requiresConsent v) || consentOf v (fs "consent")).

Definition okOf (m : js Response) : option bool :=
  match outcome m with
  | Normal r => option_map ok (body r)
  | Throw => None
  end.

Definition withFetch (f : string -> bool) (W : World) : World :=
  mkWorld (URL_pathname W) f (nowISO W).

(** The [source_path] a variant binds. *)
Definition sourcePathOf (v : variant) (W : World) (req : Request)
  (fs : string -> Js.value) : string :=
  match v with
  | VariantA => Js.or (LeadA.normalizeString (fs "source_path") 300) (pathname req)
  | VariantB => Js.slice0 500 (LeadB.str (fs "source_path"))
  | VariantC => LeadC.resolveSourcePath W req (fs "source_path")
  end.

(** The values a variant binds into the insert. *)
Definition rowOf (v : variant) (W : World) (req : Request)
  (fs : string -> Js.value) : Row :=
  match v with
  | VariantA =>
      mkRow (Js.orNull (LeadA.normalizeString (fs "name") 120))
            (emailOf v fs)
            (Js.orNull (LeadA.normalizeString (fs "website") 300))
            (Js.orNull (LeadA.normalizeString (fs "message") 2000))
            (LeadA.consentOf (fs "consent"))
            (Js.orNull (sourcePathOf v W req fs))
            (Js.orNull (LeadA.normalizeString (headerValue (hdrUserAgent req)) 300))
  | VariantB =>
      mkRow (Js.orNull (Js.slice0 120 (LeadB.str (fs "name"))))
            (emailOf v fs)
            (Js.orNull (Js.slice0 300 (LeadB.str (fs "website"))))
            (Js.orNull (Js.slice0 3000 (LeadB.str (fs "message"))))
            (LeadB.consentOf (fs "consent"))
            (Js.orNull (sourcePathOf v W req fs))
            (Js.orNull (Js.slice0 400 (LeadB.str (headerValue (hdrUserAgent req)))))
  | VariantC =>
      mkRow (Some (LeadC.normalizeStr (fs "name") 200))
            (emailOf v fs)
            (Some (LeadC.normalizeStr (fs "website") 500))
            (Some (LeadC.normalizeStr (fs "message") 4000))
            1%Z
            (Some (sourcePathOf v W req fs))
            (Some (LeadC.normalizeStr (Js.Str (Js.orEmpty (hdrUserAgent req))) 500))
  end.

(** The rows a run hands to storage, read off the request: one row for a
    POST that is read, passes validation and finds the binding. *)
Definition insertsOf (v : variant) (W : World) (ctx : Context) : list Row :=
  match fieldsOf v (request ctx), LEADS_DB (env ctx) with
  | Some fs, Some _ =>
      if String.eqb (method (request ctx)) "POST" && passesValidation v fs
      then [rowOf v W (request ctx) fs]
      else []
  | _, _ => []
  end.

Arguments LeadA.normalizeString : simpl never.
Arguments LeadC.normalizeStr : simpl never.
Arguments LeadB.str : simpl never.
Arguments Js.toLowerCase : simpl never.
Arguments Js.slice0 : simpl never.
Arguments Js.trim : simpl never.
Arguments Regex.test : simpl never.
Arguments LeadA.consentOf : simpl never.
Arguments LeadB.consentOf : simpl never.
Arguments LeadC.consentOf : simpl never.
Arguments LeadC.resolveSourcePath : simpl never.
Arguments LeadA.pickAllowedOrigin : simpl never.
Arguments LeadC.getAllowedOrigin : simpl never.

Definition rejected {A} (o : option A) : bool :=
  match o with Some _ => false | None => true end.

(** The body cannot be parsed under its declared content type: the reader
    the variant picks for that type rejects. *)
Definition bodyRejects (v : variant) (req : Request) : bool :=
  match v with
  | VariantA | VariantC =>
      if Js.includes (Js.orEmpty (hdrContentType req)) "application/json"
      then rejected (bodyJson req)
      else rejected (bodyFormData req)
  | VariantB =>
      let ct := Js.toLowerCase (Js.orEmpty (hdrContentType req)) in
      if Js.includes ct "application/json" then rejected (bodyJson req)
      else if Js.includes ct "application/x-www-form-urlencoded"
           then rejected (bodyTextParams req)
      else if Js.includes ct "multipart/form-data" then rejected (bodyFormData req)
      else rejected (bodyTextParams req)
  end.

(** The supplied [source_path], normalised as the variant does. *)
Definition suppliedSourcePath (v : variant) (fs : string -> Js.value) : string :=
  match v with
  | VariantA => LeadA.normalizeString (fs "source_path") 300
  | VariantB => Js.slice0 500 (LeadB.str (fs "source_path"))
  | VariantC => LeadC.normalizeStr (fs "source_path") 500
  end.

(** The path component of the Referer header: of a non-empty header that
    parses as a URL with a non-empty path. *)
Definition refererPath (W : World) (req : Request) : option string :=
  match hdrReferer req with
  | Some ref =>
      if Js.truthy ref then
        match URL_pathname W ref with
        | Some p => if Js.truthy p then Some p else None
        | None => None
        end
      else None
  | None => None
  end.

(** The message of the response to a missing storage binding. *)
Definition bindingError (v : variant) : string :=
  match v with
  | VariantA => "Missing D1 binding: LEADS_DB"
  | VariantB => "Server not configured (LEADS_DB missing)."
  | VariantC => "Server misconfiguration (LEADS_DB missing)"
  end.

(** Every code unit of [s] satisfies [p]. *)
Fixpoint allChars (p : ascii -> bool) (s : string) : bool :=
  match s with
  | EmptyString => true
  | String c r => p c && allChars p r
  end.

(** [local@domain.tld]: three non-empty runs without white space or [@],
    joined by [@] and by a dot. *)
Definition emailShape (s : string) : Prop :=
  exists a b c,
    s = (a ++ "@" ++ b ++ "." ++ c)%string
    /\ a <> "" /\ b <> "" /\ c <> ""
    /\ allChars notSpaceAt a = true
    /\ allChars notSpaceAt b = true
    /\ allChars notSpaceAt c = true.

(** The raw value a variant tests as honeypot, before trimming. *)
Definition honeypotField (v : variant) (fs : string -> Js.value) : option Js.value :=
  match v with
  | VariantA => Some (fs "company")
  | VariantB => Some (Js.orValue (fs "hp") (fs "company"))
  | VariantC => None
  end.

Definition isHoneypotKey (k : string) : bool :=
  String.eqb k "hp" || String.eqb k "company".

Definition dropKeys {A} (l : list (string * A)) : list (string * A) :=
  filter (fun kv => negb (isHoneypotKey (fst kv))) l.

(** The same request with the honeypot fields taken out of its body. *)
Definition withoutHoneypot (req : Request) : Request :=
  mkRequest (method req) (pathname req) (hdrOrigin req) (hdrContentType req)
            (hdrReferer req) (hdrUserAgent req) (hdrCfConnectingIp req)
            (hdrXForwardedFor req)
            (option_map (fun b => match b with
                                  | JsonNull => JsonNull
                                  | JsonObject o => JsonObject (dropKeys o)
                                  end) (bodyJson req))
            (option_map dropKeys (bodyFormData req))
            (option_map dropKeys (bodyTextParams req)).

(** A value that is a string of white space only (or the empty string). *)
Definition isBlank (x : Js.value) : bool :=
  match x with
  | Js.Str s => negb (Js.truthy (Js.trim s))
  | _ => false
  end.

(** No code unit of [s] is white space. *)
Fixpoint noWhiteSpace (s : string) : bool :=
  match s with
  | EmptyString => true
  | String c r => negb (Js.isWhiteSpace c) && noWhiteSpace r
  end.

(* ================================================================= *)
(** ** Sample requests *)

Module Sample.

(** A world whose network is down; the one URL it is asked to parse is the
    pricing page. *)
Definition world : World :=
  mkWorld (fun s =>
             if String.eqb s "https://audituniversepro.com/pricing"
             then Some "/pricing"
             else None)
          (fun _ => false)
          "2024-01-01T00:00:00.000Z".

Definition db : D1Database := mkD1 (fun _ => true).

Definition envFull : Env := mkEnv (Some db) (Some "https://hook.example/lead").
Definition envNoHook : Env := mkEnv (Some db) None.
Definition envEmpty : Env := mkEnv None None.

(** A POST to [/api/lead] with a JSON object body. *)
Definition post (o : Js.entries) : Request :=
  mkRequest "POST" "/api/lead" None (Some "application/json") None None None
            None (Some (JsonObject o)) None None.

(** [{"email":"a@b.com","consent":"on","name":"Jo"}] *)
Definition jo : Js.entries :=
  [("email", Js.Str "a@b.com"); ("consent", Js.Str "on"); ("name", Js.Str "Jo")].

(** The same submission with the honeypot field filled in. *)
Definition spam : Js.entries := ("company", Js.Str "SpamBot") :: jo.

(** A submission whose email needs trimming and lower-casing. *)
Definition shout : Js.entries :=
  [("email", Js.Str "  Jo.Smith@Example.COM "); ("consent", Js.Bool true)].

(** An email of 201 characters: [a@b.] followed by 197 times [c]. *)
Definition longEmail : string :=
  "a@b.ccccccccccccccccccccccccccccccccccccccccccccccccccccccccccccccccccccccccccccccccccccccccccccccccccccccccccccccccccccccccccccccccccccccccccccccccccccccccccccccccccccccccccccccccccccccccccccccccccccc".

(** [{"email":"not-an-email","consent":"on"}] *)
Definition notAnEmail : Js.entries :=
  [("email", Js.Str "not-an-email"); ("consent", Js.Str "on")].

(** [{"email":"a@b.com","consent":"yes"}] *)
Definition sayYes : Js.entries :=
  [("email", Js.Str "a@b.com"); ("consent", Js.Str "yes")].

(** A POST announcing JSON whose body does not parse. *)
Definition malformed : Request :=
  mkRequest "POST" "/api/lead" None (Some "application/json") None None None
            None None None None.

(** A JSON POST sent from the pricing page. *)
Definition referred (o : Js.entries) : Request :=
  mkRequest "POST" "/api/lead" None (Some "application/json")
            (Some "https://audituniversepro.com/pricing") None None None
            (Some (JsonObject o)) None None.

(** The submission of [jo] with a honeypot field of three spaces. *)
Definition blankHoneypot : Js.entries := ("company", Js.Str "   ") :: jo.

Definition preflight (origin : string) : Request :=
  mkRequest "OPTIONS" "/api/lead" (Some origin) None None None None None
            None None None.

End Sample.

(* ================================================================= *)
(** ** Views for the further properties *)

(** The text of the 405 response. *)
Definition methodError (v : variant) : string :=
  match v with
  | VariantB => "Method not allowed. Use POST."
  | _ => "Method not allowed"
  end.

(** The response to an insert that rejects: the outer [catch] in variants A
    and C, the [catch] around the insert in variant B. *)
Definition insertFailure (v : variant) : Z * string :=
  match v with
  | VariantA => (LeadA.catchStatus, LeadA.catchError)
  | VariantB => (500%Z, "Database insert failed.")
  | VariantC => (500%Z, "Server error")
  end.


(** The webhook URL a variant fetches: as configured in variant A, trimmed
    in variants B and C. *)
Definition hookOf (v : variant) (e : Env) : string :=
  match v with
  | VariantA => Js.orEmpty (LEAD_WEBHOOK_URL e)
  | _ => Js.trim (Js.orEmpty (LEAD_WEBHOOK_URL e))
  end.

(** The object a variant posts to the webhook. *)
Definition payloadOf (v : variant) (W : World) (req : Request)
  (fs : string -> Js.value) : Payload :=
  match v with
  | VariantA =>
      mkPayload (LeadA.normalizeString (fs "name") 120)
                (emailOf v fs)
                (LeadA.normalizeString (fs "website") 300)
                (LeadA.normalizeString (fs "message") 2000)
                (negb (LeadA.consentOf (fs "consent") =? 0)%Z)
                (sourcePathOf v W req fs)
                (LeadA.normalizeString (headerValue (hdrUserAgent req)) 300)
                (Some (nowISO W)) None None
  | VariantB =>
      mkPayload (Js.slice0 120 (LeadB.str (fs "name")))
                (emailOf v fs)
                (Js.slice0 300 (LeadB.str (fs "website")))
                (Js.slice0 3000 (LeadB.str (fs "message")))
                (negb (LeadB.consentOf (fs "consent") =? 0)%Z)
                (sourcePathOf v W req fs)
                (Js.slice0 400 (LeadB.str (headerValue (hdrUserAgent req))))
                None (Some (nowISO W))
                (Some (Js.or (Js.orEmpty (hdrCfConnectingIp req))
                             (Js.or (Js.orEmpty (hdrXForwardedFor req)) "")))
  | VariantC =>
      mkPayload (LeadC.normalizeStr (fs "name") 200)
                (emailOf v fs)
                (LeadC.normalizeStr (fs "website") 500)
                (LeadC.normalizeStr (fs "message") 4000)
                true
                (sourcePathOf v W req fs)
                (LeadC.normalizeStr (Js.Str (Js.orEmpty (hdrUserAgent req))) 500)
                (Some (nowISO W)) None None
  end.

(** The storage and network calls of a trace, in order. *)
Fixpoint calls (t : list event) : list event :=
  match t with
  | [] => []
  | DbRun r :: t' => DbRun r :: calls t'
  | Fetch u p :: t' => Fetch u p :: calls t'
  | _ :: t' => calls t'
  end.

(** The storage and network calls of a run, read off the request: the
    insert of a POST that is read, passes validation and finds the binding,
    then the webhook fetch when the insert resolved and a webhook is
    configured. *)
Definition callsOf (v : variant) (W : World) (ctx : Context) : list event :=
  match fieldsOf v (request ctx), LEADS_DB (env ctx) with
  | Some fs, Some db =>
      if String.eqb (method (request ctx)) "POST" && passesValidation v fs
      then
        DbRun (rowOf v W (request ctx) fs)
        :: (if runResolves db (rowOf v W (request ctx) fs)
               && Js.truthy (hookOf v (env ctx))
            then [Fetch (hookOf v (env ctx)) (payloadOf v W (request ctx) fs)]
            else [])
      else []
  | _, _ => []
  end.

(** The CORS origin a variant computes at the top of [onRequest]. *)
Definition corsOrigin (v : variant) (req : Request) : string :=
  match v with
  | VariantA => LeadA.pickAllowedOrigin req
  | VariantB => Js.orEmpty (hdrOrigin req)
  | VariantC => LeadC.getAllowedOrigin req
  end.

(** [r] is what the variant's response builders give for the request's CORS
    origin: [jsonResponse] in variant A; [json] or the bare preflight
    response in variant B; [jsonResponse] or [corsPreflight] in variant C. *)
Definition builtBy (v : variant) (req : Request) (r : Response) : Prop :=
  match v with
  | VariantA =>
      exists b, LeadA.jsonResponse b (status r) (corsOrigin v req) = ret r
  | VariantB =>
      newResponse None 204 (LeadB.corsHeaders (corsOrigin v req)) = ret r
      \/ exists b, LeadB.json (corsOrigin v req) b (status r) = ret r
  | VariantC =>
      LeadC.corsPreflight (corsOrigin v req) = ret r
      \/ exists b, LeadC.jsonResponse b (status r) (corsOrigin v req) = ret r
  end.

(** The status, the [ok] flag and the [error] text of a response agree. *)
Definition coherent (r : Response) : bool :=
  match body r with
  | None => (status r =? 204)%Z
  | Some b =>
      existsb (Z.eqb (status r)) [200; 400; 405; 500]%Z
      && Bool.eqb (ok b) (status r =? 200)%Z
      && Bool.eqb (ok b) (match error b with None => true | Some _ => false end)
  end.

(** How a variant binds a text column: [x || null] in variants A and B, the
    text itself in variant C. *)
Definition bound (v : variant) (s : string) : option string :=
  match v with
  | VariantC => Some s
  | _ => Js.orNull s
  end.

(** The body of the 200 response to a stored submission; variant C reports
    whether the webhook was reached. *)
Definition successBody (v : variant) (sent : bool) : Body :=
  match v with
  | VariantC => mkBody true None (Some sent)
  | _ => okBody
  end.

(** The status of the response to a POST whose fields were read, decided
    test by test in the order of the handlers; [None] when the run throws. *)
Definition statusOfSubmission (v : variant) (W : World) (ctx : Context)
  (fs : string -> Js.value) : Z :=
  if negb (honeypotEmpty v fs) then 200%Z
  else if negb (emailValid (emailOf v fs)) then 400%Z
  else if requiresConsent v && negb (consentOf v (fs "consent")) then 400%Z
  else
    match LEADS_DB (env ctx) with
    | None => 500%Z
    | Some db =>
        if runResolves db (rowOf v W (request ctx) fs) then
          match v with
          | VariantA =>
              if Js.truthy (hookOf v (env ctx))
                 && negb (fetchResolves W (hookOf v (env ctx)))
              then LeadA.catchStatus
              else 200%Z
          | _ => 200%Z
          end
        else match v with VariantA => LeadA.catchStatus | _ => 500%Z end
    end.

(** The status of every run. *)
Definition statusSpec (v : variant) (W : World) (ctx : Context) : option Z :=
  if String.eqb (method (request ctx)) "OPTIONS" then
    match v with VariantA => None | _ => Some 204%Z end
  else if negb (String.eqb (method (request ctx)) "POST") then Some 405%Z
  else
    match v, LEADS_DB (env ctx), fieldsOf v (request ctx) with
    | VariantA, None, _ => Some 500%Z
    | VariantA, _, None => Some LeadA.catchStatus
    | VariantB, _, None => None
    | VariantC, _, None => Some 500%Z
    | _, _, Some fs => Some (statusOfSubmission v W ctx fs)
    end.

(** [p] is an initial segment of [s]. *)
Definition isPrefixOf (p s : string) : Prop := exists rest, s = (p ++ rest)%string.

(** The regex does not tell a letter from its lower-case form. *)
Fixpoint caseBlind (r : Regex.regex) : Prop :=
  match r with
  | Regex.Class p => forall c, p (Js.lowerChar c) = p c
  | Regex.Seq a b | Regex.Alt a b => caseBlind a /\ caseBlind b
  | Regex.Star a => caseBlind a
  | _ => True
  end.

(** The length caps of a variant, as passed to its normaliser. *)
Definition nameCap (v : variant) : nat :=
  match v with VariantC => 200 | _ => 120 end.
Definition websiteCap (v : variant) : nat :=
  match v with VariantC => 500 | _ => 300 end.
Definition messageCap (v : variant) : nat :=
  match v with VariantA => 2000 | VariantB => 3000 | VariantC => 4000 end.
Definition userAgentCap (v : variant) : nat :=
  match v with VariantA => 300 | VariantB => 400 | VariantC => 500 end.

(** The length of a bound text, 0 for NULL. *)
Definition boundLength (o : option string) : nat :=
  match o with Some s => String.length s | None => 0 end.

(** The console lines of a trace, in order. *)
Fixpoint logs (t : list event) : list event :=
  match t with
  | [] => []
  | ConsoleWarn :: t' => ConsoleWarn :: logs t'
  | ConsoleError :: t' => ConsoleError :: logs t'
  | _ :: t' => logs t'
  end.

(** The console lines of a run, read off the request.  Only variant C
    writes to the console: [console.error] in its outer [catch], reached
    when the body read or the insert throws, and [console.warn] when the
    webhook fetch rejects. *)
Definition logsOf (v : variant) (W : World) (ctx : Context) : list event :=
  match v with
  | VariantC =>
      if String.eqb (method (request ctx)) "POST" then
        match fieldsOf v (request ctx) with
        | None => [ConsoleError]
        | Some fs =>
            if passesValidation v fs then
              match LEADS_DB (env ctx) with
              | None => []
              | Some db =>
                  if runResolves db (rowOf v W (request ctx) fs) then
                    if Js.truthy (hookOf v (env ctx))
                       && negb (fetchResolves W (hookOf v (env ctx)))
                    then [ConsoleWarn]
                    else []
                  else [ConsoleError]
              end
            else []
        end
      else []
  | _ => []
  end.

(** The three headers that answer a preflight. *)
Definition answersPreflight (r : Response) : Prop :=
  header (headers r) "Access-Control-Allow-Methods" = Some "POST, OPTIONS"
  /\ header (headers r) "Access-Control-Allow-Headers" = Some "Content-Type"
  /\ header (headers r) "Access-Control-Max-Age" = Some "86400".

(* ================================================================= *)
(** ** More sample requests *)

Module MoreSamples.

(** A GET of the endpoint. *)
Definition getRequest : Request :=
  mkRequest "GET" "/api/lead" None None None None None None None None None.

(** A database whose insert rejects. *)
Definition brokenDb : D1Database := mkD1 (fun _ => false).

(** A world whose network is up. *)
Definition online : World :=
  mkWorld (fun _ => None) (fun _ => true) "2024-01-01T00:00:00.000Z".


(** A POST announcing JSON whose body is the JSON value [null]. *)
Definition nullBody : Request :=
  mkRequest "POST" "/api/lead" None (Some "application/json") None None None
            None (Some JsonNull) None None.

(** The response of variant C to a preflight from an allowed origin. *)
Definition allowedPreflight : Response :=
  mkResponse 204
    [("Cache-Control", "no-store");
     ("Access-Control-Allow-Methods", "POST, OPTIONS");
     ("Access-Control-Allow-Headers", "Content-Type");
     ("Access-Control-Max-Age", "86400");
     ("Access-Control-Allow-Origin", "https://audituniversepro.com");
     ("Vary", "Origin")]
    None.

(** The response of variant B to a preflight from [https://evil.example]. *)
Definition foreignPreflightB : Response :=
  mkResponse 204
    [("Access-Control-Allow-Origin", "https://evil.example");
     ("Access-Control-Allow-Methods", "POST, OPTIONS");
     ("Access-Control-Allow-Headers", "Content-Type");
     ("Access-Control-Max-Age", "86400");
     ("Vary", "Origin")]
    None.

(** The response of variant A to an invalid email sent without [Origin]. *)
Definition invalidEmailA : Response :=
  mkResponse 400
    [("Content-Type", "application/json; charset=utf-8");
     ("Cache-Control", "no-store");
     ("Access-Control-Allow-Methods", "POST, OPTIONS");
     ("Access-Control-Allow-Headers", "Content-Type");
     ("Access-Control-Max-Age", "86400")]
    (Some (errBody "Valid email is required.")).

(** The rows variants C and A store for [Sample.jo]. *)
Definition joRowC : Row :=
  mkRow (Some "Jo") "a@b.com" (Some "") (Some "") 1%Z (Some "/api/lead") (Some "").
Definition joRowA : Row :=
  mkRow (Some "Jo") "a@b.com" None None 1%Z (Some "/api/lead") None.

(** The object variant C posts to the webhook for [Sample.jo]. *)
Definition joPayloadC : Payload :=
  mkPayload "Jo" "a@b.com" "" "" true "/api/lead" ""
            (Some "2024-01-01T00:00:00.000Z") None None.

End MoreSamples.

(* ================================================================= *)
(** ** Proof tactics *)

(** Decide the method tests of a handler for a POST, from the lemma [L] on
    the method tests and the hypothesis [H] on the method. *)
Ltac post_method L H :=
  let Ho := fresh in
  let Hp := fresh in
  destruct (L _ H) as [Ho Hp]; rewrite Ho, Hp; clear Ho Hp.

(** Split on the outcome of reading the body, knowing it has no effect. *)
Ltac read_body m lemma :=
  let t := fresh "t" in
  let o := fresh "o" in
  let E := fresh "E" in
  pose proof lemma as E; destruct m as [t o]; simpl in E; subst t.

(** Case split on the first undecided test of the goal, down to the atoms
    of a boolean expression. *)
Ltac split_atom c :=
  lazymatch c with
  | negb ?a => split_atom a
  | andb ?a ?b => first [ split_atom a | split_atom b ]
  | orb ?a ?b => first [ split_atom a | split_atom b ]
  | true => fail
  | false => fail
  | _ => destruct c eqn:?
  end.

Ltac split_if :=
  match goal with
  | |- context [if ?c then _ else _] => split_atom c
  | |- context [match ?c with Some _ => _ | None => _ end] => destruct c eqn:?
  end.

(** Case split on the method tests of a handler. *)
Ltac settle_method req :=
  let Eo := fresh "Eo" in
  let Ep := fresh "Ep" in
  destruct (String.eqb (method req) "OPTIONS") eqn:Eo;
  [ apply String.eqb_eq in Eo; rewrite Eo; cbn
  | destruct (String.eqb (method req) "POST") eqn:Ep; cbn [negb andb] ].

(** Settle one path of a handler for the response lemma: the run threw,
    or its response is what a builder gives. *)
Ltac built_leaf :=
  let r := fresh "r" in
  let E := fresh "E" in
  intros r E; cbn in E;
  first
    [ discriminate E
    | injection E as <-; split;
      [ first [ eexists; reflexivity
              | left; reflexivity
              | right; eexists; reflexivity ]
      | reflexivity ] ].

(* ================================================================= *)
(** * Properties *)

(** ** Reading the body performs no effect *)

Lemma awaitOpt_trace {A} (o : option A) : trace (awaitOpt o) = [].
Proof. destruct o; reflexivity. Qed.

Lemma LeadA_readBody_trace req : trace (LeadA.readBody req) = [].
Proof.
  unfold LeadA.readBody.
  destruct (Js.includes _ _).
  - destruct (bodyJson req) as [[|o]|]; reflexivity.
  - destruct (bodyFormData req); reflexivity.
Qed.

Lemma LeadB_parseBody_trace req : trace (LeadB.parseBody req) = [].
Proof.
  unfold LeadB.parseBody.
  repeat match goal with
         | |- context [if ?c then _ else _] => destruct c
         end;
    match goal with
    | |- context [awaitOpt ?o] => destruct o
    end; reflexivity.
Qed.

Lemma LeadC_readBody_trace req : trace (LeadC.readBody req) = [].
Proof.
  unfold LeadC.readBody.
  destruct (Js.includes _ _).
  - destruct (bodyJson req); reflexivity.
  - destruct (bodyFormData req); reflexivity.
Qed.

Lemma js_eta {A} (m : js A) t r : trace m = t -> outcome m = r -> m = (t, r).
Proof. destruct m; simpl; intros; subst; reflexivity. Qed.

Lemma fieldsOf_A req fs :
  fieldsOf VariantA req = Some fs ->
  exists raw, LeadA.readBody req = ret raw /\ fs = rawField raw.
Proof.
  unfold fieldsOf. intros H.
  destruct (outcome (LeadA.readBody req)) as [raw|] eqn:E; [|discriminate].
  exists raw. split; [|congruence].
  apply js_eta; [apply LeadA_readBody_trace | exact E].
Qed.

Lemma fieldsOf_B req fs :
  fieldsOf VariantB req = Some fs ->
  exists o, LeadB.parseBody req = ret (JsonObject o) /\ fs = Js.prop o.
Proof.
  unfold fieldsOf. intros H.
  destruct (outcome (LeadB.parseBody req)) as [[|o]|] eqn:E; try discriminate.
  exists o. split; [|congruence].
  apply js_eta; [apply LeadB_parseBody_trace | exact E].
Qed.

Lemma fieldsOf_C req fs :
  fieldsOf VariantC req = Some fs ->
  exists o, LeadC.readBody req = ret (JsonObject o) /\ fs = Js.prop o.
Proof.
  unfold fieldsOf. intros H.
  destruct (outcome (LeadC.readBody req)) as [[|o]|] eqn:E; try discriminate.
  exists o. split; [|congruence].
  apply js_eta; [apply LeadC_readBody_trace | exact E].
Qed.

(** ** The effect monad on concrete steps *)

Lemma bind_ret {A B} (a : A) (k : A -> js B) : bind (ret a) k = k a.
Proof. unfold bind; simpl. destruct (k a); reflexivity. Qed.

Lemma tryCatch_ret {A} (a : A) (h : js A) : tryCatch (ret a) h = ret a.
Proof. reflexivity. Qed.

Lemma tryCatch_throw {A} (h : js A) : tryCatch throw h = h.
Proof. destruct h; reflexivity. Qed.

Lemma bind_throw {A B} (k : A -> js B) : bind throw k = throw.
Proof. reflexivity. Qed.

Lemma ret_inj {A} (a b : A) : ret a = ret b -> a = b.
Proof. intros E. injection E as ->. reflexivity. Qed.

Lemma d1Run_resolves db r :
  runResolves db r = true -> d1Run db r = ([DbRun r], Normal tt).
Proof. unfold d1Run. intros ->. reflexivity. Qed.

Lemma fetchPost_rejects W url p :
  fetchResolves W url = false -> fetchPost W url p = ([Fetch url p], Throw).
Proof. unfold fetchPost. intros ->. reflexivity. Qed.

Lemma method_POST req :
  method req = "POST" ->
  String.eqb (method req) "OPTIONS" = false /\ String.eqb (method req) "POST" = true.
Proof. intros ->. split; reflexivity. Qed.

(** ** Strings *)

Lemma slice0_short n s : String.length s <= n -> Js.slice0 n s = s.
Proof.
  unfold Js.slice0. revert n.
  induction s as [|c s IH]; intros [|n] H; simpl in *; try reflexivity; try lia.
  rewrite IH by lia. reflexivity.
Qed.

Lemma capped_is_slice0 n s :
  (if n <? String.length s then Js.slice0 n s else s) = Js.slice0 n s.
Proof.
  destruct (n <? String.length s) eqn:E; [reflexivity|].
  apply Nat.ltb_ge in E. symmetry. apply slice0_short. exact E.
Qed.

Lemma lowerChar_idem c : Js.lowerChar (Js.lowerChar c) = Js.lowerChar c.
Proof. destruct c as [[] [] [] [] [] [] [] []]; reflexivity. Qed.

Lemma toLowerCase_cons c s :
  Js.toLowerCase (String c s) = String (Js.lowerChar c) (Js.toLowerCase s).
Proof. reflexivity. Qed.

Lemma toLowerCase_idem s : Js.toLowerCase (Js.toLowerCase s) = Js.toLowerCase s.
Proof.
  induction s as [|c s IH]; [reflexivity|].
  rewrite !toLowerCase_cons, lowerChar_idem, IH. reflexivity.
Qed.

Lemma normalizeString_value v n :
  Js.isNullish v = false ->
  LeadA.normalizeString v n = Js.slice0 n (Js.trim (Js.ToString v)).
Proof.
  unfold LeadA.normalizeString. intros ->. apply capped_is_slice0.
Qed.

Lemma normalizeStr_value v n :
  Js.isNullish v = false ->
  LeadC.normalizeStr v n = Js.slice0 n (Js.trim (Js.ToString v)).
Proof.
  unfold LeadC.normalizeStr. intros ->. apply capped_is_slice0.
Qed.

Lemma normalizeString_nullish v n :
  Js.isNullish v = true -> LeadA.normalizeString v n = "".
Proof. unfold LeadA.normalizeString. intros ->. reflexivity. Qed.

Lemma normalizeStr_nullish v n :
  Js.isNullish v = true -> LeadC.normalizeStr v n = "".
Proof. unfold LeadC.normalizeStr. intros ->. reflexivity. Qed.

(** ** Whitespace and case *)

Lemma trimEnd_noWhiteSpace s : noWhiteSpace s = true -> Js.trimEnd s = s.
Proof.
  induction s as [|c r IH]; [reflexivity|].
  simpl. intros H. apply andb_prop in H. destruct H as [Hc Hr].
  rewrite (IH Hr). apply negb_true_iff in Hc. rewrite Hc.
  destruct r; reflexivity.
Qed.

Lemma trim_noWhiteSpace s : noWhiteSpace s = true -> Js.trim s = s.
Proof.
  intros H. unfold Js.trim.
  assert (E : Js.trimStart s = s).
  { destruct s as [|c r]; [reflexivity|].
    simpl in *. apply andb_prop in H. destruct H as [Hc _].
    apply negb_true_iff in Hc. rewrite Hc. reflexivity. }
  rewrite E. apply trimEnd_noWhiteSpace. exact H.
Qed.

Lemma isWhiteSpace_lowerChar c :
  Js.isWhiteSpace (Js.lowerChar c) = Js.isWhiteSpace c.
Proof. destruct c as [[] [] [] [] [] [] [] []]; reflexivity. Qed.

Lemma noWhiteSpace_toLowerCase s :
  noWhiteSpace (Js.toLowerCase s) = noWhiteSpace s.
Proof.
  induction s as [|c r IH]; [reflexivity|].
  change (Js.toLowerCase (String c r))
    with (String (Js.lowerChar c) (Js.toLowerCase r)).
  simpl. rewrite isWhiteSpace_lowerChar, IH. reflexivity.
Qed.

(** ** The email pattern *)

Module RegexFacts.

  Import Regex.

(** Matching by derivatives is matching. *)

Lemma append_empty_r (s : string) : (s ++ "")%string = s.
Proof. induction s as [|c s IH]; simpl; [|rewrite IH]; reflexivity. Qed.

Lemma append_assoc (a b c : string) :
  ((a ++ b) ++ c)%string = (a ++ (b ++ c))%string.
Proof. induction a as [|x a IH]; simpl; [|rewrite IH]; reflexivity. Qed.

Lemma append_empty (a b : string) : (a ++ b)%string = "" -> a = "" /\ b = "".
Proof. destruct a; simpl; [auto | discriminate]. Qed.

Lemma Matches_Void_inv s : Matches Void s -> False.
Proof. intros H. inversion H. Qed.

Lemma Matches_Eps_inv s : Matches Eps s -> s = "".
Proof. intros H. inversion H. reflexivity. Qed.

Lemma Matches_Class_inv p s :
  Matches (Class p) s -> exists c, s = String c "" /\ p c = true.
Proof. intros H. inversion H; subst. eauto. Qed.

Lemma Matches_Seq_inv r1 r2 s :
  Matches (Seq r1 r2) s ->
  exists s1 s2, s = (s1 ++ s2)%string /\ Matches r1 s1 /\ Matches r2 s2.
Proof. intros H. inversion H; subst. eauto. Qed.

Lemma Matches_Alt_inv r1 r2 s :
  Matches (Alt r1 r2) s -> Matches r1 s \/ Matches r2 s.
Proof. intros H. inversion H; subst; auto. Qed.

Lemma nullable_Matches r : nullable r = true <-> Matches r "".
Proof.
  induction r as [| |p|r1 IH1 r2 IH2|r1 IH1 r2 IH2|r IH]; simpl.
  - split; [discriminate | intros H; destruct (Matches_Void_inv _ H)].
  - split; [constructor | reflexivity].
  - split; [discriminate|].
    intros H. apply Matches_Class_inv in H. destruct H as (c & E & _).
    discriminate E.
  - rewrite andb_true_iff, IH1, IH2. split.
    + intros [H1 H2]. exact (MSeq _ _ "" "" H1 H2).
    + intros H. apply Matches_Seq_inv in H. destruct H as (s1 & s2 & E & H1 & H2).
      symmetry in E. apply append_empty in E. destruct E; subst. auto.
  - rewrite orb_true_iff, IH1, IH2. split.
    + intros [H|H]; [apply MAltL | apply MAltR]; exact H.
    + apply Matches_Alt_inv.
  - split; [constructor | reflexivity].
Qed.

Lemma Matches_seq r1 r2 s : Matches (seq r1 r2) s <-> Matches (Seq r1 r2) s.
Proof.
  assert (V1 : forall r, Matches (Seq Void r) s -> False).
  { intros r H. apply Matches_Seq_inv in H. destruct H as (? & ? & _ & H & _).
    exact (Matches_Void_inv _ H). }
  assert (V2 : forall r, Matches (Seq r Void) s -> False).
  { intros r H. apply Matches_Seq_inv in H. destruct H as (? & ? & _ & _ & H).
    exact (Matches_Void_inv _ H). }
  assert (E1 : forall r, Matches r s <-> Matches (Seq Eps r) s).
  { intros r. split.
    - intros H. exact (MSeq Eps r "" s MEps H).
    - intros H. apply Matches_Seq_inv in H. destruct H as (s1 & s2 & -> & H1 & H2).
      apply Matches_Eps_inv in H1. subst. exact H2. }
  destruct r1; destruct r2; simpl; try tauto;
    try (split; intros H;
         [ destruct (Matches_Void_inv _ H)
         | first [ destruct (V1 _ H) | destruct (V2 _ H) ] ]);
    try apply E1.
Qed.

Lemma Matches_alt r1 r2 s : Matches (alt r1 r2) s <-> Matches (Alt r1 r2) s.
Proof.
  assert (L : Matches r2 s <-> Matches (Alt Void r2) s).
  { split; [apply MAltR|].
    intros H. apply Matches_Alt_inv in H. destruct H as [H|H];
      [destruct (Matches_Void_inv _ H) | exact H]. }
  assert (R : Matches r1 s <-> Matches (Alt r1 Void) s).
  { split; [apply MAltL|].
    intros H. apply Matches_Alt_inv in H. destruct H as [H|H];
      [exact H | destruct (Matches_Void_inv _ H)]. }
  destruct r1; try exact L; destruct r2; simpl; try exact R; tauto.
Qed.

(** A match of a sequence that starts with [c]. *)
Lemma Matches_Seq_cons r1 r2 c s :
  Matches (Seq r1 r2) (String c s) <->
  (exists s1 s2, s = (s1 ++ s2)%string
                 /\ Matches r1 (String c s1) /\ Matches r2 s2)
  \/ (Matches r1 "" /\ Matches r2 (String c s)).
Proof.
  split.
  - intros H. apply Matches_Seq_inv in H. destruct H as (s1 & s2 & E & H1 & H2).
    destruct s1 as [|c1 s1]; simpl in E.
    + subst. right. auto.
    + injection E as -> ->. left. eauto.
  - intros [(s1 & s2 & -> & H1 & H2)|[H1 H2]].
    + exact (MSeq r1 r2 (String c s1) s2 H1 H2).
    + exact (MSeq r1 r2 "" (String c s) H1 H2).
Qed.

(** A match of a star that starts with [c]. *)
Lemma Matches_Star_cons r c s :
  Matches (Star r) (String c s) <->
  exists s1 s2, s = (s1 ++ s2)%string
                /\ Matches r (String c s1) /\ Matches (Star r) s2.
Proof.
  split.
  - intros H. remember (Star r) as r' eqn:Er. remember (String c s) as w eqn:Ew.
    induction H as [| | | | | |r0 s1 s2 H1 _ H2 IH2]; try discriminate.
    injection Er as ->.
    destruct s1 as [|c1 s1]; simpl in Ew.
    + apply IH2; [reflexivity | exact Ew].
    + injection Ew as -> <-. eauto.
  - intros (s1 & s2 & -> & H1 & H2).
    exact (MStarCons r (String c s1) s2 H1 H2).
Qed.

Lemma deriv_Matches c r s : Matches (deriv c r) s <-> Matches r (String c s).
Proof.
  revert s.
  induction r as [| |p|r1 IH1 r2 IH2|r1 IH1 r2 IH2|r IH]; intros s; simpl.
  - split; intros H; destruct (Matches_Void_inv _ H).
  - split; intros H; [destruct (Matches_Void_inv _ H)|].
    apply Matches_Eps_inv in H. discriminate H.
  - destruct (p c) eqn:Ep; split; intros H.
    + apply Matches_Eps_inv in H. subst. constructor. exact Ep.
    + apply Matches_Class_inv in H. destruct H as (c' & E & _).
      injection E as <- ->. constructor.
    + destruct (Matches_Void_inv _ H).
    + apply Matches_Class_inv in H. destruct H as (c' & E & Hp).
      injection E as <- ->. congruence.
  - rewrite Matches_Seq_cons.
    destruct (nullable r1) eqn:En.
    + rewrite Matches_alt. split.
      * intros H. apply Matches_Alt_inv in H. destruct H as [H|H].
        -- apply Matches_seq, Matches_Seq_inv in H.
           destruct H as (s1 & s2 & -> & Ha & Hb).
           left. exists s1, s2. rewrite <- IH1. auto.
        -- right. split; [apply nullable_Matches; exact En | apply IH2; exact H].
      * intros [(s1 & s2 & -> & Ha & Hb)|[_ Hb]].
        -- apply MAltL. apply Matches_seq. apply MSeq; [apply IH1|]; assumption.
        -- apply MAltR. apply IH2. exact Hb.
    + rewrite Matches_seq. split.
      * intros H. apply Matches_Seq_inv in H.
        destruct H as (s1 & s2 & -> & Ha & Hb).
        left. exists s1, s2. rewrite <- IH1. auto.
      * intros [(s1 & s2 & -> & Ha & Hb)|[Ha _]].
        -- apply MSeq; [apply IH1|]; assumption.
        -- apply nullable_Matches in Ha. congruence.
  - rewrite Matches_alt. split; intros H; apply Matches_Alt_inv in H;
      (destruct H as [H|H];
       [apply MAltL; apply IH1 | apply MAltR; apply IH2]; exact H).
  - rewrite Matches_seq, Matches_Star_cons. split.
    + intros H. apply Matches_Seq_inv in H.
      destruct H as (s1 & s2 & -> & Ha & Hb).
      exists s1, s2. rewrite <- IH. auto.
    + intros (s1 & s2 & -> & Ha & Hb). apply MSeq; [apply IH|]; assumption.
Qed.

(** [test] decides the language of the regex. *)
Lemma test_Matches r s : test r s = true <-> Matches r s.
Proof.
  revert r. induction s as [|c s IH]; intros r.
  - apply nullable_Matches.
  - change (test r (String c s)) with (test (deriv c r) s).
    rewrite IH. apply deriv_Matches.
Qed.

(** The shape of a valid email. *)

Lemma Matches_Star_Class p s :
  Matches (Star (Class p)) s <-> allChars p s = true.
Proof.
  split.
  - intros H. remember (Star (Class p)) as r eqn:Er.
    induction H as [| | | | | |r0 s1 s2 H1 _ H2 IH2]; try discriminate.
    + reflexivity.
    + injection Er as ->. apply Matches_Class_inv in H1.
      destruct H1 as (c & -> & Hp). simpl. rewrite Hp. apply IH2. reflexivity.
  - induction s as [|c s IH]; simpl; intros H; [constructor|].
    apply andb_prop in H. destruct H as [Hp Hs].
    exact (MStarCons (Class p) (String c "") s (MClass p c Hp) (IH Hs)).
Qed.

Lemma Matches_Plus_Class p s :
  Matches (Plus (Class p)) s <-> s <> "" /\ allChars p s = true.
Proof.
  unfold Plus. split.
  - intros H. apply Matches_Seq_inv in H. destruct H as (s1 & s2 & -> & H1 & H2).
    apply Matches_Class_inv in H1. destruct H1 as (c & -> & Hp).
    apply Matches_Star_Class in H2. simpl. rewrite Hp, H2.
    split; [discriminate | reflexivity].
  - intros [Hne H]. destruct s as [|c s]; [contradiction|].
    simpl in H. apply andb_prop in H. destruct H as [Hp Hs].
    apply (MSeq (Class p) (Star (Class p)) (String c "") s).
    + constructor. exact Hp.
    + apply Matches_Star_Class. exact Hs.
Qed.

Lemma Matches_char c s :
  Matches (Class (Ascii.eqb c)) s <-> s = String c "".
Proof.
  split.
  - intros H. apply Matches_Class_inv in H. destruct H as (c' & -> & E).
    apply Ascii.eqb_eq in E. subst. reflexivity.
  - intros ->. constructor. apply Ascii.eqb_refl.
Qed.

Lemma Matches_emailPattern s : Matches emailPattern s <-> emailShape s.
Proof.
  unfold emailPattern, emailShape. split.
  - intros H.
    apply Matches_Seq_inv in H. destruct H as (a & s1 & -> & Ha & H).
    apply Matches_Seq_inv in H. destruct H as (at1 & s2 & -> & Hat & H).
    apply Matches_Seq_inv in H. destruct H as (b & s3 & -> & Hb & H).
    apply Matches_Seq_inv in H. destruct H as (dot & c & -> & Hdot & Hc).
    apply Matches_char in Hat, Hdot. subst.
    apply Matches_Plus_Class in Ha, Hb, Hc.
    exists a, b, c. tauto.
  - intros (a & b & c & -> & Ha & Hb & Hc & Pa & Pb & Pc).
    apply MSeq; [apply Matches_Plus_Class; auto|].
    apply (MSeq _ _ "@"); [apply Matches_char; reflexivity|].
    apply MSeq; [apply Matches_Plus_Class; auto|].
    apply (MSeq _ _ "."); [apply Matches_char; reflexivity|].
    apply Matches_Plus_Class; auto.
Qed.

(** The pattern of the handlers accepts exactly the strings of that shape. *)
Lemma emailPattern_shape s : Regex.test emailPattern s = true <-> emailShape s.
Proof. rewrite test_Matches. apply Matches_emailPattern. Qed.

Lemma noWhiteSpace_app a b :
  noWhiteSpace (a ++ b)%string = noWhiteSpace a && noWhiteSpace b.
Proof.
  induction a as [|c a IH]; simpl; [reflexivity|].
  rewrite IH. apply andb_assoc.
Qed.

Lemma notSpaceAt_noWhiteSpace s :
  allChars notSpaceAt s = true -> noWhiteSpace s = true.
Proof.
  induction s as [|c s IH]; simpl; [reflexivity|].
  intros H. apply andb_prop in H. destruct H as [Hc Hs].
  unfold notSpaceAt in Hc. apply andb_prop in Hc. destruct Hc as [Hc _].
  rewrite Hc, (IH Hs). reflexivity.
Qed.

(** A valid email holds no white space. *)
Lemma valid_email_noWhiteSpace s :
  Regex.test emailPattern s = true -> noWhiteSpace s = true.
Proof.
  intros H. apply emailPattern_shape in H.
  destruct H as (a & b & c & -> & _ & _ & _ & Pa & Pb & Pc).
  rewrite !noWhiteSpace_app.
  rewrite (notSpaceAt_noWhiteSpace _ Pa), (notSpaceAt_noWhiteSpace _ Pb),
    (notSpaceAt_noWhiteSpace _ Pc).
  reflexivity.
Qed.

End RegexFacts.

(** ** The rows a run hands to storage *)

Lemma inserts_A W ctx :
  inserts (trace (LeadA.onRequest W ctx)) = insertsOf VariantA W ctx.
Proof.
  unfold insertsOf, fieldsOf, LeadA.onRequest.
  read_body (LeadA.readBody (request ctx)) (LeadA_readBody_trace (request ctx)).
  settle_method (request ctx).
  1, 3: destruct o; destruct (LEADS_DB (env ctx)); reflexivity.
  destruct (LEADS_DB (env ctx)) as [db|]; [| destruct o; reflexivity].
  destruct o as [raw|]; [| reflexivity].
  change ([], Normal raw) with (ret raw). rewrite bind_ret.
  unfold passesValidation, honeypotEmpty, honeypotOf, emailValid, emailOf,
    requiresConsent, LeadA.isValidEmail, d1Run, fetchPost.
  cbn [outcome snd ret rawField String.eqb Ascii.eqb Bool.eqb negb orb andb].
  repeat (split_if; cbn [negb orb andb]); try reflexivity.
Qed.

Lemma inserts_B W ctx :
  inserts (trace (LeadB.onRequest W ctx)) = insertsOf VariantB W ctx.
Proof.
  unfold insertsOf, fieldsOf, LeadB.onRequest.
  read_body (LeadB.parseBody (request ctx)) (LeadB_parseBody_trace (request ctx)).
  settle_method (request ctx).
  1, 3: destruct o as [[|f]|]; destruct (LEADS_DB (env ctx)); reflexivity.
  destruct o as [[|f]|];
    [ destruct (LEADS_DB (env ctx)); reflexivity
    | | destruct (LEADS_DB (env ctx)); reflexivity ].
  change ([], Normal (JsonObject f)) with (ret (JsonObject f)).
  rewrite bind_ret. unfold LeadB.get. rewrite !bind_ret.
  unfold passesValidation, honeypotEmpty, honeypotOf, emailValid, emailOf,
    requiresConsent, consentOf, LeadB.isValidEmail, d1Run, fetchPost.
  cbn [outcome snd ret negb orb andb].
  destruct (LEADS_DB (env ctx)) as [db|];
    repeat (split_if; cbn [negb orb andb]); try reflexivity.
Qed.

Lemma inserts_C W ctx :
  inserts (trace (LeadC.onRequest W ctx)) = insertsOf VariantC W ctx.
Proof.
  unfold insertsOf, fieldsOf, LeadC.onRequest.
  read_body (LeadC.readBody (request ctx)) (LeadC_readBody_trace (request ctx)).
  settle_method (request ctx).
  1, 3: destruct o as [[|f]|]; destruct (LEADS_DB (env ctx)); reflexivity.
  destruct o as [[|f]|];
    [ destruct (LEADS_DB (env ctx)); reflexivity
    | | destruct (LEADS_DB (env ctx)); reflexivity ].
  change ([], Normal (JsonObject f)) with (ret (JsonObject f)).
  rewrite bind_ret. unfold LeadC.get. rewrite !bind_ret.
  unfold passesValidation, honeypotEmpty, honeypotOf, emailValid, emailOf,
    requiresConsent, consentOf, LeadC.isValidEmail, d1Run, fetchPost.
  cbn [outcome snd ret negb orb andb].
  destruct (LEADS_DB (env ctx)) as [db|];
    repeat (split_if; cbn [negb orb andb]); try reflexivity.
Qed.

(** Every variant hands to storage exactly the rows read off the request. *)
Lemma inserts_spec v W ctx :
  inserts (trace (handle v W ctx)) = insertsOf v W ctx.
Proof.
  destruct v; [apply inserts_A | apply inserts_B | apply inserts_C].
Qed.

(** A row handed to storage comes from a POST that was read, passed
    validation and found the binding. *)
Lemma inserts_inv v W ctx r :
  In r (inserts (trace (handle v W ctx))) ->
  exists fs,
    fieldsOf v (request ctx) = Some fs
    /\ method (request ctx) = "POST"
    /\ passesValidation v fs = true
    /\ r = rowOf v W (request ctx) fs.
Proof.
  rewrite inserts_spec. unfold insertsOf.
  destruct (fieldsOf v (request ctx)) as [fs|]; [|intros []].
  destruct (LEADS_DB (env ctx)); [|intros []].
  destruct (String.eqb (method (request ctx)) "POST") eqn:Ep; [|intros []].
  destruct (passesValidation v fs) eqn:Ev; [|intros []].
  simpl. intros [<-|[]]. exists fs. apply String.eqb_eq in Ep. auto.
Qed.

(** ** What passing validation means, test by test *)

Lemma passesValidation_A fs :
  passesValidation VariantA fs = true ->
  Js.truthy (LeadA.normalizeString (fs "company") 200) = false
  /\ Js.truthy (Js.toLowerCase (LeadA.normalizeString (fs "email") 200)) = true
  /\ Regex.test emailPattern
       (Js.toLowerCase (LeadA.normalizeString (fs "email") 200)) = true.
Proof.
  unfold passesValidation, honeypotEmpty, emailValid. simpl.
  rewrite !andb_true_iff, negb_true_iff. tauto.
Qed.

Lemma passesValidation_B fs :
  passesValidation VariantB fs = true ->
  Js.truthy (LeadB.str (Js.orValue (fs "hp") (fs "company"))) = false
  /\ Js.truthy (Js.slice0 200 (LeadB.str (fs "email"))) = true
  /\ Regex.test emailPattern (Js.slice0 200 (LeadB.str (fs "email"))) = true
  /\ (LeadB.consentOf (fs "consent") =? 0)%Z = false.
Proof.
  unfold passesValidation, honeypotEmpty, emailValid. simpl.
  rewrite !andb_true_iff, !negb_true_iff. tauto.
Qed.

Lemma passesValidation_C fs :
  passesValidation VariantC fs = true ->
  Js.truthy (Js.toLowerCase (LeadC.normalizeStr (fs "email") 200)) = true
  /\ Regex.test emailPattern
       (Js.toLowerCase (LeadC.normalizeStr (fs "email") 200)) = true
  /\ LeadC.consentOf (fs "consent") = true.
Proof.
  unfold passesValidation, honeypotEmpty, emailValid. simpl.
  rewrite !andb_true_iff. tauto.
Qed.

(** ** C1: the honeypot *)

(** C1, as amended.  In the two variants that test a honeypot (A: [company],
    once the storage binding is found; B: [hp || company]), a POST whose
    honeypot value is non-empty after trimming is answered 200 with
    [{ok:true}], and the run performs no effect at all: no storage insert, no
    webhook call.  Variant C has no honeypot test. *)
Theorem C1_honeypot_silent_drop
  (v : variant) (W : World) (ctx : Context) (fs : string -> Js.value) (h : string) :
  method (request ctx) = "POST" ->
  (v = VariantA -> exists db, LEADS_DB (env ctx) = Some db) ->
  fieldsOf v (request ctx) = Some fs ->
  honeypotOf v fs = Some h ->
  Js.truthy h = true ->
  returned (handle v W ctx) = Some (200%Z, Some okBody)
  /\ trace (handle v W ctx) = [].
Proof.
  intros Hm Hdb Hfs Hh Ht.
  destruct v; simpl in Hh; try discriminate; injection Hh as <-.
  - destruct (Hdb eq_refl) as [db Edb].
    apply fieldsOf_A in Hfs. destruct Hfs as (raw & Er & ->).
    cbn in Ht.
    unfold handle, LeadA.onRequest. post_method method_POST Hm.
    rewrite Edb, Er. cbn [negb].
    rewrite bind_ret, Ht. split; reflexivity.
  - apply fieldsOf_B in Hfs. destruct Hfs as (o & Er & ->).
    unfold handle, LeadB.onRequest. post_method method_POST Hm.
    rewrite Er. cbn [negb].
    rewrite bind_ret. unfold LeadB.get. rewrite !bind_ret.
    rewrite Ht. split; reflexivity.
Qed.

Lemma C1_honeypot_witness :
  (returned (handle VariantA Sample.world
               (mkContext (Sample.post Sample.spam) Sample.envFull))
   = Some (200%Z, Some okBody)
   /\ trace (handle VariantA Sample.world
               (mkContext (Sample.post Sample.spam) Sample.envFull)) = [])
  /\
  (returned (handle VariantB Sample.world
               (mkContext (Sample.post Sample.spam) Sample.envFull))
   = Some (200%Z, Some okBody)
   /\ trace (handle VariantB Sample.world
               (mkContext (Sample.post Sample.spam) Sample.envFull)) = []).
Proof.
  split.
  - eapply (C1_honeypot_silent_drop VariantA Sample.world
              (mkContext (Sample.post Sample.spam) Sample.envFull) _ "SpamBot").
    + reflexivity.
    + intros _. exists Sample.db. reflexivity.
    + reflexivity.
    + reflexivity.
    + reflexivity.
  - apply (C1_honeypot_silent_drop VariantB Sample.world
             (mkContext (Sample.post Sample.spam) Sample.envFull)
             (Js.prop Sample.spam) "SpamBot").
    + reflexivity.
    + intros E. discriminate E.
    + reflexivity.
    + reflexivity.
    + reflexivity.
Defined.

(** C1 as stated fails on variant C: the spam submission of the spec's
    scenario, with consent given, is inserted and forwarded. *)
Lemma C1_counterexample :
  Js.prop Sample.spam "company" = Js.Str "SpamBot"
  /\ inserts (trace (handle VariantC Sample.world
                       (mkContext (Sample.post Sample.spam) Sample.envFull)))
     = [mkRow (Some "Jo") "a@b.com" (Some "") (Some "") 1%Z
              (Some "/api/lead") (Some "")]
  /\ callsWebhook (handle VariantC Sample.world
                     (mkContext (Sample.post Sample.spam) Sample.envFull))
     = true
  /\ returned (handle VariantC Sample.world
                 (mkContext (Sample.post Sample.spam) Sample.envFull))
     = Some (200%Z, Some (mkBody true None (Some false))).
Proof. vm_compute. repeat split. Qed.

(** ** C2: a failing webhook *)

(** C2, as amended.  In variants B and C, which wrap the webhook fetch in a
    [try]/[catch] of its own, an otherwise-valid submission (fields read,
    validation passed, insert resolved) whose configured webhook fetch is
    attempted and fails with a network error is still answered 200 with
    [ok:true], after exactly one insert. *)
Theorem C2_webhook_failure_tolerated
  (v : variant) (W : World) (ctx : Context) (fs : string -> Js.value)
  (db : D1Database) (hook : string) :
  v <> VariantA ->
  method (request ctx) = "POST" ->
  fieldsOf v (request ctx) = Some fs ->
  passesValidation v fs = true ->
  LEADS_DB (env ctx) = Some db ->
  runResolves db (rowOf v W (request ctx) fs) = true ->
  LEAD_WEBHOOK_URL (env ctx) = Some hook ->
  Js.truthy (Js.trim hook) = true ->
  fetchResolves W (Js.trim hook) = false ->
  statusOf (handle v W ctx) = Some 200%Z
  /\ okOf (handle v W ctx) = Some true
  /\ inserts (trace (handle v W ctx)) = [rowOf v W (request ctx) fs]
  /\ callsWebhook (handle v W ctx) = true.
Proof.
  intros Hv Hm Hfs Hval Edb Hrun Ehook Hhook Hfetch.
  destruct v; [contradiction | |].
  - apply fieldsOf_B in Hfs. destruct Hfs as (o & Er & ->).
    apply passesValidation_B in Hval. destruct Hval as (Hhp & He & Hre & Hc).
    unfold handle, LeadB.onRequest. post_method method_POST Hm.
    rewrite Er. cbn [negb].
    rewrite bind_ret. unfold LeadB.get. rewrite !bind_ret.
    unfold LeadB.isValidEmail.
    rewrite Hhp, He, Hre, Hc, Edb, Ehook. cbn [negb].
    unfold rowOf, emailOf, sourcePathOf in Hrun.
    rewrite (d1Run_resolves _ _ Hrun).
    change (LeadB.str (Js.Str hook)) with (Js.trim hook).
    rewrite Hhook, (fetchPost_rejects _ _ _ Hfetch).
    repeat split.
  - apply fieldsOf_C in Hfs. destruct Hfs as (o & Er & ->).
    apply passesValidation_C in Hval. destruct Hval as (He & Hre & Hc).
    unfold handle, LeadC.onRequest. post_method method_POST Hm.
    rewrite Er. cbn [negb].
    rewrite bind_ret. unfold LeadC.get. rewrite !bind_ret.
    unfold LeadC.isValidEmail.
    rewrite He, Hre, Hc, Edb, Ehook. cbn [negb orb].
    unfold rowOf, emailOf, sourcePathOf in Hrun.
    rewrite (d1Run_resolves _ _ Hrun).
    change (Js.orEmpty (Some hook)) with hook.
    rewrite Hhook, (fetchPost_rejects _ _ _ Hfetch).
    repeat split.
Qed.

Lemma C2_webhook_failure_witness :
  statusOf (handle VariantC Sample.world
              (mkContext (Sample.post Sample.jo) Sample.envFull)) = Some 200%Z
  /\ okOf (handle VariantC Sample.world
             (mkContext (Sample.post Sample.jo) Sample.envFull)) = Some true
  /\ inserts (trace (handle VariantC Sample.world
                       (mkContext (Sample.post Sample.jo) Sample.envFull)))
     = [rowOf VariantC Sample.world (Sample.post Sample.jo) (Js.prop Sample.jo)]
  /\ callsWebhook (handle VariantC Sample.world
                     (mkContext (Sample.post Sample.jo) Sample.envFull)) = true.
Proof.
  apply (C2_webhook_failure_tolerated VariantC Sample.world
           (mkContext (Sample.post Sample.jo) Sample.envFull)
           (Js.prop Sample.jo) Sample.db "https://hook.example/lead").
  - discriminate.
  - reflexivity.
  - reflexivity.
  - reflexivity.
  - reflexivity.
  - reflexivity.
  - reflexivity.
  - reflexivity.
  - reflexivity.
Defined.

(** C2 as stated fails on variant A: the fetch is awaited inside the
    handler's [try] block, so after the insert a network error reaches the
    outer [catch] and the submission is answered with [ok:false]. *)
Lemma C2_counterexample :
  passesValidation VariantA (Js.prop Sample.jo) = true
  /\ inserts (trace (handle VariantA Sample.world
                       (mkContext (Sample.post Sample.jo) Sample.envFull)))
     = [mkRow (Some "Jo") "a@b.com" None None 1%Z (Some "/api/lead") None]
  /\ callsWebhook (handle VariantA Sample.world
                     (mkContext (Sample.post Sample.jo) Sample.envFull)) = true
  /\ fetchResolves Sample.world "https://hook.example/lead" = false
  /\ returned (handle VariantA Sample.world
                 (mkContext (Sample.post Sample.jo) Sample.envFull))
     = Some (500%Z, Some (errBody "Server error")).
Proof. vm_compute. repeat split. Qed.

(** ** C3: the stored email *)

Lemma passesValidation_email v fs :
  passesValidation v fs = true -> Regex.test emailPattern (emailOf v fs) = true.
Proof.
  unfold passesValidation, emailValid. rewrite !andb_true_iff. tauto.
Qed.

(** C3, as amended.  In the variants that lower-case the email (A and C),
    every row handed to storage carries the supplied email trimmed, cut to
    its first 200 characters and lower-cased; the stored value is in lower
    case and has no surrounding white space, and it equals the trimmed,
    lower-cased input whenever the trimmed input has at most 200
    characters. *)
Theorem C3_stored_email (v : variant) (W : World) (ctx : Context) (r : Row) :
  v <> VariantB ->
  In r (inserts (trace (handle v W ctx))) ->
  exists fs,
    fieldsOf v (request ctx) = Some fs
    /\ rowEmail r
       = Js.toLowerCase (Js.slice0 200 (Js.trim (Js.ToString (fs "email"))))
    /\ Js.toLowerCase (rowEmail r) = rowEmail r
    /\ Js.trim (rowEmail r) = rowEmail r
    /\ (String.length (Js.trim (Js.ToString (fs "email"))) <= 200 ->
        rowEmail r = Js.toLowerCase (Js.trim (Js.ToString (fs "email")))).
Proof.
  intros Hv Hin. apply inserts_inv in Hin.
  destruct Hin as (fs & Hfs & _ & Hval & ->). exists fs.
  split; [exact Hfs|].
  assert (Htrim : Js.trim (rowEmail (rowOf v W (request ctx) fs))
                  = rowEmail (rowOf v W (request ctx) fs)).
  { apply trim_noWhiteSpace, RegexFacts.valid_email_noWhiteSpace.
    apply passesValidation_email in Hval. destruct v; exact Hval. }
  assert (E : rowEmail (rowOf v W (request ctx) fs)
              = Js.toLowerCase (Js.slice0 200 (Js.trim (Js.ToString (fs "email"))))).
  { destruct v; [ | contradiction | ].
    - apply passesValidation_A in Hval. destruct Hval as (_ & He & _).
      cbn [rowOf rowEmail emailOf].
      destruct (Js.isNullish (fs "email")) eqn:En.
      + rewrite (normalizeString_nullish _ _ En) in He. discriminate He.
      + rewrite (normalizeString_value _ _ En). reflexivity.
    - apply passesValidation_C in Hval. destruct Hval as (He & _).
      cbn [rowOf rowEmail emailOf].
      destruct (Js.isNullish (fs "email")) eqn:En.
      + rewrite (normalizeStr_nullish _ _ En) in He. discriminate He.
      + rewrite (normalizeStr_value _ _ En). reflexivity. }
  split; [exact E|]. split; [rewrite E; apply toLowerCase_idem|].
  split; [exact Htrim|].
  intros Hlen. rewrite E, (slice0_short _ _ Hlen). reflexivity.
Qed.

Lemma C3_stored_email_witness :
  In (mkRow (Some "") "jo.smith@example.com" (Some "") (Some "") 1%Z
            (Some "/api/lead") (Some ""))
     (inserts (trace (handle VariantC Sample.world
                        (mkContext (Sample.post Sample.shout) Sample.envNoHook))))
  /\ exists fs,
      fieldsOf VariantC (Sample.post Sample.shout) = Some fs
      /\ "jo.smith@example.com"
         = Js.toLowerCase (Js.slice0 200 (Js.trim (Js.ToString (fs "email"))))
      /\ Js.toLowerCase "jo.smith@example.com" = "jo.smith@example.com"
      /\ Js.trim "jo.smith@example.com" = "jo.smith@example.com"
      /\ (String.length (Js.trim (Js.ToString (fs "email"))) <= 200 ->
          "jo.smith@example.com"
          = Js.toLowerCase (Js.trim (Js.ToString (fs "email")))).
Proof.
  assert (H : In (mkRow (Some "") "jo.smith@example.com" (Some "") (Some "") 1%Z
                        (Some "/api/lead") (Some ""))
                 (inserts (trace (handle VariantC Sample.world
                                    (mkContext (Sample.post Sample.shout)
                                               Sample.envNoHook))))).
  { vm_compute. left. reflexivity. }
  split; [exact H|].
  assert (Hv : VariantC <> VariantB) by discriminate.
  exact (C3_stored_email VariantC Sample.world
           (mkContext (Sample.post Sample.shout) Sample.envNoHook)
           (mkRow (Some "") "jo.smith@example.com" (Some "") (Some "") 1%Z
                  (Some "/api/lead") (Some ""))
           Hv H).
Defined.

(** C3 as stated fails on an email longer than the cap: variant A stores
    the first 200 characters of a valid 201-character email. *)
Lemma C3_counterexample :
  String.length (Js.toLowerCase (Js.trim Sample.longEmail)) = 201
  /\ emailValid (emailOf VariantA (Js.prop [("email", Js.Str Sample.longEmail)])) = true
  /\ map rowEmail
       (inserts (trace (handle VariantA Sample.world
                          (mkContext (Sample.post [("email", Js.Str Sample.longEmail)])
                                     Sample.envNoHook))))
     = [Js.slice0 200 Sample.longEmail]
  /\ String.length (Js.slice0 200 Sample.longEmail) = 200
  /\ String.eqb (Js.slice0 200 Sample.longEmail) (Js.toLowerCase (Js.trim Sample.longEmail)) = false.
Proof. vm_compute. repeat split. Qed.

(** ** C4: invalid email *)

Lemma emailValid_false e :
  e = "" \/ Regex.test emailPattern e = false -> emailValid e = false.
Proof.
  unfold emailValid. intros [-> | ->]; [reflexivity | apply andb_false_r].
Qed.

Lemma emailValid_false_cases e :
  emailValid e = false -> Js.truthy e = false \/ Regex.test emailPattern e = false.
Proof. unfold emailValid. apply andb_false_iff. Qed.

(** C4, as amended.  Whenever the normalized email of a request is empty or
    does not match the pattern, no variant hands a row to storage.  A POST
    with such an email is answered 400 with [ok:false], without any effect,
    once the request reaches the email test: in variant A the storage
    binding must be present, and in variants A and B the honeypot value must
    be empty (those two exits come first and answer 500 and 200). *)
Theorem C4_invalid_email_rejected
  (v : variant) (W : World) (ctx : Context) (fs : string -> Js.value) :
  fieldsOf v (request ctx) = Some fs ->
  emailOf v fs = "" \/ Regex.test emailPattern (emailOf v fs) = false ->
  inserts (trace (handle v W ctx)) = []
  /\ (method (request ctx) = "POST" ->
      (v = VariantA -> exists db, LEADS_DB (env ctx) = Some db) ->
      honeypotEmpty v fs = true ->
      statusOf (handle v W ctx) = Some 400%Z
      /\ okOf (handle v W ctx) = Some false
      /\ trace (handle v W ctx) = []).
Proof.
  intros Hfs He. apply emailValid_false in He. split.
  - rewrite inserts_spec. unfold insertsOf. rewrite Hfs.
    unfold passesValidation. rewrite He, andb_false_r, andb_false_r.
    destruct (LEADS_DB (env ctx)); reflexivity.
  - intros Hm Hdb Hhp.
    apply emailValid_false_cases in He.
    destruct v.
    + destruct (Hdb eq_refl) as [db Edb].
      apply fieldsOf_A in Hfs. destruct Hfs as (raw & Er & ->).
      unfold honeypotEmpty in Hhp. cbn in Hhp. apply negb_true_iff in Hhp.
      cbn in He.
      unfold handle, LeadA.onRequest. post_method method_POST Hm.
      rewrite Edb, Er. cbn [negb].
      rewrite bind_ret, Hhp. unfold LeadA.isValidEmail.
      destruct He as [-> | ->]; rewrite ?orb_true_r; repeat split.
    + apply fieldsOf_B in Hfs. destruct Hfs as (o & Er & ->).
      unfold honeypotEmpty in Hhp. cbn in Hhp. apply negb_true_iff in Hhp.
      cbn in He.
      unfold handle, LeadB.onRequest. post_method method_POST Hm.
      rewrite Er. cbn [negb].
      rewrite bind_ret. unfold LeadB.get. rewrite !bind_ret.
      rewrite Hhp. unfold LeadB.isValidEmail.
      destruct He as [-> | E]; [repeat split|].
      rewrite E.
      destruct (Js.truthy (Js.slice0 200 (LeadB.str (Js.prop o "email"))));
        repeat split.
    + apply fieldsOf_C in Hfs. destruct Hfs as (o & Er & ->).
      cbn in He.
      unfold handle, LeadC.onRequest. post_method method_POST Hm.
      rewrite Er. cbn [negb].
      rewrite bind_ret. unfold LeadC.get. rewrite !bind_ret.
      unfold LeadC.isValidEmail.
      destruct He as [-> | ->]; rewrite ?orb_true_r; repeat split.
Qed.

Lemma C4_invalid_email_witness :
  Regex.test emailPattern (emailOf VariantC (Js.prop Sample.notAnEmail)) = false
  /\ inserts (trace (handle VariantC Sample.world
                       (mkContext (Sample.post Sample.notAnEmail) Sample.envFull))) = []
  /\ statusOf (handle VariantC Sample.world
                 (mkContext (Sample.post Sample.notAnEmail) Sample.envFull)) = Some 400%Z
  /\ okOf (handle VariantC Sample.world
             (mkContext (Sample.post Sample.notAnEmail) Sample.envFull)) = Some false
  /\ trace (handle VariantC Sample.world
              (mkContext (Sample.post Sample.notAnEmail) Sample.envFull)) = [].
Proof.
  split; [vm_compute; reflexivity|].
  destruct (C4_invalid_email_rejected VariantC Sample.world
              (mkContext (Sample.post Sample.notAnEmail) Sample.envFull)
              (Js.prop Sample.notAnEmail)) as [Hins Hresp].
  - vm_compute. reflexivity.
  - right. vm_compute. reflexivity.
  - split; [exact Hins|].
    apply Hresp.
    + reflexivity.
    + intros E. discriminate E.
    + reflexivity.
Defined.

(** C4 as stated fails where an earlier exit answers the request: variant A
    without the storage binding answers 500, variant B with a filled
    honeypot answers 200. *)
Lemma C4_counterexample :
  Regex.test emailPattern (emailOf VariantA (Js.prop Sample.notAnEmail)) = false
  /\ returned (handle VariantA Sample.world
                 (mkContext (Sample.post Sample.notAnEmail) Sample.envEmpty))
     = Some (500%Z, Some (errBody "Missing D1 binding: LEADS_DB"))
  /\ Regex.test emailPattern
       (emailOf VariantB (Js.prop (("company", Js.Str "SpamBot") :: Sample.notAnEmail)))
     = false
  /\ returned (handle VariantB Sample.world
                 (mkContext (Sample.post (("company", Js.Str "SpamBot") :: Sample.notAnEmail))
                            Sample.envFull))
     = Some (200%Z, Some okBody).
Proof. vm_compute. repeat split. Qed.

(** ** C5: consent *)

Lemma consent_A_string s :
  consentOf VariantA (Js.Str s)
  = existsb (String.eqb (Js.toLowerCase s)) ["1"; "true"; "on"].
Proof.
  unfold consentOf, LeadA.consentOf. simpl.
  destruct (String.eqb (Js.toLowerCase s) "1"),
           (String.eqb (Js.toLowerCase s) "true"),
           (String.eqb (Js.toLowerCase s) "on"); reflexivity.
Qed.

Lemma consent_B_string s :
  consentOf VariantB (Js.Str s)
  = existsb (String.eqb (Js.toLowerCase (Js.trim s))) ["1"; "true"; "on"; "yes"].
Proof.
  unfold consentOf, LeadB.consentOf.
  change (LeadB.str (Js.Str s)) with (Js.trim s).
  destruct (existsb _ _); reflexivity.
Qed.

Lemma consent_C_cases c :
  consentOf VariantC c = true <->
  In c [Js.Bool true; Js.Str "true"; Js.Str "1"; Js.Num 1; Js.Str "on"].
Proof.
  unfold consentOf, LeadC.consentOf. split.
  - destruct c as [| |[]|n|s|]; simpl; try discriminate; auto.
    + rewrite orb_false_r. intros H. apply Z.eqb_eq in H. subst. auto 6.
    + rewrite orb_false_r. intros H.
      apply orb_prop in H. destruct H as [H|H];
        [apply orb_prop in H; destruct H as [H|H]|];
        apply String.eqb_eq in H; subst; auto 6.
  - simpl. intros [<-|[<-|[<-|[<-|[<-|[]]]]]]; reflexivity.
Qed.

Lemma consent_lowered_untrimmed s :
  existsb (String.eqb (Js.toLowerCase s)) ["1"; "true"; "on"] = true ->
  Js.trim s = s.
Proof.
  intros H. apply trim_noWhiteSpace. rewrite <- noWhiteSpace_toLowerCase.
  simpl in H. rewrite orb_false_r in H.
  apply orb_prop in H. destruct H as [H|H];
    [|apply orb_prop in H; destruct H as [H|H]];
    apply String.eqb_eq in H; rewrite H; reflexivity.
Qed.

Lemma consent_C_A c : consentOf VariantC c = true -> consentOf VariantA c = true.
Proof.
  intros H. apply consent_C_cases in H. simpl in H.
  destruct H as [<-|[<-|[<-|[<-|[<-|[]]]]]]; reflexivity.
Qed.

Lemma consent_A_B c : consentOf VariantA c = true -> consentOf VariantB c = true.
Proof.
  destruct c as [| |b|n|s|]; try (intros H; discriminate H).
  - destruct b; [reflexivity | intros H; discriminate H].
  - unfold consentOf, LeadA.consentOf, LeadB.consentOf.
    unfold LeadB.str. cbn [Js.isNullish Js.coalesce].
    set (s := Js.ToString (Js.Num n)). intros H.
    assert (E : existsb (String.eqb (Js.toLowerCase s)) ["1"; "true"; "on"] = true).
    { simpl. rewrite orb_false_r.
      destruct (String.eqb (Js.toLowerCase s) "1"),
               (String.eqb (Js.toLowerCase s) "true"),
               (String.eqb (Js.toLowerCase s) "on"); try reflexivity.
      discriminate H. }
    rewrite (consent_lowered_untrimmed _ E).
    simpl in E |- *. rewrite orb_false_r in E.
    apply orb_prop in E. destruct E as [E|E];
      [|apply orb_prop in E; destruct E as [E|E]]; rewrite E;
      rewrite ?orb_true_r; reflexivity.
  - rewrite consent_A_string, consent_B_string. intros E.
    rewrite (consent_lowered_untrimmed _ E).
    simpl in E |- *. rewrite orb_false_r in E.
    apply orb_prop in E. destruct E as [E|E];
      [|apply orb_prop in E; destruct E as [E|E]]; rewrite E;
      rewrite ?orb_true_r; reflexivity.
Qed.

Lemma stored_consent v W ctx r :
  In r (inserts (trace (handle v W ctx))) ->
  exists fs,
    fieldsOf v (request ctx) = Some fs
    /\ rowConsent r = (if consentOf v (fs "consent") then 1 else 0)%Z.
Proof.
  intros Hin. apply inserts_inv in Hin.
  destruct Hin as (fs & Hfs & _ & Hval & ->). exists fs. split; [exact Hfs|].
  destruct v; cbn [rowOf rowConsent consentOf].
  - unfold LeadA.consentOf. destruct (_ || _); reflexivity.
  - unfold LeadB.consentOf. destruct (existsb _ _); reflexivity.
  - apply passesValidation_C in Hval. destruct Hval as (_ & _ & ->). reflexivity.
Qed.

(** C5, as amended.  Each variant coerces the consent field to a boolean,
    and the three differ in what they accept.  All of them accept the
    representations 1, true, on (as strings) and boolean true; yes is
    accepted by variant B only; absent, null, false, 0 and the strings
    empty, 0, false, no, off are refused by all.  On strings, A compares the
    lower-cased text with 1, true, on; B the trimmed, lower-cased text with
    1, true, on, yes; C accepts exactly true, the strings true, 1, on and the
    number 1, compared strictly.  What C accepts A accepts, and what A
    accepts B accepts.  A stored row carries 1 for an accepted consent and 0
    otherwise. *)
Theorem C5_consent_coercion :
  (forall v c,
      In c [Js.Str "1"; Js.Str "true"; Js.Str "on"; Js.Bool true] ->
      consentOf v c = true)
  /\ (forall v, consentOf v (Js.Str "yes") = true <-> v = VariantB)
  /\ (forall v c,
         In c [Js.Undefined; Js.Null; Js.Bool false; Js.Num 0; Js.Str "";
               Js.Str "0"; Js.Str "false"; Js.Str "no"; Js.Str "off"] ->
         consentOf v c = false)
  /\ (forall s,
         consentOf VariantA (Js.Str s)
         = existsb (String.eqb (Js.toLowerCase s)) ["1"; "true"; "on"])
  /\ (forall s,
         consentOf VariantB (Js.Str s)
         = existsb (String.eqb (Js.toLowerCase (Js.trim s)))
                   ["1"; "true"; "on"; "yes"])
  /\ (forall c,
         consentOf VariantC c = true <->
         In c [Js.Bool true; Js.Str "true"; Js.Str "1"; Js.Num 1; Js.Str "on"])
  /\ (forall c, consentOf VariantC c = true -> consentOf VariantA c = true)
  /\ (forall c, consentOf VariantA c = true -> consentOf VariantB c = true)
  /\ (forall v W ctx r,
         In r (inserts (trace (handle v W ctx))) ->
         exists fs,
           fieldsOf v (request ctx) = Some fs
           /\ rowConsent r = (if consentOf v (fs "consent") then 1 else 0)%Z).
Proof.
  repeat apply conj.
  - intros v c H. simpl in H.
    destruct H as [<-|[<-|[<-|[<-|[]]]]]; destruct v; reflexivity.
  - intros v. split.
    + destruct v; [intros H; discriminate H | reflexivity | intros H; discriminate H].
    + intros ->. reflexivity.
  - intros v c H. simpl in H.
    destruct H as [<-|[<-|[<-|[<-|[<-|[<-|[<-|[<-|[<-|[]]]]]]]]]];
      destruct v; reflexivity.
  - exact consent_A_string.
  - exact consent_B_string.
  - exact consent_C_cases.
  - exact consent_C_A.
  - exact consent_A_B.
  - exact stored_consent.
Qed.

(** C5 as stated fails on yes, which variants A and C coerce to false (A
    stores 0, C rejects the submission), and on values outside the list that
    are coerced to true. *)
Lemma C5_counterexample :
  consentOf VariantA (Js.Str "yes") = false
  /\ consentOf VariantC (Js.Str "yes") = false
  /\ map rowConsent
       (inserts (trace (handle VariantA Sample.world
                          (mkContext (Sample.post Sample.sayYes) Sample.envNoHook))))
     = [0%Z]
  /\ returned (handle VariantC Sample.world
                 (mkContext (Sample.post Sample.sayYes) Sample.envNoHook))
     = Some (400%Z, Some (errBody "Consent required"))
  /\ consentOf VariantC (Js.Num 1) = true
  /\ consentOf VariantB (Js.Str " On ") = true.
Proof. vm_compute. repeat split. Qed.

(** ** C6: a body that does not parse *)

Lemma rejected_None {A} (o : option A) : rejected o = true -> o = None.
Proof. destruct o; [discriminate | reflexivity]. Qed.

Lemma bodyRejects_A req :
  bodyRejects VariantA req = true -> LeadA.readBody req = throw.
Proof.
  unfold bodyRejects, LeadA.readBody.
  destruct (Js.includes _ _); intros H; apply rejected_None in H;
    rewrite H; reflexivity.
Qed.

Lemma bodyRejects_B req :
  bodyRejects VariantB req = true -> LeadB.parseBody req = ret (JsonObject []).
Proof.
  unfold bodyRejects, LeadB.parseBody. cbv zeta.
  repeat match goal with
         | |- context [if ?c then _ else _] => destruct c
         end;
    intros H; apply rejected_None in H; rewrite H; reflexivity.
Qed.

Lemma bodyRejects_C req :
  bodyRejects VariantC req = true -> LeadC.readBody req = throw.
Proof.
  unfold bodyRejects, LeadC.readBody.
  destruct (Js.includes _ _); intros H; apply rejected_None in H;
    rewrite H; reflexivity.
Qed.

(** C6, as amended.  When the reader a variant picks for the declared
    content type rejects, no variant inserts or calls the webhook.  Variant B
    degrades the body to an empty field map and continues: validation
    answers 400 for the missing email.  Variants A and C do not catch the
    failure where the body is read: it reaches the handler's outer [catch]
    and the request is answered 500 with [ok:false] (in A, with the missing
    binding reported first when there is none). *)
Theorem C6_unparseable_body (v : variant) (W : World) (ctx : Context) :
  method (request ctx) = "POST" ->
  bodyRejects v (request ctx) = true ->
  inserts (trace (handle v W ctx)) = []
  /\ callsWebhook (handle v W ctx) = false
  /\ match v with
     | VariantA =>
         fieldsOf v (request ctx) = None
         /\ returned (handle v W ctx)
            = Some (500%Z,
                    Some (errBody
                            match LEADS_DB (env ctx) with
                            | Some _ => LeadA.catchError
                            | None => "Missing D1 binding: LEADS_DB"
                            end))
     | VariantB =>
         LeadB.parseBody (request ctx) = ret (JsonObject [])
         /\ returned (handle v W ctx)
            = Some (400%Z, Some (errBody "Email is required."))
     | VariantC =>
         fieldsOf v (request ctx) = None
         /\ returned (handle v W ctx)
            = Some (500%Z, Some (errBody "Server error"))
     end.
Proof.
  intros Hm Hrej. destruct v.
  - apply bodyRejects_A in Hrej.
    unfold fieldsOf, handle, LeadA.onRequest. post_method method_POST Hm.
    rewrite Hrej. cbn [negb].
    destruct (LEADS_DB (env ctx)); repeat split.
  - apply bodyRejects_B in Hrej.
    unfold handle, LeadB.onRequest. post_method method_POST Hm.
    rewrite Hrej. cbn [negb].
    rewrite bind_ret. unfold LeadB.get. rewrite !bind_ret.
    repeat split.
  - apply bodyRejects_C in Hrej.
    unfold fieldsOf, handle, LeadC.onRequest. post_method method_POST Hm.
    rewrite Hrej. cbn [negb].
    repeat split.
Qed.

Lemma C6_unparseable_body_witness :
  bodyRejects VariantB Sample.malformed = true
  /\ inserts (trace (handle VariantB Sample.world (mkContext Sample.malformed Sample.envFull))) = []
  /\ callsWebhook (handle VariantB Sample.world (mkContext Sample.malformed Sample.envFull)) = false
  /\ LeadB.parseBody Sample.malformed = ret (JsonObject [])
  /\ returned (handle VariantB Sample.world (mkContext Sample.malformed Sample.envFull))
     = Some (400%Z, Some (errBody "Email is required.")).
Proof.
  split; [reflexivity|].
  apply (C6_unparseable_body VariantB Sample.world (mkContext Sample.malformed Sample.envFull)).
  - reflexivity.
  - reflexivity.
Defined.

(** C6 as stated fails on variants C and A: malformed JSON is answered by
    the generic server error, not by the pipeline on an empty field map. *)
Lemma C6_counterexample :
  bodyRejects VariantC Sample.malformed = true
  /\ fieldsOf VariantC Sample.malformed = None
  /\ returned (handle VariantC Sample.world (mkContext Sample.malformed Sample.envFull))
     = Some (500%Z, Some (errBody "Server error"))
  /\ bodyRejects VariantA Sample.malformed = true
  /\ returned (handle VariantA Sample.world (mkContext Sample.malformed Sample.envFull))
     = Some (500%Z, Some (errBody "Server error")).
Proof. vm_compute. repeat split. Qed.

(** ** C7: the preflight *)

Lemma method_OPTIONS req :
  method req = "OPTIONS" -> String.eqb (method req) "OPTIONS" = true.
Proof. intros ->. reflexivity. Qed.

Lemma existsb_eqb_In (x : string) (l : list string) :
  existsb (String.eqb x) l = true <-> In x l.
Proof.
  rewrite existsb_exists. split.
  - intros (y & Hy & E). apply String.eqb_eq in E. subst. exact Hy.
  - intros H. exists x. split; [exact H | apply String.eqb_refl].
Qed.

Lemma ALLOWED_ORIGINS_truthy o : In o LeadC.ALLOWED_ORIGINS -> Js.truthy o = true.
Proof.
  simpl. intros [<-|[<-|[<-|[<-|[<-|[<-|[<-|[]]]]]]]]; reflexivity.
Qed.

Lemma getAllowedOrigin_spec req o :
  Js.truthy o = true ->
  (LeadC.getAllowedOrigin req = o <->
   hdrOrigin req = Some o /\ In o LeadC.ALLOWED_ORIGINS).
Proof.
  intros Ho. unfold LeadC.getAllowedOrigin.
  destruct (hdrOrigin req) as [origin|].
  - destruct (Js.truthy origin) eqn:Et; cbn [negb].
    + destruct (existsb (String.eqb origin) LeadC.ALLOWED_ORIGINS) eqn:Ea.
      * apply existsb_eqb_In in Ea. split.
        -- intros ->. auto.
        -- intros [E _]. congruence.
      * split.
        -- intros <-. discriminate Ho.
        -- intros [E Hin]. injection E as ->.
           apply existsb_eqb_In in Hin. congruence.
    + split.
      * intros <-. discriminate Ho.
      * intros [E _]. injection E as ->. congruence.
  - split.
    + intros <-. discriminate Ho.
    + intros [E _]. discriminate E.
Qed.

(** C7, as amended.  An OPTIONS request performs no effect in any variant.
    Variants B and C answer it 204 without a body.  Variant C sets
    Access-Control-Allow-Origin to the request's Origin exactly when that
    Origin is in its allow-list and omits the header otherwise; variant B has
    no allow-list and reflects any Origin, sending [*] when there is none.
    Variant A picks the CORS origin of its responses with
    [pickAllowedOrigin]: the request's Origin when it ends with .pages.dev,
    starts with http://localhost or is in the allow-list, and its first
    allowed origin otherwise. *)
Theorem C7_preflight (W : World) (ctx : Context) :
  method (request ctx) = "OPTIONS" ->
  (forall v, trace (handle v W ctx) = [])
  /\ (forall v, v <> VariantA -> returned (handle v W ctx) = Some (204%Z, None))
  /\ (forall o,
         headerOf (handle VariantC W ctx) "Access-Control-Allow-Origin" = Some o
         <-> hdrOrigin (request ctx) = Some o /\ In o LeadC.ALLOWED_ORIGINS)
  /\ headerOf (handle VariantB W ctx) "Access-Control-Allow-Origin"
     = Some (Js.or (Js.orEmpty (hdrOrigin (request ctx))) "*")
  /\ (forall o,
         hdrOrigin (request ctx) = Some o ->
         Js.truthy o = true ->
         LeadA.pickAllowedOrigin (request ctx)
         = if Js.endsWith o ".pages.dev"
              || Js.startsWith o "http://localhost"
              || existsb (String.eqb o) LeadA.allow
           then o
           else "https://audituniversepro.com").
Proof.
  intros Hm. apply method_OPTIONS in Hm.
  repeat apply conj.
  - intros [].
    + unfold handle, LeadA.onRequest. rewrite Hm. reflexivity.
    + unfold handle, LeadB.onRequest. rewrite Hm. reflexivity.
    + unfold handle, LeadC.onRequest. rewrite Hm. reflexivity.
  - intros [] Hv; [contradiction | |].
    + unfold handle, LeadB.onRequest. rewrite Hm. reflexivity.
    + unfold handle, LeadC.onRequest. rewrite Hm. reflexivity.
  - intros o. unfold handle, LeadC.onRequest. rewrite Hm.
    unfold headerOf, LeadC.corsPreflight. cbn.
    destruct (Js.truthy (LeadC.getAllowedOrigin (request ctx))) eqn:Et; cbn.
    + split.
      * intros E. injection E as <-. apply getAllowedOrigin_spec; auto.
      * intros [E Hin]. f_equal.
        apply getAllowedOrigin_spec; auto using ALLOWED_ORIGINS_truthy.
    + split; [intros E; discriminate E|].
      intros [E Hin].
      assert (Hg : LeadC.getAllowedOrigin (request ctx) = o)
        by (apply getAllowedOrigin_spec; auto using ALLOWED_ORIGINS_truthy).
      rewrite Hg, (ALLOWED_ORIGINS_truthy _ Hin) in Et. discriminate Et.
  - unfold handle, LeadB.onRequest. rewrite Hm. reflexivity.
  - intros o Ho Ht. unfold LeadA.pickAllowedOrigin. rewrite Ho.
    cbn [Js.orEmpty]. rewrite Ht. cbn [negb].
    destruct (Js.endsWith o ".pages.dev"); [reflexivity|].
    destruct (Js.startsWith o "http://localhost"); [reflexivity|].
    destruct (existsb (String.eqb o) LeadA.allow); reflexivity.
Qed.

Lemma C7_preflight_witness :
  (returned (handle VariantC Sample.world
               (mkContext (Sample.preflight "https://www.audituniversepro.com")
                          Sample.envFull)) = Some (204%Z, None))
  /\ headerOf (handle VariantC Sample.world
                 (mkContext (Sample.preflight "https://www.audituniversepro.com")
                            Sample.envFull)) "Access-Control-Allow-Origin"
     = Some "https://www.audituniversepro.com".
Proof.
  destruct (C7_preflight Sample.world
              (mkContext (Sample.preflight "https://www.audituniversepro.com")
                         Sample.envFull) eq_refl)
    as (_ & Hst & Hc & _ & _).
  split.
  - apply Hst. discriminate.
  - apply Hc. split; [reflexivity|]. simpl. auto.
Defined.

(** C7 as stated fails on an Origin outside the allow-lists: variant B
    reflects it, and variant A's [pickAllowedOrigin] falls back to its first
    allowed origin instead of omitting the header. *)
Lemma C7_counterexample :
  existsb (String.eqb "https://evil.example") LeadC.ALLOWED_ORIGINS = false
  /\ existsb (String.eqb "https://evil.example") LeadA.allow = false
  /\ headerOf (handle VariantB Sample.world
                 (mkContext (Sample.preflight "https://evil.example") Sample.envFull))
       "Access-Control-Allow-Origin"
     = Some "https://evil.example"
  /\ LeadA.pickAllowedOrigin (Sample.preflight "https://evil.example")
     = "https://audituniversepro.com".
Proof. vm_compute. repeat split. Qed.

(** ** C8: the source path *)

Lemma or_empty_r a : Js.or a "" = a.
Proof. destruct a; reflexivity. Qed.

Lemma resolveSourcePath_spec W req supplied :
  LeadC.resolveSourcePath W req supplied
  = if Js.truthy (LeadC.normalizeStr supplied 500)
    then LeadC.normalizeStr supplied 500
    else match refererPath W req with
         | Some p => p
         | None => pathname req
         end.
Proof.
  unfold LeadC.resolveSourcePath, refererPath.
  destruct (Js.truthy (LeadC.normalizeStr supplied 500)) eqn:Es; cbn [negb];
    [reflexivity|].
  destruct (hdrReferer req) as [ref|]; cbn [Js.orEmpty].
  - destruct (Js.truthy ref); [|rewrite Es; cbn [negb]; apply or_empty_r].
    destruct (URL_pathname W ref) as [p|];
      [|rewrite Es; cbn [negb]; apply or_empty_r].
    rewrite or_empty_r.
    destruct (Js.truthy p); cbn [negb]; [reflexivity | apply or_empty_r].
  - cbn [Js.truthy]. rewrite Es. cbn [negb]. apply or_empty_r.
Qed.

(** C8, as amended.  Every stored row carries the supplied [source_path],
    normalised by the variant, when that is non-empty.  Otherwise variant A
    stores the request's own path, variant B stores nothing (NULL), and
    variant C stores the path of the Referer header when the header is a URL
    with a non-empty path, else the request's own path. *)
Theorem C8_source_path (v : variant) (W : World) (ctx : Context) (r : Row) :
  In r (inserts (trace (handle v W ctx))) ->
  exists fs,
    fieldsOf v (request ctx) = Some fs
    /\ rowSourcePath r
       = if Js.truthy (suppliedSourcePath v fs)
         then Some (suppliedSourcePath v fs)
         else match v with
              | VariantA => Js.orNull (pathname (request ctx))
              | VariantB => None
              | VariantC =>
                  Some match refererPath W (request ctx) with
                       | Some p => p
                       | None => pathname (request ctx)
                       end
              end.
Proof.
  intros Hin. apply inserts_inv in Hin.
  destruct Hin as (fs & Hfs & _ & _ & ->). exists fs. split; [exact Hfs|].
  destruct v; cbn [rowOf rowSourcePath sourcePathOf suppliedSourcePath].
  - unfold Js.or, Js.orNull.
    destruct (Js.truthy (LeadA.normalizeString (fs "source_path") 300)) eqn:E;
      [rewrite E|]; reflexivity.
  - unfold Js.orNull. reflexivity.
  - rewrite resolveSourcePath_spec.
    destruct (Js.truthy (LeadC.normalizeStr (fs "source_path") 500)); reflexivity.
Qed.

Lemma C8_source_path_witness :
  In (mkRow (Some "Jo") "a@b.com" (Some "") (Some "") 1%Z (Some "/pricing") (Some ""))
     (inserts (trace (handle VariantC Sample.world
                        (mkContext (Sample.referred Sample.jo) Sample.envNoHook))))
  /\ exists fs,
      fieldsOf VariantC (Sample.referred Sample.jo) = Some fs
      /\ Some "/pricing"
         = if Js.truthy (suppliedSourcePath VariantC fs)
           then Some (suppliedSourcePath VariantC fs)
           else Some match refererPath Sample.world (Sample.referred Sample.jo) with
                     | Some p => p
                     | None => pathname (Sample.referred Sample.jo)
                     end.
Proof.
  assert (H : In (mkRow (Some "Jo") "a@b.com" (Some "") (Some "") 1%Z
                        (Some "/pricing") (Some ""))
                 (inserts (trace (handle VariantC Sample.world
                                    (mkContext (Sample.referred Sample.jo) Sample.envNoHook))))).
  { vm_compute. left. reflexivity. }
  split; [exact H|].
  exact (C8_source_path VariantC Sample.world
           (mkContext (Sample.referred Sample.jo) Sample.envNoHook) _ H).
Defined.

(** C8 as stated fails on a submission without [source_path] sent with a
    Referer: variant A stores the request path, variant B stores NULL. *)
Lemma C8_counterexample :
  Js.prop Sample.jo "source_path" = Js.Undefined
  /\ refererPath Sample.world (Sample.referred Sample.jo) = Some "/pricing"
  /\ map rowSourcePath
       (inserts (trace (handle VariantA Sample.world
                          (mkContext (Sample.referred Sample.jo) Sample.envNoHook))))
     = [Some "/api/lead"]
  /\ map rowSourcePath
       (inserts (trace (handle VariantB Sample.world
                          (mkContext (Sample.referred Sample.jo) Sample.envNoHook))))
     = [None].
Proof. vm_compute. repeat split. Qed.

(** ** C9: the missing storage binding *)

Lemma no_binding_no_webhook v W ctx :
  LEADS_DB (env ctx) = None -> callsWebhook (handle v W ctx) = false.
Proof.
  intros Edb. destruct v.
  - unfold handle, LeadA.onRequest. rewrite Edb.
    repeat (split_if; cbn [negb orb andb]); reflexivity.
  - unfold handle, LeadB.onRequest.
    read_body (LeadB.parseBody (request ctx)) (LeadB_parseBody_trace (request ctx)).
    destruct (String.eqb (method (request ctx)) "OPTIONS"); [reflexivity|].
    destruct (String.eqb (method (request ctx)) "POST"); cbn [negb];
      [|reflexivity].
    destruct o as [[|f]|]; try reflexivity.
    change ([], Normal (JsonObject f)) with (ret (JsonObject f)).
    rewrite bind_ret. unfold LeadB.get. rewrite !bind_ret. rewrite Edb.
    repeat (split_if; cbn [negb orb andb]); reflexivity.
  - unfold handle, LeadC.onRequest.
    read_body (LeadC.readBody (request ctx)) (LeadC_readBody_trace (request ctx)).
    destruct (String.eqb (method (request ctx)) "OPTIONS"); [reflexivity|].
    destruct (String.eqb (method (request ctx)) "POST"); cbn [negb];
      [|reflexivity].
    destruct o as [[|f]|]; try reflexivity.
    change ([], Normal (JsonObject f)) with (ret (JsonObject f)).
    rewrite bind_ret. unfold LeadC.get. rewrite !bind_ret. rewrite Edb.
    repeat (split_if; cbn [negb orb andb]); reflexivity.
Qed.

(** C9, as amended.  Without the storage binding no POST inserts or calls
    the webhook.  Variant A tests the binding first and answers every POST
    500 with its configuration error.  Variants B and C test it only before
    the insert: a POST that was read and passed validation is answered 500
    with the variant's configuration error; other POSTs are answered by the
    step that stops them. *)
Theorem C9_missing_binding (v : variant) (W : World) (ctx : Context) :
  method (request ctx) = "POST" ->
  LEADS_DB (env ctx) = None ->
  inserts (trace (handle v W ctx)) = []
  /\ callsWebhook (handle v W ctx) = false
  /\ (v = VariantA
      \/ (exists fs, fieldsOf v (request ctx) = Some fs
                     /\ passesValidation v fs = true) ->
      returned (handle v W ctx) = Some (500%Z, Some (errBody (bindingError v)))
      /\ trace (handle v W ctx) = []).
Proof.
  intros Hm Edb.
  assert (Hret :
    v = VariantA
    \/ (exists fs, fieldsOf v (request ctx) = Some fs /\ passesValidation v fs = true) ->
    returned (handle v W ctx) = Some (500%Z, Some (errBody (bindingError v)))
    /\ trace (handle v W ctx) = []).
  { intros H. destruct v.
    - unfold handle, LeadA.onRequest. post_method method_POST Hm. rewrite Edb. split; reflexivity.
    - destruct H as [H|(fs & Hfs & Hval)]; [discriminate H|].
      apply fieldsOf_B in Hfs. destruct Hfs as (o & Er & ->).
      apply passesValidation_B in Hval. destruct Hval as (Hhp & He & Hre & Hc).
      unfold handle, LeadB.onRequest. post_method method_POST Hm.
      rewrite Er. cbn [negb].
      rewrite bind_ret. unfold LeadB.get. rewrite !bind_ret.
      unfold LeadB.isValidEmail.
      rewrite Hhp, He, Hre, Hc, Edb. split; reflexivity.
    - destruct H as [H|(fs & Hfs & Hval)]; [discriminate H|].
      apply fieldsOf_C in Hfs. destruct Hfs as (o & Er & ->).
      apply passesValidation_C in Hval. destruct Hval as (He & Hre & Hc).
      unfold handle, LeadC.onRequest. post_method method_POST Hm.
      rewrite Er. cbn [negb].
      rewrite bind_ret. unfold LeadC.get. rewrite !bind_ret.
      unfold LeadC.isValidEmail.
      rewrite He, Hre, Hc, Edb. split; reflexivity. }
  assert (Hins : inserts (trace (handle v W ctx)) = []).
  { rewrite inserts_spec. unfold insertsOf. rewrite Edb.
    destruct (fieldsOf v (request ctx)); reflexivity. }
  split; [exact Hins|]. split; [|exact Hret].
  apply no_binding_no_webhook. exact Edb.
Qed.

Lemma C9_missing_binding_witness :
  inserts (trace (handle VariantC Sample.world
                    (mkContext (Sample.post Sample.jo) Sample.envEmpty))) = []
  /\ callsWebhook (handle VariantC Sample.world
                     (mkContext (Sample.post Sample.jo) Sample.envEmpty)) = false
  /\ returned (handle VariantC Sample.world
                 (mkContext (Sample.post Sample.jo) Sample.envEmpty))
     = Some (500%Z, Some (errBody "Server misconfiguration (LEADS_DB missing)"))
  /\ trace (handle VariantC Sample.world
              (mkContext (Sample.post Sample.jo) Sample.envEmpty)) = [].
Proof.
  destruct (C9_missing_binding VariantC Sample.world
              (mkContext (Sample.post Sample.jo) Sample.envEmpty)
              eq_refl eq_refl) as (Hins & Hweb & Hret).
  split; [exact Hins|]. split; [exact Hweb|].
  apply Hret. right. exists (Js.prop Sample.jo). split; reflexivity.
Defined.

(** C9 as stated fails on variants B and C, which validate first: an
    invalid email is answered 400 and a filled honeypot 200. *)
Lemma C9_counterexample :
  LEADS_DB Sample.envEmpty = None
  /\ returned (handle VariantC Sample.world
                 (mkContext (Sample.post Sample.notAnEmail) Sample.envEmpty))
     = Some (400%Z, Some (errBody "Invalid email"))
  /\ returned (handle VariantB Sample.world
                 (mkContext (Sample.post Sample.notAnEmail) Sample.envEmpty))
     = Some (400%Z, Some (errBody "Invalid email format."))
  /\ returned (handle VariantB Sample.world
                 (mkContext (Sample.post Sample.spam) Sample.envEmpty))
     = Some (200%Z, Some okBody).
Proof. vm_compute. repeat split. Qed.

(** ** C10: a honeypot of white space *)

Lemma first_dropKeys_other k (l : Js.entries) :
  isHoneypotKey k = false -> Js.first k (dropKeys l) = Js.first k l.
Proof.
  intros Hk. induction l as [|[k' x] l IH]; [reflexivity|].
  unfold dropKeys in *. simpl.
  destruct (isHoneypotKey k') eqn:Ek'; simpl.
  - destruct (String.eqb k k') eqn:E; [|exact IH].
    apply String.eqb_eq in E. subst. congruence.
  - rewrite IH. reflexivity.
Qed.

Lemma first_dropKeys_honeypot k (l : Js.entries) :
  isHoneypotKey k = true -> Js.first k (dropKeys l) = None.
Proof.
  intros Hk. induction l as [|[k' x] l IH]; [reflexivity|].
  unfold dropKeys in *. simpl.
  destruct (isHoneypotKey k') eqn:Ek'; simpl; [exact IH|].
  destruct (String.eqb k k') eqn:E; [|exact IH].
  apply String.eqb_eq in E. subst. congruence.
Qed.

Lemma rev_dropKeys {A} (l : list (string * A)) : rev (dropKeys l) = dropKeys (rev l).
Proof.
  unfold dropKeys. induction l as [|a l IH]; [reflexivity|].
  simpl. rewrite filter_app. simpl.
  destruct (negb (isHoneypotKey (fst a))); simpl; rewrite IH;
    [reflexivity | symmetry; apply app_nil_r].
Qed.

Lemma prop_dropKeys_other k (l : Js.entries) :
  isHoneypotKey k = false -> Js.prop (dropKeys l) k = Js.prop l k.
Proof.
  intros Hk. unfold Js.prop.
  rewrite rev_dropKeys, first_dropKeys_other by exact Hk. reflexivity.
Qed.

Lemma prop_dropKeys_honeypot k (l : Js.entries) :
  isHoneypotKey k = true -> Js.prop (dropKeys l) k = Js.Undefined.
Proof.
  intros Hk. unfold Js.prop.
  rewrite rev_dropKeys, first_dropKeys_honeypot by exact Hk. reflexivity.
Qed.

Lemma formGet_dropKeys_other k (l : Js.entries) :
  isHoneypotKey k = false -> Js.formGet (dropKeys l) k = Js.formGet l k.
Proof.
  intros Hk. unfold Js.formGet. rewrite first_dropKeys_other by exact Hk.
  reflexivity.
Qed.

Lemma formGet_dropKeys_honeypot k (l : Js.entries) :
  isHoneypotKey k = true -> Js.formGet (dropKeys l) k = Js.Null.
Proof.
  intros Hk. unfold Js.formGet. rewrite first_dropKeys_honeypot by exact Hk.
  reflexivity.
Qed.

Lemma dropKeys_fromParams l :
  LeadB.fromParams (dropKeys l)
  = JsonObject (dropKeys (map (fun kv => (fst kv, Js.Str (snd kv))) l)).
Proof.
  unfold LeadB.fromParams, dropKeys. f_equal.
  induction l as [|[k x] l IH]; [reflexivity|].
  simpl. destruct (negb (isHoneypotKey k)); simpl; rewrite IH; reflexivity.
Qed.

Lemma normalizeString_blank x n :
  isBlank x = true -> LeadA.normalizeString x n = "".
Proof.
  destruct x as [| | | |s|]; try discriminate. simpl. intros H.
  apply negb_true_iff in H. unfold LeadA.normalizeString. simpl.
  destruct (Js.trim s); [|discriminate H].
  destruct n; reflexivity.
Qed.

Lemma str_blank x : isBlank x = true -> LeadB.str x = "".
Proof.
  destruct x as [| | | |s|]; try discriminate. simpl. intros H.
  apply negb_true_iff in H. unfold LeadB.str. simpl.
  destruct (Js.trim s); [reflexivity | discriminate H].
Qed.

(** Reading the body of the request without honeypot fields. *)
Lemma readBody_withoutHoneypot req raw :
  LeadA.readBody req = ret raw ->
  exists c,
    Js.isNullish c = true
    /\ LeadA.readBody (withoutHoneypot req)
       = ret (LeadA.mkRaw (LeadA.name raw) (LeadA.email raw) (LeadA.website raw)
                          (LeadA.message raw) (LeadA.consent raw)
                          (LeadA.source_path raw) c).
Proof.
  unfold LeadA.readBody. cbn [withoutHoneypot hdrContentType bodyJson bodyFormData].
  destruct (Js.includes _ _).
  - destruct (bodyJson req) as [[|o]|]; cbn [option_map awaitOpt];
      rewrite ?bind_ret; intros E; try discriminate E.
    injection E as <-. exists Js.Undefined. split; [reflexivity|].
    cbn [LeadA.name LeadA.email LeadA.website LeadA.message LeadA.consent
         LeadA.source_path].
    rewrite !prop_dropKeys_other by reflexivity.
    rewrite prop_dropKeys_honeypot by reflexivity. reflexivity.
  - destruct (bodyFormData req) as [f|]; cbn [option_map awaitOpt];
      rewrite ?bind_ret; intros E; try discriminate E.
    injection E as <-. exists Js.Null. split; [reflexivity|].
    cbn [LeadA.name LeadA.email LeadA.website LeadA.message LeadA.consent
         LeadA.source_path].
    rewrite !formGet_dropKeys_other by reflexivity.
    rewrite formGet_dropKeys_honeypot by reflexivity. reflexivity.
Qed.

Lemma parseBody_withoutHoneypot req o :
  LeadB.parseBody req = ret (JsonObject o) ->
  LeadB.parseBody (withoutHoneypot req) = ret (JsonObject (dropKeys o)).
Proof.
  unfold LeadB.parseBody.
  cbn [withoutHoneypot hdrContentType bodyJson bodyFormData bodyTextParams].
  cbv zeta.
  repeat match goal with
         | |- context [if ?c then _ else _] => destruct c
         end;
    match goal with
    | |- context [awaitOpt ?x] => destruct x as [b|]
    end;
    cbn [option_map awaitOpt];
    rewrite ?bind_ret, ?bind_throw, ?tryCatch_ret, ?tryCatch_throw;
    intros E; apply ret_inj in E;
    try (rewrite dropKeys_fromParams; unfold LeadB.fromParams in E);
    try (injection E as <-; reflexivity).
  subst b. reflexivity.
Qed.

Lemma pickAllowedOrigin_withoutHoneypot req :
  LeadA.pickAllowedOrigin (withoutHoneypot req) = LeadA.pickAllowedOrigin req.
Proof. reflexivity. Qed.

Lemma blank_honeypot_A W ctx raw :
  LeadA.readBody (request ctx) = ret raw ->
  isBlank (LeadA.company raw) = true ->
  LeadA.onRequest W ctx
  = LeadA.onRequest W (mkContext (withoutHoneypot (request ctx)) (env ctx)).
Proof.
  intros Er Hb.
  destruct (readBody_withoutHoneypot _ _ Er) as (c & Hc & Er').
  unfold LeadA.onRequest.
  cbn [request env method pathname hdrUserAgent withoutHoneypot].
  change (mkRequest (method (request ctx)) (pathname (request ctx))
            (hdrOrigin (request ctx)) (hdrContentType (request ctx))
            (hdrReferer (request ctx)) (hdrUserAgent (request ctx))
            (hdrCfConnectingIp (request ctx)) (hdrXForwardedFor (request ctx))
            (option_map
               (fun b => match b with
                         | JsonNull => JsonNull
                         | JsonObject o => JsonObject (dropKeys o)
                         end) (bodyJson (request ctx)))
            (option_map dropKeys (bodyFormData (request ctx)))
            (option_map dropKeys (bodyTextParams (request ctx))))
    with (withoutHoneypot (request ctx)).
  rewrite pickAllowedOrigin_withoutHoneypot, Er, Er'.
  destruct (String.eqb (method (request ctx)) "OPTIONS"); [reflexivity|].
  destruct (String.eqb (method (request ctx)) "POST"); cbn [negb]; [|reflexivity].
  destruct (LEADS_DB (env ctx)) as [db|]; [|reflexivity].
  rewrite !bind_ret.
  cbn [LeadA.name LeadA.email LeadA.website LeadA.message LeadA.consent
       LeadA.source_path LeadA.company].
  rewrite (normalizeString_blank _ _ Hb), (normalizeString_nullish _ _ Hc).
  reflexivity.
Qed.

Lemma blank_honeypot_B W ctx o :
  LeadB.parseBody (request ctx) = ret (JsonObject o) ->
  isBlank (Js.orValue (Js.prop o "hp") (Js.prop o "company")) = true ->
  LeadB.onRequest W ctx
  = LeadB.onRequest W (mkContext (withoutHoneypot (request ctx)) (env ctx)).
Proof.
  intros Er Hb.
  pose proof (parseBody_withoutHoneypot _ _ Er) as Er'.
  unfold LeadB.onRequest.
  cbn [request env method pathname hdrUserAgent hdrOrigin hdrCfConnectingIp
       hdrXForwardedFor withoutHoneypot].
  change (mkRequest (method (request ctx)) (pathname (request ctx))
            (hdrOrigin (request ctx)) (hdrContentType (request ctx))
            (hdrReferer (request ctx)) (hdrUserAgent (request ctx))
            (hdrCfConnectingIp (request ctx)) (hdrXForwardedFor (request ctx))
            (option_map
               (fun b => match b with
                         | JsonNull => JsonNull
                         | JsonObject o => JsonObject (dropKeys o)
                         end) (bodyJson (request ctx)))
            (option_map dropKeys (bodyFormData (request ctx)))
            (option_map dropKeys (bodyTextParams (request ctx))))
    with (withoutHoneypot (request ctx)).
  rewrite Er, Er'.
  destruct (String.eqb (method (request ctx)) "OPTIONS"); [reflexivity|].
  destruct (String.eqb (method (request ctx)) "POST"); cbn [negb]; [|reflexivity].
  rewrite !bind_ret. unfold LeadB.get. rewrite !bind_ret.
  rewrite (prop_dropKeys_honeypot "hp"), (prop_dropKeys_honeypot "company")
    by reflexivity.
  rewrite (prop_dropKeys_other "name"), (prop_dropKeys_other "email"),
    (prop_dropKeys_other "website"), (prop_dropKeys_other "message"),
    (prop_dropKeys_other "source_path"), (prop_dropKeys_other "consent")
    by reflexivity.
  rewrite (str_blank _ Hb).
  reflexivity.
Qed.

(** C10.  In the variants that test a honeypot (A and B), a request whose
    honeypot value is a string of white space only passes the honeypot
    test, because the value is trimmed first: the run is the run of the same
    request without honeypot fields, and a POST with a valid email (and, in
    variant B, a given consent) that finds the storage binding is inserted. *)
Theorem C10_blank_honeypot
  (v : variant) (W : World) (ctx : Context) (fs : string -> Js.value)
  (x : Js.value) :
  fieldsOf v (request ctx) = Some fs ->
  honeypotField v fs = Some x ->
  isBlank x = true ->
  honeypotEmpty v fs = true
  /\ handle v W ctx
     = handle v W (mkContext (withoutHoneypot (request ctx)) (env ctx))
  /\ (method (request ctx) = "POST" ->
      (exists db, LEADS_DB (env ctx) = Some db) ->
      emailValid (emailOf v fs) = true ->
      negb (requiresConsent v) || consentOf v (fs "consent") = true ->
      inserts (trace (handle v W ctx)) = [rowOf v W (request ctx) fs]).
Proof.
  intros Hfs Hx Hb.
  assert (He : honeypotEmpty v fs = true).
  { unfold honeypotEmpty.
    destruct v; simpl in Hx |- *; try discriminate Hx; injection Hx as <-.
    - rewrite (normalizeString_blank _ _ Hb). reflexivity.
    - rewrite (str_blank _ Hb). reflexivity. }
  split; [exact He|]. split.
  - destruct v; simpl in Hx; try discriminate Hx; injection Hx as <-.
    + apply fieldsOf_A in Hfs. destruct Hfs as (raw & Er & ->).
      apply blank_honeypot_A with (raw := raw); assumption.
    + apply fieldsOf_B in Hfs. destruct Hfs as (o & Er & ->).
      apply blank_honeypot_B with (o := o); assumption.
  - intros Hm [db Edb] Hemail Hconsent.
    rewrite inserts_spec. unfold insertsOf, passesValidation.
    rewrite Hfs, Edb, Hm, He, Hemail, Hconsent. reflexivity.
Qed.

Lemma C10_blank_honeypot_witness :
  isBlank (Js.Str "   ") = true
  /\ honeypotEmpty VariantB (Js.prop Sample.blankHoneypot) = true
  /\ handle VariantB Sample.world
       (mkContext (Sample.post Sample.blankHoneypot) Sample.envNoHook)
     = handle VariantB Sample.world
         (mkContext (withoutHoneypot (Sample.post Sample.blankHoneypot))
                    Sample.envNoHook)
  /\ inserts (trace (handle VariantB Sample.world
                       (mkContext (Sample.post Sample.blankHoneypot)
                                  Sample.envNoHook)))
     = [mkRow (Some "Jo") "a@b.com" None None 1%Z None None].
Proof.
  split; [reflexivity|].
  destruct (C10_blank_honeypot VariantB Sample.world
              (mkContext (Sample.post Sample.blankHoneypot) Sample.envNoHook)
              (Js.prop Sample.blankHoneypot) (Js.Str "   ")
              eq_refl eq_refl eq_refl)
    as (He & Hrun & Hins).
  split; [exact He|]. split; [exact Hrun|].
  refine (eq_trans (Hins eq_refl _ _ _) _).
  - exists Sample.db. reflexivity.
  - vm_compute. reflexivity.
  - vm_compute. reflexivity.
  - vm_compute. reflexivity.
Defined.

(* ================================================================= *)
(** * Further properties *)

(** ** Sample runs *)

Lemma run_invalidEmailA :
  outcome (handle VariantA Sample.world
             (mkContext (Sample.post Sample.notAnEmail) Sample.envFull))
  = Normal MoreSamples.invalidEmailA.
Proof. vm_compute. reflexivity. Qed.

Lemma run_allowedPreflight :
  outcome (handle VariantC Sample.world
             (mkContext (Sample.preflight "https://audituniversepro.com")
                        Sample.envFull))
  = Normal MoreSamples.allowedPreflight.
Proof. vm_compute. reflexivity. Qed.

Lemma run_foreignPreflightB :
  outcome (handle VariantB Sample.world
             (mkContext (Sample.preflight "https://evil.example") Sample.envFull))
  = Normal MoreSamples.foreignPreflightB.
Proof. vm_compute. reflexivity. Qed.

Lemma stored_joRowC :
  In MoreSamples.joRowC
     (inserts (trace (handle VariantC Sample.world
                        (mkContext (Sample.post Sample.jo) Sample.envFull)))).
Proof. vm_compute. left. reflexivity. Qed.

Lemma stored_joRowA :
  In MoreSamples.joRowA
     (inserts (trace (handle VariantA Sample.world
                        (mkContext (Sample.post Sample.jo) Sample.envFull)))).
Proof. vm_compute. left. reflexivity. Qed.

Lemma fetched_joPayloadC :
  In (Fetch "https://hook.example/lead" MoreSamples.joPayloadC)
     (trace (handle VariantC MoreSamples.online
               (mkContext (Sample.post Sample.jo) Sample.envFull))).
Proof. vm_compute. right. left. reflexivity. Qed.

Lemma method_other req :
  method req <> "OPTIONS" -> method req <> "POST" ->
  String.eqb (method req) "OPTIONS" = false
  /\ String.eqb (method req) "POST" = false.
Proof.
  intros Ho Hp. split; apply String.eqb_neq; assumption.
Qed.

(** X1.  A request whose method is neither OPTIONS nor POST is answered 405
    with [ok:false] and the variant's method-error text, and nothing is
    read, stored, fetched or logged: the trace is empty. *)
Theorem X1_method_not_allowed (v : variant) (W : World) (ctx : Context) :
  method (request ctx) <> "OPTIONS" ->
  method (request ctx) <> "POST" ->
  returned (handle v W ctx) = Some (405%Z, Some (errBody (methodError v)))
  /\ trace (handle v W ctx) = [].
Proof.
  intros Ho Hp. destruct (method_other _ Ho Hp) as [Eo Ep].
  destruct v; unfold handle.
  - unfold LeadA.onRequest. rewrite Eo, Ep. split; reflexivity.
  - unfold LeadB.onRequest. rewrite Eo, Ep. split; reflexivity.
  - unfold LeadC.onRequest. rewrite Eo, Ep. split; reflexivity.
Qed.

Lemma X1_method_not_allowed_witness :
  returned (handle VariantB Sample.world (mkContext MoreSamples.getRequest Sample.envFull))
  = Some (405%Z, Some (errBody "Method not allowed. Use POST."))
  /\ trace (handle VariantB Sample.world (mkContext MoreSamples.getRequest Sample.envFull)) = [].
Proof.
  apply (X1_method_not_allowed VariantB Sample.world
           (mkContext MoreSamples.getRequest Sample.envFull)).
  - discriminate.
  - discriminate.
Defined.

Lemma calls_A W ctx :
  calls (trace (LeadA.onRequest W ctx)) = callsOf VariantA W ctx.
Proof.
  unfold callsOf, fieldsOf, LeadA.onRequest.
  read_body (LeadA.readBody (request ctx)) (LeadA_readBody_trace (request ctx)).
  settle_method (request ctx).
  1, 3: destruct o; destruct (LEADS_DB (env ctx)); reflexivity.
  destruct (LEADS_DB (env ctx)) as [db|]; [| destruct o; reflexivity].
  destruct o as [raw|]; [| reflexivity].
  change ([], Normal raw) with (ret raw). rewrite bind_ret.
  unfold passesValidation, honeypotEmpty, honeypotOf, emailValid,
    requiresConsent, LeadA.isValidEmail, d1Run, fetchPost, hookOf,
    rowOf, payloadOf, sourcePathOf, emailOf.
  cbn [outcome snd ret rawField String.eqb Ascii.eqb Bool.eqb negb orb andb].
  destruct (LEAD_WEBHOOK_URL (env ctx)) as [hook|]; cbn [Js.orEmpty Js.truthy];
    repeat (split_if; cbn [negb orb andb]); reflexivity.
Qed.

Lemma calls_B W ctx :
  calls (trace (LeadB.onRequest W ctx)) = callsOf VariantB W ctx.
Proof.
  unfold callsOf, fieldsOf, LeadB.onRequest.
  read_body (LeadB.parseBody (request ctx)) (LeadB_parseBody_trace (request ctx)).
  settle_method (request ctx).
  1, 3: destruct o as [[|f]|]; destruct (LEADS_DB (env ctx)); reflexivity.
  destruct o as [[|f]|];
    [ destruct (LEADS_DB (env ctx)); reflexivity
    | | destruct (LEADS_DB (env ctx)); reflexivity ].
  change ([], Normal (JsonObject f)) with (ret (JsonObject f)).
  rewrite bind_ret. unfold LeadB.get. rewrite !bind_ret.
  unfold passesValidation, honeypotEmpty, honeypotOf, emailValid,
    requiresConsent, consentOf, LeadB.isValidEmail, d1Run, fetchPost, hookOf,
    rowOf, payloadOf, sourcePathOf, emailOf.
  cbn [outcome snd ret negb orb andb].
  destruct (LEADS_DB (env ctx)) as [db|];
    destruct (LEAD_WEBHOOK_URL (env ctx)) as [hook|];
    cbn [Js.orEmpty];
    [ change (LeadB.str (Js.Str hook)) with (Js.trim hook)
    | change (LeadB.str Js.Undefined) with ""; change (Js.trim "") with ""
    | change (LeadB.str (Js.Str hook)) with (Js.trim hook)
    | change (LeadB.str Js.Undefined) with ""; change (Js.trim "") with "" ];
    cbn [Js.truthy];
    repeat (split_if; cbn [negb orb andb]); reflexivity.
Qed.

Lemma calls_C W ctx :
  calls (trace (LeadC.onRequest W ctx)) = callsOf VariantC W ctx.
Proof.
  unfold callsOf, fieldsOf, LeadC.onRequest.
  read_body (LeadC.readBody (request ctx)) (LeadC_readBody_trace (request ctx)).
  settle_method (request ctx).
  1, 3: destruct o as [[|f]|]; destruct (LEADS_DB (env ctx)); reflexivity.
  destruct o as [[|f]|];
    [ destruct (LEADS_DB (env ctx)); reflexivity
    | | destruct (LEADS_DB (env ctx)); reflexivity ].
  change ([], Normal (JsonObject f)) with (ret (JsonObject f)).
  rewrite bind_ret. unfold LeadC.get. rewrite !bind_ret.
  unfold passesValidation, honeypotEmpty, honeypotOf, emailValid,
    requiresConsent, consentOf, LeadC.isValidEmail, d1Run, fetchPost, hookOf,
    rowOf, payloadOf, sourcePathOf, emailOf.
  cbn [outcome snd ret negb orb andb].
  destruct (LEADS_DB (env ctx)) as [db|];
    repeat (split_if; cbn [negb orb andb]); reflexivity.
Qed.

(** The storage and network calls of every run, in order. *)
Lemma calls_spec v W ctx : calls (trace (handle v W ctx)) = callsOf v W ctx.
Proof.
  destruct v; [apply calls_A | apply calls_B | apply calls_C].
Qed.

Lemma built_A W ctx :
  forall r, outcome (LeadA.onRequest W ctx) = Normal r ->
            builtBy VariantA (request ctx) r /\ coherent r = true.
Proof.
  unfold LeadA.onRequest, builtBy, corsOrigin.
  read_body (LeadA.readBody (request ctx)) (LeadA_readBody_trace (request ctx)).
  destruct (String.eqb (method (request ctx)) "OPTIONS"); [built_leaf|].
  destruct (String.eqb (method (request ctx)) "POST"); cbn [negb]; [|built_leaf].
  destruct (LEADS_DB (env ctx)) as [db|]; [|built_leaf].
  destruct o as [raw|]; [|built_leaf].
  change ([], Normal raw) with (ret raw). rewrite bind_ret.
  unfold d1Run, fetchPost.
  repeat (split_if; cbn [negb orb andb]); built_leaf.
Qed.

Lemma built_B W ctx :
  forall r, outcome (LeadB.onRequest W ctx) = Normal r ->
            builtBy VariantB (request ctx) r /\ coherent r = true.
Proof.
  unfold LeadB.onRequest, builtBy, corsOrigin.
  read_body (LeadB.parseBody (request ctx)) (LeadB_parseBody_trace (request ctx)).
  destruct (String.eqb (method (request ctx)) "OPTIONS"); [built_leaf|].
  destruct (String.eqb (method (request ctx)) "POST"); cbn [negb]; [|built_leaf].
  destruct o as [[|f]|]; [built_leaf | | built_leaf].
  change ([], Normal (JsonObject f)) with (ret (JsonObject f)).
  rewrite bind_ret. unfold LeadB.get. rewrite !bind_ret.
  unfold d1Run, fetchPost.
  destruct (LEADS_DB (env ctx)) as [db|];
    repeat (split_if; cbn [negb orb andb]); built_leaf.
Qed.

Lemma built_C W ctx :
  forall r, outcome (LeadC.onRequest W ctx) = Normal r ->
            builtBy VariantC (request ctx) r /\ coherent r = true.
Proof.
  unfold LeadC.onRequest, builtBy, corsOrigin.
  read_body (LeadC.readBody (request ctx)) (LeadC_readBody_trace (request ctx)).
  destruct (String.eqb (method (request ctx)) "OPTIONS"); [built_leaf|].
  destruct (String.eqb (method (request ctx)) "POST"); cbn [negb]; [|built_leaf].
  destruct o as [[|f]|]; [built_leaf | | built_leaf].
  change ([], Normal (JsonObject f)) with (ret (JsonObject f)).
  rewrite bind_ret. unfold LeadC.get. rewrite !bind_ret.
  unfold d1Run, fetchPost.
  destruct (LEADS_DB (env ctx)) as [db|];
    repeat (split_if; cbn [negb orb andb]); built_leaf.
Qed.

(** Every response a variant returns comes from its response builders, with
    the CORS origin computed from the request, and is coherent. *)
Lemma built v W ctx r :
  outcome (handle v W ctx) = Normal r ->
  builtBy v (request ctx) r /\ coherent r = true.
Proof.
  destruct v; [apply built_A | apply built_B | apply built_C].
Qed.

Lemma newResponse_ret b st hs r :
  newResponse b st hs = ret r -> r = mkResponse st hs b.
Proof.
  unfold newResponse.
  destruct ((st <? 200) || (599 <? st))%Z; [discriminate|].
  destruct b as [b|]; [destruct (isNullBodyStatus st); [discriminate|]|];
    intros E; injection E as <-; reflexivity.
Qed.

Lemma coherent_spec r :
  coherent r = true ->
  match body r with
  | None => status r = 204%Z
  | Some b =>
      In (status r) [200; 400; 405; 500]%Z
      /\ (ok b = true <-> status r = 200%Z)
      /\ (error b = None <-> ok b = true)
  end.
Proof.
  unfold coherent. destruct (body r) as [b|].
  - rewrite !andb_true_iff. intros [[Hs Ho] He].
    apply eqb_prop in Ho, He.
    split; [|split].
    + apply existsb_exists in Hs. destruct Hs as (x & Hin & Hx).
      apply Z.eqb_eq in Hx. subst. exact Hin.
    + rewrite Ho. apply Z.eqb_eq.
    + rewrite He. destruct (error b); split; intros H; congruence.
  - apply Z.eqb_eq.
Qed.

(** X2.  Status, [ok] and [error] agree on every response a variant
    returns.  A response without a body has status 204.  A response with a
    body has status 200, 400, 405 or 500, its [ok] flag is true exactly when
    the status is 200, and it carries an [error] text exactly when [ok] is
    false.  (The [catch] of variant A is [LeadA.catchStatus] with
    [LeadA.catchError].) *)
Theorem X2_status_ok_agree (v : variant) (W : World) (ctx : Context) (r : Response) :
  outcome (handle v W ctx) = Normal r ->
  match body r with
  | None => status r = 204%Z
  | Some b =>
      In (status r) [200; 400; 405; 500]%Z
      /\ (ok b = true <-> status r = 200%Z)
      /\ (error b = None <-> ok b = true)
  end.
Proof.
  intros H. apply coherent_spec. apply (built v W ctx r H).
Qed.

Lemma X2_status_ok_agree_witness :
  In 400%Z [200; 400; 405; 500]%Z
  /\ (false = true <-> 400%Z = 200%Z)
  /\ (Some "Valid email is required." = None <-> false = true).
Proof.
  exact (X2_status_ok_agree VariantA Sample.world
           (mkContext (Sample.post Sample.notAnEmail) Sample.envFull)
           MoreSamples.invalidEmailA run_invalidEmailA).
Defined.

Lemma built_headers v req r :
  builtBy v req r ->
  (body r <> None ->
   header (headers r) "Content-Type" = Some "application/json; charset=utf-8")
  /\ (forall o, header (headers r) "Access-Control-Allow-Origin" = Some o ->
                header (headers r) "Vary" = Some "Origin")
  /\ (v <> VariantB -> header (headers r) "Cache-Control" = Some "no-store")
  /\ header (headers r) "Access-Control-Allow-Origin"
     = match v with
       | VariantB => Some (Js.or (corsOrigin v req) "*")
       | _ => Js.orNull (corsOrigin v req)
       end.
Proof.
  destruct v; unfold builtBy.
  - intros [b E]. apply newResponse_ret in E. rewrite E. unfold Js.orNull.
    destruct (Js.truthy (corsOrigin VariantA req)); cbn;
      repeat split; intros; try reflexivity; discriminate.
  - intros [E|[b E]]; apply newResponse_ret in E; rewrite E; cbn;
      repeat split; intros; try reflexivity; try contradiction.
  - unfold Js.orNull.
    intros [E|[b E]]; apply newResponse_ret in E; rewrite E;
      destruct (Js.truthy (corsOrigin VariantC req)); cbn;
      repeat split; intros; try reflexivity; try discriminate; contradiction.
Qed.

(** X3.  Headers of every response a variant returns.  A response with a
    body has [Content-Type: application/json; charset=utf-8]; a response
    with [Access-Control-Allow-Origin] has [Vary: Origin]; variants A and C
    always set [Cache-Control: no-store]. *)
Theorem X3_response_headers (v : variant) (W : World) (ctx : Context) (r : Response) :
  outcome (handle v W ctx) = Normal r ->
  (body r <> None ->
   header (headers r) "Content-Type" = Some "application/json; charset=utf-8")
  /\ (forall o, header (headers r) "Access-Control-Allow-Origin" = Some o ->
                header (headers r) "Vary" = Some "Origin")
  /\ (v <> VariantB -> header (headers r) "Cache-Control" = Some "no-store").
Proof.
  intros H. destruct (built v W ctx r H) as [Hb _].
  destruct (built_headers _ _ _ Hb) as (H1 & H2 & H3 & _). auto.
Qed.

Lemma X3_response_headers_witness :
  (body MoreSamples.invalidEmailA <> None ->
   header (headers MoreSamples.invalidEmailA) "Content-Type"
   = Some "application/json; charset=utf-8")
  /\ (forall o,
         header (headers MoreSamples.invalidEmailA) "Access-Control-Allow-Origin"
         = Some o ->
         header (headers MoreSamples.invalidEmailA) "Vary" = Some "Origin")
  /\ (VariantA <> VariantB ->
      header (headers MoreSamples.invalidEmailA) "Cache-Control" = Some "no-store").
Proof.
  exact (X3_response_headers VariantA Sample.world
           (mkContext (Sample.post Sample.notAnEmail) Sample.envFull)
           MoreSamples.invalidEmailA run_invalidEmailA).
Defined.

Lemma pickAllowedOrigin_cases req o :
  LeadA.pickAllowedOrigin req = o -> Js.truthy o = true ->
  hdrOrigin req = Some o \/ o = "https://audituniversepro.com".
Proof.
  unfold LeadA.pickAllowedOrigin.
  destruct (hdrOrigin req) as [origin|]; cbn [Js.orEmpty].
  - destruct (Js.truthy origin); cbn [negb].
    + repeat match goal with
             | |- context [if ?c then _ else _] => destruct c
             end; intros <- _; auto.
    + intros <- H. discriminate H.
  - cbn. intros <- H. discriminate H.
Qed.

Lemma orNull_Some a o : Js.orNull a = Some o -> a = o /\ Js.truthy o = true.
Proof.
  unfold Js.orNull. destruct (Js.truthy a) eqn:E; [|discriminate].
  intros H. injection H as <-. auto.
Qed.

(** X4.  The CORS origin of every response, not only of a preflight.
    Variant A sets the header to what [pickAllowedOrigin] gives, which is
    the request's [Origin] or else [https://audituniversepro.com].  Variant
    B echoes the request's [Origin], and sends [*] when there is none.
    Variant C sets the header to [o] exactly when the request's [Origin] is
    [o] and [o] is in [ALLOWED_ORIGINS]. *)
Theorem X4_cors_origin (v : variant) (W : World) (ctx : Context) (r : Response) :
  outcome (handle v W ctx) = Normal r ->
  match v with
  | VariantA =>
      header (headers r) "Access-Control-Allow-Origin"
      = Js.orNull (LeadA.pickAllowedOrigin (request ctx))
      /\ (forall o,
             header (headers r) "Access-Control-Allow-Origin" = Some o ->
             hdrOrigin (request ctx) = Some o
             \/ o = "https://audituniversepro.com")
  | VariantB =>
      header (headers r) "Access-Control-Allow-Origin"
      = Some (Js.or (Js.orEmpty (hdrOrigin (request ctx))) "*")
  | VariantC =>
      forall o,
        header (headers r) "Access-Control-Allow-Origin" = Some o
        <-> hdrOrigin (request ctx) = Some o /\ In o LeadC.ALLOWED_ORIGINS
  end.
Proof.
  intros H. destruct (built v W ctx r H) as [Hb _].
  destruct (built_headers _ _ _ Hb) as (_ & _ & _ & Hc).
  destruct v; cbn [corsOrigin] in Hc.
  - split; [exact Hc|]. intros o Ho. rewrite Hc in Ho.
    apply orNull_Some in Ho. destruct Ho as [E Ht].
    exact (pickAllowedOrigin_cases _ _ E Ht).
  - exact Hc.
  - intros o. rewrite Hc. split.
    + intros Ho. apply orNull_Some in Ho. destruct Ho as [E Ht].
      apply (getAllowedOrigin_spec _ _ Ht). exact E.
    + intros [E Hin].
      assert (Ht : Js.truthy o = true) by (apply ALLOWED_ORIGINS_truthy; exact Hin).
      assert (Hg : LeadC.getAllowedOrigin (request ctx) = o)
        by (apply (getAllowedOrigin_spec _ _ Ht); auto).
      rewrite Hg. unfold Js.orNull. rewrite Ht. reflexivity.
Qed.

Lemma X4_cors_origin_witness :
  header (headers MoreSamples.foreignPreflightB) "Access-Control-Allow-Origin"
  = Some "https://evil.example".
Proof.
  exact (X4_cors_origin VariantB Sample.world
           (mkContext (Sample.preflight "https://evil.example") Sample.envFull)
           MoreSamples.foreignPreflightB run_foreignPreflightB).
Defined.

(** X5.  The preflight headers.  Variants A and B put the three headers
    that answer a preflight on every response; variant C puts them on its
    bodiless 204 only, never on a JSON response.  Variant B always sets
    [Vary] and never sets [Cache-Control]. *)
Theorem X5_preflight_headers (v : variant) (W : World) (ctx : Context) (r : Response) :
  outcome (handle v W ctx) = Normal r ->
  match v with
  | VariantA => answersPreflight r
  | VariantB =>
      answersPreflight r
      /\ header (headers r) "Vary" = Some "Origin"
      /\ header (headers r) "Cache-Control" = None
  | VariantC =>
      match body r with
      | None => answersPreflight r
      | Some _ => header (headers r) "Access-Control-Allow-Methods" = None
                  /\ header (headers r) "Access-Control-Allow-Headers" = None
                  /\ header (headers r) "Access-Control-Max-Age" = None
      end
  end.
Proof.
  intros H. destruct (built v W ctx r H) as [Hb _].
  unfold answersPreflight. destruct v; unfold builtBy in Hb.
  - destruct Hb as [b E]. apply newResponse_ret in E. rewrite E.
    destruct (Js.truthy (corsOrigin VariantA (request ctx))); cbn;
      repeat split; reflexivity.
  - destruct Hb as [E|[b E]]; apply newResponse_ret in E; rewrite E; cbn;
      repeat split; reflexivity.
  - destruct Hb as [E|[b E]]; apply newResponse_ret in E; rewrite E;
      destruct (Js.truthy (corsOrigin VariantC (request ctx))); cbn;
      repeat split; reflexivity.
Qed.

Lemma X5_preflight_headers_witness : answersPreflight MoreSamples.allowedPreflight.
Proof.
  exact (X5_preflight_headers VariantC Sample.world
           (mkContext (Sample.preflight "https://audituniversepro.com")
                      Sample.envFull)
           MoreSamples.allowedPreflight run_allowedPreflight).
Defined.

(** X6.  Storage and network calls of a run.  Every run makes no call, or
    one insert, or one insert followed by one webhook fetch; a fetch is
    made only after an insert that resolved on the configured binding. *)
Theorem X6_calls_order (v : variant) (W : World) (ctx : Context) :
  calls (trace (handle v W ctx)) = []
  \/ (exists r, calls (trace (handle v W ctx)) = [DbRun r])
  \/ (exists r u p db,
         calls (trace (handle v W ctx)) = [DbRun r; Fetch u p]
         /\ LEADS_DB (env ctx) = Some db
         /\ runResolves db r = true).
Proof.
  rewrite calls_spec. unfold callsOf.
  destruct (fieldsOf v (request ctx)) as [fs|]; [|auto].
  destruct (LEADS_DB (env ctx)) as [db|]; [|auto].
  destruct (_ && _); [|auto].
  destruct (runResolves db _) eqn:Er; cbn [andb]; [|eauto].
  destruct (Js.truthy _); [|eauto].
  right. right. eauto 8.
Qed.

Lemma In_calls e t :
  In e t -> (exists u p, e = Fetch u p) \/ (exists r, e = DbRun r) -> In e (calls t).
Proof.
  induction t as [|a t IH]; [intros []|].
  intros [->|Hin] He.
  - destruct He as [(u & p & ->)|(r & ->)]; left; reflexivity.
  - destruct a; simpl; auto.
Qed.

Lemma inserts_calls t : inserts (calls t) = inserts t.
Proof.
  induction t as [|a t IH]; [reflexivity|].
  destruct a; simpl; rewrite ?IH; reflexivity.
Qed.

(** X7.  The webhook payload mirrors the stored row.  When a run posts [p]
    to [u], it stored exactly one row, [u] is the configured webhook URL
    (trimmed in variants B and C) and is not empty, the email of [p] is the
    stored email, the consent of [p] is true exactly when the stored consent
    is not 0, and each text column of the row is the text of [p] as the
    variant binds it ([x || null] in variants A and B). *)
Theorem X7_payload_mirrors_row
  (v : variant) (W : World) (ctx : Context) (u : string) (p : Payload) :
  In (Fetch u p) (trace (handle v W ctx)) ->
  exists r,
    inserts (trace (handle v W ctx)) = [r]
    /\ u = hookOf v (env ctx)
    /\ Js.truthy u = true
    /\ plEmail p = rowEmail r
    /\ plConsent p = negb (rowConsent r =? 0)%Z
    /\ rowName r = bound v (plName p)
    /\ rowWebsite r = bound v (plWebsite p)
    /\ rowMessage r = bound v (plMessage p)
    /\ rowSourcePath r = bound v (plSourcePath p)
    /\ rowUserAgent r = bound v (plUserAgent p).
Proof.
  intros Hin. apply In_calls in Hin; [|left; eauto].
  rewrite <- inserts_calls. rewrite calls_spec in *. unfold callsOf in *.
  destruct (fieldsOf v (request ctx)) as [fs|]; [|destruct Hin].
  destruct (LEADS_DB (env ctx)) as [db|]; [|destruct Hin].
  destruct (_ && _); [|destruct Hin].
  destruct (runResolves db _); cbn [andb] in *;
    [|destruct Hin as [E|[]]; discriminate E].
  destruct (Js.truthy (hookOf v (env ctx))) eqn:Et;
    [|destruct Hin as [E|[]]; discriminate E].
  destruct Hin as [E|[E|[]]]; [discriminate E|].
  injection E as <- <-.
  exists (rowOf v W (request ctx) fs).
  destruct v; cbn; repeat split; exact Et.
Qed.

Lemma X7_payload_mirrors_row_witness :
  exists r,
    inserts (trace (handle VariantC MoreSamples.online
                      (mkContext (Sample.post Sample.jo) Sample.envFull))) = [r]
    /\ "https://hook.example/lead" = hookOf VariantC Sample.envFull
    /\ Js.truthy "https://hook.example/lead" = true
    /\ plEmail MoreSamples.joPayloadC = rowEmail r
    /\ plConsent MoreSamples.joPayloadC = negb (rowConsent r =? 0)%Z
    /\ rowName r = bound VariantC (plName MoreSamples.joPayloadC)
    /\ rowWebsite r = bound VariantC (plWebsite MoreSamples.joPayloadC)
    /\ rowMessage r = bound VariantC (plMessage MoreSamples.joPayloadC)
    /\ rowSourcePath r = bound VariantC (plSourcePath MoreSamples.joPayloadC)
    /\ rowUserAgent r = bound VariantC (plUserAgent MoreSamples.joPayloadC).
Proof.
  exact (X7_payload_mirrors_row VariantC MoreSamples.online
           (mkContext (Sample.post Sample.jo) Sample.envFull)
           "https://hook.example/lead" MoreSamples.joPayloadC fetched_joPayloadC).
Defined.

(** The three normalisers *)

Lemma normalizeString_str v n :
  LeadA.normalizeString v n = Js.slice0 n (LeadB.str v).
Proof.
  unfold LeadA.normalizeString, LeadB.str.
  destruct (Js.isNullish v).
  - destruct n; reflexivity.
  - apply capped_is_slice0.
Qed.

Lemma normalizeStr_str v n :
  LeadC.normalizeStr v n = Js.slice0 n (LeadB.str v).
Proof.
  unfold LeadC.normalizeStr, LeadB.str.
  destruct (Js.isNullish v).
  - destruct n; reflexivity.
  - apply capped_is_slice0.
Qed.

Lemma slice0_length_min n s :
  String.length (Js.slice0 n s) = Nat.min n (String.length s).
Proof.
  unfold Js.slice0. revert n.
  induction s as [|c s IH]; intros [|n]; simpl; try reflexivity.
  rewrite IH. reflexivity.
Qed.

Lemma slice0_prefix n s : isPrefixOf (Js.slice0 n s) s.
Proof.
  unfold Js.slice0, isPrefixOf. revert n.
  induction s as [|c s IH]; intros [|n]; simpl.
  - exists "". reflexivity.
  - exists "". reflexivity.
  - exists (String c s). reflexivity.
  - destruct (IH n) as [rest E]. exists rest. rewrite <- E. reflexivity.
Qed.

Lemma trimEnd_head c s c' s' :
  Js.trimEnd (String c s) = String c' s' -> c' = c.
Proof.
  simpl. destruct (Js.trimEnd s).
  - destruct (Js.isWhiteSpace c); [discriminate|].
    intros E. injection E as <- _. reflexivity.
  - intros E. injection E as <- _. reflexivity.
Qed.

Lemma trimStart_head s :
  match Js.trimStart s with
  | EmptyString => True
  | String c _ => Js.isWhiteSpace c = false
  end.
Proof.
  induction s as [|c s IH]; simpl; [exact I|].
  destruct (Js.isWhiteSpace c) eqn:E; [exact IH | exact E].
Qed.

Lemma trim_head s c rest :
  Js.trim s = String c rest -> Js.isWhiteSpace c = false.
Proof.
  unfold Js.trim. pose proof (trimStart_head s) as H.
  destruct (Js.trimStart s) as [|c0 s0]; [discriminate|].
  intros E. apply trimEnd_head in E. subst. exact H.
Qed.

Lemma slice0_head n s c rest :
  Js.slice0 n s = String c rest -> exists rest', s = String c rest'.
Proof.
  unfold Js.slice0. destruct s as [|c0 s]; destruct n; simpl; try discriminate.
  intros E. injection E as <- _. eauto.
Qed.

Lemma str_head v c rest :
  LeadB.str v = String c rest -> Js.isWhiteSpace c = false.
Proof. unfold LeadB.str. apply trim_head. Qed.

(** X8.  The normalisers.  [normalizeString] of variant A is the first [n]
    characters of [str] of variant B, and [normalizeStr] of variant C is the
    same function.  The result has length [min n (length (str v))], is an
    initial segment of [str v], and does not start with white space. *)
Theorem X8_normalizers
  (v : Js.value) (n : nat) :
  LeadA.normalizeString v n = Js.slice0 n (LeadB.str v)
  /\ LeadC.normalizeStr v n = LeadA.normalizeString v n
  /\ String.length (LeadA.normalizeString v n)
     = Nat.min n (String.length (LeadB.str v))
  /\ isPrefixOf (LeadA.normalizeString v n) (LeadB.str v)
  /\ (forall c rest,
         LeadA.normalizeString v n = String c rest ->
         Js.isWhiteSpace c = false).
Proof.
  rewrite normalizeStr_str, normalizeString_str.
  repeat split.
  - apply slice0_length_min.
  - apply slice0_prefix.
  - intros c rest E. apply slice0_head in E. destruct E as [rest' E].
    exact (str_head _ _ _ E).
Qed.

(** Case and the email pattern *)

Lemma caseBlind_seq a b :
  caseBlind a -> caseBlind b -> caseBlind (Regex.seq a b).
Proof.
  intros Ha Hb. destruct a; destruct b; simpl in *; auto.
Qed.

Lemma caseBlind_alt a b :
  caseBlind a -> caseBlind b -> caseBlind (Regex.alt a b).
Proof.
  intros Ha Hb. destruct a; destruct b; simpl in *; auto.
Qed.

Lemma caseBlind_deriv c r : caseBlind r -> caseBlind (Regex.deriv c r).
Proof.
  induction r as [| |p|a IHa b IHb|a IHa b IHb|a IHa]; simpl; intros H.
  - exact I.
  - exact I.
  - destruct (p c); exact I.
  - destruct H as [Ha Hb]. destruct (Regex.nullable a).
    + apply caseBlind_alt; [apply caseBlind_seq|]; auto.
    + apply caseBlind_seq; auto.
  - destruct H as [Ha Hb]. apply caseBlind_alt; auto.
  - apply caseBlind_seq; auto.
Qed.

Lemma deriv_lowerChar c r :
  caseBlind r -> Regex.deriv (Js.lowerChar c) r = Regex.deriv c r.
Proof.
  induction r as [| |p|a IHa b IHb|a IHa b IHb|a IHa]; simpl; intros H.
  - reflexivity.
  - reflexivity.
  - rewrite H. reflexivity.
  - destruct H as [Ha Hb]. rewrite (IHa Ha), (IHb Hb). reflexivity.
  - destruct H as [Ha Hb]. rewrite (IHa Ha), (IHb Hb). reflexivity.
  - rewrite (IHa H). reflexivity.
Qed.

Lemma test_toLowerCase r s :
  caseBlind r -> Regex.test r (Js.toLowerCase s) = Regex.test r s.
Proof.
  revert r. induction s as [|c s IH]; intros r H; [reflexivity|].
  rewrite toLowerCase_cons.
  change (Regex.test r (String (Js.lowerChar c) (Js.toLowerCase s)))
    with (Regex.test (Regex.deriv (Js.lowerChar c) r) (Js.toLowerCase s)).
  change (Regex.test r (String c s)) with (Regex.test (Regex.deriv c r) s).
  rewrite (deriv_lowerChar _ _ H). apply IH. apply caseBlind_deriv. exact H.
Qed.

Lemma notSpaceAt_lowerChar c : notSpaceAt (Js.lowerChar c) = notSpaceAt c.
Proof. destruct c as [[] [] [] [] [] [] [] []]; reflexivity. Qed.

Lemma isAt_lowerChar c : Ascii.eqb "@" (Js.lowerChar c) = Ascii.eqb "@" c.
Proof. destruct c as [[] [] [] [] [] [] [] []]; reflexivity. Qed.

Lemma isDot_lowerChar c : Ascii.eqb "." (Js.lowerChar c) = Ascii.eqb "." c.
Proof. destruct c as [[] [] [] [] [] [] [] []]; reflexivity. Qed.

Lemma emailPattern_caseBlind : caseBlind emailPattern.
Proof.
  unfold emailPattern, Regex.Plus. simpl.
  repeat split; first [ apply notSpaceAt_lowerChar
                      | apply isAt_lowerChar
                      | apply isDot_lowerChar ].
Qed.

Lemma truthy_toLowerCase s : Js.truthy (Js.toLowerCase s) = Js.truthy s.
Proof. destruct s; reflexivity. Qed.

Lemma emailOf_A_B fs : emailOf VariantA fs = Js.toLowerCase (emailOf VariantB fs).
Proof. unfold emailOf. rewrite normalizeString_str. reflexivity. Qed.

Lemma emailOf_C_A fs : emailOf VariantC fs = emailOf VariantA fs.
Proof. unfold emailOf. rewrite normalizeStr_str, normalizeString_str. reflexivity. Qed.

(** X9.  The three variants accept the same emails.  The email of variants
    A and C is the lower-cased email of variant B, and the email test (not
    empty and matching the pattern) gives the same answer in all three,
    because the pattern does not tell a letter from its lower-case form. *)
Theorem X9_same_emails_accepted (fs : string -> Js.value) :
  emailOf VariantA fs = Js.toLowerCase (emailOf VariantB fs)
  /\ emailOf VariantC fs = emailOf VariantA fs
  /\ emailValid (emailOf VariantA fs) = emailValid (emailOf VariantB fs)
  /\ emailValid (emailOf VariantC fs) = emailValid (emailOf VariantB fs).
Proof.
  assert (E : emailValid (emailOf VariantA fs) = emailValid (emailOf VariantB fs)).
  { rewrite emailOf_A_B. unfold emailValid.
    rewrite truthy_toLowerCase, (test_toLowerCase _ _ emailPattern_caseBlind).
    reflexivity. }
  split; [apply emailOf_A_B|]. split; [apply emailOf_C_A|].
  split; [exact E|]. rewrite emailOf_C_A. exact E.
Qed.

(** X10.  [isValidEmail] accepts exactly the texts [local@domain.tld] where
    the three parts are non-empty, hold no white space and no [@], split at
    some dot; the three variants use the same test, and lower-casing does
    not change its answer. *)
Theorem X10_isValidEmail_shape (email : string) :
  (LeadA.isValidEmail email = true <-> emailShape email)
  /\ LeadC.isValidEmail email = LeadA.isValidEmail email
  /\ LeadB.isValidEmail email = LeadA.isValidEmail email
  /\ LeadA.isValidEmail (Js.toLowerCase email) = LeadA.isValidEmail email.
Proof.
  split; [apply RegexFacts.emailPattern_shape|].
  split; [reflexivity|]. split; [reflexivity|].
  apply (test_toLowerCase _ _ emailPattern_caseBlind).
Qed.

(** The stored row *)

Lemma slice0_le n s : String.length (Js.slice0 n s) <= n.
Proof. rewrite slice0_length_min. apply Nat.le_min_l. Qed.


Lemma orNull_length s : boundLength (Js.orNull s) <= String.length s.
Proof. unfold Js.orNull. destruct (Js.truthy s); simpl; lia. Qed.




(** X12.  Field caps of a stored row.  The name, website, message and user
    agent of every stored row are no longer than the variant's caps (120,
    300, 2000, 300 in variant A; 120, 300, 3000, 400 in variant B; 200,
    500, 4000, 500 in variant C), and the source path of variant B is no
    longer than 500. *)
Theorem X12_field_caps (v : variant) (W : World) (ctx : Context) (r : Row) :
  In r (inserts (trace (handle v W ctx))) ->
  boundLength (rowName r) <= nameCap v
  /\ boundLength (rowWebsite r) <= websiteCap v
  /\ boundLength (rowMessage r) <= messageCap v
  /\ boundLength (rowUserAgent r) <= userAgentCap v
  /\ (v = VariantB -> boundLength (rowSourcePath r) <= 500).
Proof.
  intros Hin. apply inserts_inv in Hin.
  destruct Hin as (fs & _ & _ & _ & ->).
  destruct v; cbn [rowOf rowName rowWebsite rowMessage rowUserAgent rowSourcePath
                   sourcePathOf nameCap websiteCap messageCap userAgentCap];
    rewrite ?normalizeString_str, ?normalizeStr_str;
    repeat split;
    try (intros E; discriminate E);
    try (etransitivity; [apply orNull_length|]);
    try apply slice0_le.
  all: intros _; etransitivity; [apply orNull_length | apply slice0_le].
Qed.

Lemma X12_field_caps_witness :
  boundLength (rowName MoreSamples.joRowC) <= nameCap VariantC
  /\ boundLength (rowWebsite MoreSamples.joRowC) <= websiteCap VariantC
  /\ boundLength (rowMessage MoreSamples.joRowC) <= messageCap VariantC
  /\ boundLength (rowUserAgent MoreSamples.joRowC) <= userAgentCap VariantC
  /\ (VariantC = VariantB -> boundLength (rowSourcePath MoreSamples.joRowC) <= 500).
Proof.
  exact (X12_field_caps VariantC Sample.world
           (mkContext (Sample.post Sample.jo) Sample.envFull)
           MoreSamples.joRowC stored_joRowC).
Defined.

(** X13.  NULL or empty text.  Variants A and B never store an empty text
    in a text column (they bind [x || null]); variant C never stores NULL
    there. *)
Theorem X13_null_policy (v : variant) (W : World) (ctx : Context) (r : Row) :
  In r (inserts (trace (handle v W ctx))) ->
  match v with
  | VariantC =>
      rowName r <> None /\ rowWebsite r <> None /\ rowMessage r <> None
      /\ rowSourcePath r <> None /\ rowUserAgent r <> None
  | _ =>
      rowName r <> Some "" /\ rowWebsite r <> Some "" /\ rowMessage r <> Some ""
      /\ rowSourcePath r <> Some "" /\ rowUserAgent r <> Some ""
  end.
Proof.
  assert (N : forall s, Js.orNull s <> Some "").
  { intros s. unfold Js.orNull. destruct s; simpl; discriminate. }
  intros Hin. apply inserts_inv in Hin.
  destruct Hin as (fs & _ & _ & _ & ->).
  destruct v; cbn [rowOf rowName rowWebsite rowMessage rowUserAgent rowSourcePath];
    repeat split; first [apply N | discriminate].
Qed.

Lemma X13_null_policy_witness :
  rowName MoreSamples.joRowA <> Some ""
  /\ rowWebsite MoreSamples.joRowA <> Some ""
  /\ rowMessage MoreSamples.joRowA <> Some ""
  /\ rowSourcePath MoreSamples.joRowA <> Some ""
  /\ rowUserAgent MoreSamples.joRowA <> Some "".
Proof.
  exact (X13_null_policy VariantA Sample.world
           (mkContext (Sample.post Sample.jo) Sample.envFull)
           MoreSamples.joRowA stored_joRowA).
Defined.

(** X14.  The stored consent is 0 or 1, and in variants B and C every
    stored row has consent 1. *)
Theorem X14_consent_stored (v : variant) (W : World) (ctx : Context) (r : Row) :
  In r (inserts (trace (handle v W ctx))) ->
  (rowConsent r = 0%Z \/ rowConsent r = 1%Z)
  /\ (v <> VariantA -> rowConsent r = 1%Z).
Proof.
  intros Hin. apply inserts_inv in Hin.
  destruct Hin as (fs & _ & _ & Hval & ->).
  destruct v; cbn [rowOf rowConsent].
  - split; [|intros H; contradiction].
    unfold LeadA.consentOf. destruct (_ || _); auto.
  - apply passesValidation_B in Hval. destruct Hval as (_ & _ & _ & Hc).
    assert (E : LeadB.consentOf (fs "consent") = 1%Z).
    { unfold LeadB.consentOf in *. destruct (existsb _ _); [reflexivity|].
      discriminate Hc. }
    rewrite E. auto.
  - auto.
Qed.

Lemma X14_consent_stored_witness :
  (rowConsent MoreSamples.joRowC = 0%Z \/ rowConsent MoreSamples.joRowC = 1%Z)
  /\ (VariantC <> VariantA -> rowConsent MoreSamples.joRowC = 1%Z).
Proof.
  exact (X14_consent_stored VariantC Sample.world
           (mkContext (Sample.post Sample.jo) Sample.envFull)
           MoreSamples.joRowC stored_joRowC).
Defined.

(** X15.  An insert that rejects.  For a POST that is read, passes
    validation and finds the binding, when the insert rejects the response
    is the variant's failure response (500 with [Database insert failed.]
    in variant B, 500 with [Server error] in variant C, the [catch] of
    variant A), with [ok:false], and the webhook is not called: the insert
    is the only call. *)
Theorem X15_insert_failure
  (v : variant) (W : World) (ctx : Context) (fs : string -> Js.value)
  (db : D1Database) :
  method (request ctx) = "POST" ->
  fieldsOf v (request ctx) = Some fs ->
  passesValidation v fs = true ->
  LEADS_DB (env ctx) = Some db ->
  runResolves db (rowOf v W (request ctx) fs) = false ->
  returned (handle v W ctx)
  = Some (fst (insertFailure v), Some (errBody (snd (insertFailure v))))
  /\ calls (trace (handle v W ctx)) = [DbRun (rowOf v W (request ctx) fs)].
Proof.
  intros Hm Hfs Hval Edb Hrun. split.
  - destruct v.
    + apply fieldsOf_A in Hfs. destruct Hfs as (raw & Er & ->).
      apply passesValidation_A in Hval. destruct Hval as (Hhp & He & Hre).
      unfold handle, LeadA.onRequest. post_method method_POST Hm.
      rewrite Edb, Er. cbn [negb].
      rewrite bind_ret. cbn [rawField String.eqb Ascii.eqb Bool.eqb] in *.
      unfold LeadA.isValidEmail. rewrite Hhp, He, Hre. cbn [negb orb].
      unfold rowOf, emailOf, sourcePathOf in Hrun.
      cbn [rawField String.eqb Ascii.eqb Bool.eqb] in Hrun.
      unfold d1Run. rewrite Hrun. reflexivity.
    + apply fieldsOf_B in Hfs. destruct Hfs as (o & Er & ->).
      apply passesValidation_B in Hval. destruct Hval as (Hhp & He & Hre & Hc).
      unfold handle, LeadB.onRequest. post_method method_POST Hm.
      rewrite Er. cbn [negb].
      rewrite bind_ret. unfold LeadB.get. rewrite !bind_ret.
      unfold LeadB.isValidEmail.
      rewrite Hhp, He, Hre, Hc, Edb. cbn [negb].
      unfold rowOf, emailOf, sourcePathOf in Hrun.
      unfold d1Run. rewrite Hrun. reflexivity.
    + apply fieldsOf_C in Hfs. destruct Hfs as (o & Er & ->).
      apply passesValidation_C in Hval. destruct Hval as (He & Hre & Hc).
      unfold handle, LeadC.onRequest. post_method method_POST Hm.
      rewrite Er. cbn [negb].
      rewrite bind_ret. unfold LeadC.get. rewrite !bind_ret.
      unfold LeadC.isValidEmail.
      rewrite He, Hre, Hc, Edb. cbn [negb orb].
      unfold rowOf, emailOf, sourcePathOf in Hrun.
      unfold d1Run. rewrite Hrun. reflexivity.
  - rewrite calls_spec. unfold callsOf.
    rewrite Hfs, Edb, Hm, Hval, Hrun. reflexivity.
Qed.

Lemma X15_insert_failure_witness :
  returned (handle VariantB MoreSamples.online
              (mkContext (Sample.post Sample.jo) (mkEnv (Some MoreSamples.brokenDb) None)))
  = Some (500%Z, Some (errBody "Database insert failed."))
  /\ calls (trace (handle VariantB MoreSamples.online
                     (mkContext (Sample.post Sample.jo)
                                (mkEnv (Some MoreSamples.brokenDb) None))))
     = [DbRun (mkRow (Some "Jo") "a@b.com" None None 1%Z None None)].
Proof.
  apply (X15_insert_failure VariantB MoreSamples.online
           (mkContext (Sample.post Sample.jo) (mkEnv (Some MoreSamples.brokenDb) None))
           (Js.prop Sample.jo) MoreSamples.brokenDb).
  - reflexivity.
  - reflexivity.
  - vm_compute. reflexivity.
  - reflexivity.
  - reflexivity.
Defined.


(** X16.  A stored submission succeeds.  For a POST that is read, passes
    validation and whose insert resolves, when no webhook is configured or
    the webhook fetch resolves, the response is 200 with [ok:true]; variant
    C adds [webhook_sent], true exactly when a webhook is configured. *)
Theorem X16_stored_submission_succeeds
  (v : variant) (W : World) (ctx : Context) (fs : string -> Js.value)
  (db : D1Database) :
  method (request ctx) = "POST" ->
  fieldsOf v (request ctx) = Some fs ->
  passesValidation v fs = true ->
  LEADS_DB (env ctx) = Some db ->
  runResolves db (rowOf v W (request ctx) fs) = true ->
  Js.truthy (hookOf v (env ctx)) = false
  \/ fetchResolves W (hookOf v (env ctx)) = true ->
  returned (handle v W ctx)
  = Some (200%Z, Some (successBody v (Js.truthy (hookOf v (env ctx))))).
Proof.
  intros Hm Hfs Hval Edb Hrun Hhook.
  destruct v.
  - apply fieldsOf_A in Hfs. destruct Hfs as (raw & Er & ->).
    apply passesValidation_A in Hval. destruct Hval as (Hhp & He & Hre).
    unfold handle, LeadA.onRequest. post_method method_POST Hm.
    rewrite Edb, Er. cbn [negb].
    rewrite bind_ret. cbn [rawField String.eqb Ascii.eqb Bool.eqb] in *.
    unfold LeadA.isValidEmail. rewrite Hhp, He, Hre. cbn [negb orb].
    unfold rowOf, emailOf, sourcePathOf in Hrun.
    cbn [rawField String.eqb Ascii.eqb Bool.eqb] in Hrun.
    rewrite (d1Run_resolves _ _ Hrun).
    unfold hookOf in Hhook.
    destruct (LEAD_WEBHOOK_URL (env ctx)) as [hook|]; cbn [Js.orEmpty] in Hhook;
      [|reflexivity].
    destruct Hhook as [Ht|Hf].
    + rewrite Ht. reflexivity.
    + destruct (Js.truthy hook); [|reflexivity].
      unfold fetchPost. rewrite Hf. reflexivity.
  - apply fieldsOf_B in Hfs. destruct Hfs as (o & Er & ->).
    apply passesValidation_B in Hval. destruct Hval as (Hhp & He & Hre & Hc).
    unfold handle, LeadB.onRequest. post_method method_POST Hm.
    rewrite Er. cbn [negb].
    rewrite bind_ret. unfold LeadB.get. rewrite !bind_ret.
    unfold LeadB.isValidEmail.
    rewrite Hhp, He, Hre, Hc, Edb. cbn [negb].
    unfold rowOf, emailOf, sourcePathOf in Hrun.
    rewrite (d1Run_resolves _ _ Hrun).
    clear Hhook.
    destruct (LEAD_WEBHOOK_URL (env ctx)) as [hook|]; [|reflexivity].
    destruct (Js.truthy (LeadB.str (Js.Str hook))); [|reflexivity].
    unfold fetchPost.
    destruct (fetchResolves W (LeadB.str (Js.Str hook))); reflexivity.
  - apply fieldsOf_C in Hfs. destruct Hfs as (o & Er & ->).
    apply passesValidation_C in Hval. destruct Hval as (He & Hre & Hc).
    unfold handle, LeadC.onRequest. post_method method_POST Hm.
    rewrite Er. cbn [negb].
    rewrite bind_ret. unfold LeadC.get. rewrite !bind_ret.
    unfold LeadC.isValidEmail.
    rewrite He, Hre, Hc, Edb. cbn [negb orb].
    unfold rowOf, emailOf, sourcePathOf in Hrun.
    rewrite (d1Run_resolves _ _ Hrun).
    unfold hookOf in Hhook |- *.
    destruct Hhook as [Ht|Hf].
    + rewrite Ht. reflexivity.
    + destruct (Js.truthy (Js.trim (Js.orEmpty (LEAD_WEBHOOK_URL (env ctx)))));
        [|reflexivity].
      unfold fetchPost. rewrite Hf. reflexivity.
Qed.

Lemma X16_stored_submission_succeeds_witness :
  returned (handle VariantA MoreSamples.online
              (mkContext (Sample.post Sample.jo) Sample.envFull))
  = Some (200%Z, Some okBody).
Proof.
  apply (X16_stored_submission_succeeds VariantA MoreSamples.online
           (mkContext (Sample.post Sample.jo) Sample.envFull)
           (rawField (LeadA.mkRaw (Js.Str "Jo") (Js.Str "a@b.com") Js.Undefined
                        Js.Undefined (Js.Str "on") Js.Undefined Js.Undefined))
           Sample.db).
  - reflexivity.
  - reflexivity.
  - vm_compute. reflexivity.
  - reflexivity.
  - reflexivity.
  - right. reflexivity.
Defined.

(** X17.  The [webhook_sent] flag of variant C.  For a POST that is read,
    passes validation and whose insert resolves, variant C answers 200 with
    [ok:true] and [webhook_sent] true exactly when a webhook is configured
    and its fetch resolved. *)
Theorem X17_webhook_sent_flag
  (W : World) (ctx : Context) (fs : string -> Js.value) (db : D1Database) :
  method (request ctx) = "POST" ->
  fieldsOf VariantC (request ctx) = Some fs ->
  passesValidation VariantC fs = true ->
  LEADS_DB (env ctx) = Some db ->
  runResolves db (rowOf VariantC W (request ctx) fs) = true ->
  returned (LeadC.onRequest W ctx)
  = Some (200%Z,
          Some (mkBody true None
                  (Some (Js.truthy (hookOf VariantC (env ctx))
                         && fetchResolves W (hookOf VariantC (env ctx)))))).
Proof.
  intros Hm Hfs Hval Edb Hrun.
  apply fieldsOf_C in Hfs. destruct Hfs as (o & Er & ->).
  apply passesValidation_C in Hval. destruct Hval as (He & Hre & Hc).
  unfold LeadC.onRequest. post_method method_POST Hm.
  rewrite Er. cbn [negb].
  rewrite bind_ret. unfold LeadC.get. rewrite !bind_ret.
  unfold LeadC.isValidEmail.
  rewrite He, Hre, Hc, Edb. cbn [negb orb].
  unfold rowOf, emailOf, sourcePathOf in Hrun.
  rewrite (d1Run_resolves _ _ Hrun).
  unfold hookOf.
  destruct (Js.truthy (Js.trim (Js.orEmpty (LEAD_WEBHOOK_URL (env ctx)))));
    [|reflexivity].
  unfold fetchPost. destruct (fetchResolves W _); reflexivity.
Qed.

Lemma X17_webhook_sent_flag_witness :
  returned (LeadC.onRequest MoreSamples.online
              (mkContext (Sample.post Sample.jo) Sample.envFull))
  = Some (200%Z, Some (mkBody true None (Some true))).
Proof.
  apply (X17_webhook_sent_flag MoreSamples.online
           (mkContext (Sample.post Sample.jo) Sample.envFull)
           (Js.prop Sample.jo) Sample.db).
  - reflexivity.
  - reflexivity.
  - vm_compute. reflexivity.
  - reflexivity.
  - reflexivity.
Defined.



(** Content types *)

Lemma prefix_toLowerCase p s :
  prefix p s = true -> prefix (Js.toLowerCase p) (Js.toLowerCase s) = true.
Proof.
  revert s. induction p as [|a p IH]; intros s H;
    [change (Js.toLowerCase "") with ""; destruct (Js.toLowerCase s); reflexivity|].
  destruct s as [|b s]; [discriminate H|].
  rewrite !toLowerCase_cons. simpl in *.
  destruct (ascii_dec a b) as [->|]; [|discriminate H].
  destruct (ascii_dec (Js.lowerChar b) (Js.lowerChar b)); [|contradiction].
  apply IH. exact H.
Qed.

Lemma includes_toLowerCase s p :
  Js.includes s p = true ->
  Js.includes (Js.toLowerCase s) (Js.toLowerCase p) = true.
Proof.
  induction s as [|c s IH]; intros H.
  - change (prefix p "" || false = true) in H.
    rewrite orb_false_r in H. apply prefix_toLowerCase in H.
    change (prefix (Js.toLowerCase p) (Js.toLowerCase "") || false = true).
    rewrite H. reflexivity.
  - change (prefix p (String c s) || Js.includes s p = true) in H.
    rewrite toLowerCase_cons.
    change (prefix (Js.toLowerCase p)
              (String (Js.lowerChar c) (Js.toLowerCase s))
            || Js.includes (Js.toLowerCase s) (Js.toLowerCase p) = true).
    apply orb_prop in H. destruct H as [H|H].
    + apply prefix_toLowerCase in H. rewrite toLowerCase_cons in H.
      rewrite H. reflexivity.
    + rewrite (IH H). apply orb_true_r.
Qed.

Lemma json_content_type_B req :
  Js.includes (Js.orEmpty (hdrContentType req)) "application/json" = true ->
  Js.includes (Js.toLowerCase (Js.orEmpty (hdrContentType req)))
    "application/json" = true.
Proof. intros H. apply includes_toLowerCase in H. exact H. Qed.

(** X19.  A JSON body that is the value [null].  Reading a field of [null]
    throws.  In variant B nothing catches it and the handler throws; variant
    C answers 500 with [Server error]; variant A answers with [ok:false].
    No variant stores or fetches. *)
Theorem X19_null_json_body (W : World) (ctx : Context) :
  method (request ctx) = "POST" ->
  Js.includes (Js.orEmpty (hdrContentType (request ctx))) "application/json" = true ->
  bodyJson (request ctx) = Some JsonNull ->
  outcome (LeadB.onRequest W ctx) = Throw
  /\ returned (LeadC.onRequest W ctx) = Some (500%Z, Some (errBody "Server error"))
  /\ okOf (LeadA.onRequest W ctx) = Some false
  /\ (forall v, calls (trace (handle v W ctx)) = []).
Proof.
  intros Hm Hct Hj.
  pose proof (json_content_type_B _ Hct) as HctB.
  assert (EB : LeadB.parseBody (request ctx) = ret JsonNull).
  { unfold LeadB.parseBody. cbv zeta. rewrite HctB, Hj. reflexivity. }
  assert (EA : LeadA.readBody (request ctx) = throw).
  { unfold LeadA.readBody. cbv zeta. rewrite Hct, Hj. reflexivity. }
  assert (EC : LeadC.readBody (request ctx) = ret JsonNull).
  { unfold LeadC.readBody. cbv zeta. rewrite Hct, Hj. reflexivity. }
  repeat apply conj.
  - unfold LeadB.onRequest. post_method method_POST Hm. rewrite EB. reflexivity.
  - unfold LeadC.onRequest. post_method method_POST Hm. rewrite EC. reflexivity.
  - unfold LeadA.onRequest. post_method method_POST Hm. rewrite EA. cbn [negb].
    destruct (LEADS_DB (env ctx)); reflexivity.
  - intros v. rewrite calls_spec. unfold callsOf, fieldsOf.
    destruct v; rewrite ?EA, ?EB, ?EC; reflexivity.
Qed.

Lemma X19_null_json_body_witness :
  outcome (LeadB.onRequest Sample.world (mkContext MoreSamples.nullBody Sample.envFull)) = Throw
  /\ returned (LeadC.onRequest Sample.world (mkContext MoreSamples.nullBody Sample.envFull))
     = Some (500%Z, Some (errBody "Server error"))
  /\ okOf (LeadA.onRequest Sample.world (mkContext MoreSamples.nullBody Sample.envFull))
     = Some false
  /\ (forall v, calls (trace (handle v Sample.world
                               (mkContext MoreSamples.nullBody Sample.envFull))) = []).
Proof.
  apply (X19_null_json_body Sample.world (mkContext MoreSamples.nullBody Sample.envFull)).
  - reflexivity.
  - reflexivity.
  - reflexivity.
Defined.

(** X20.  Fields of a JSON object body.  For a request announcing
    [application/json] whose body is an object, the three variants read the
    same value for each of [name], [email], [website], [message],
    [consent], [source_path] and [company]; variant A copies these seven
    and so never sees [hp]. *)
Theorem X20_json_fields_agree (req : Request) (o : Js.entries) (k : string) :
  Js.includes (Js.orEmpty (hdrContentType req)) "application/json" = true ->
  bodyJson req = Some (JsonObject o) ->
  In k ["name"; "email"; "website"; "message"; "consent"; "source_path"; "company"] ->
  exists fa,
    fieldsOf VariantA req = Some fa
    /\ fieldsOf VariantB req = Some (Js.prop o)
    /\ fieldsOf VariantC req = Some (Js.prop o)
    /\ fa k = Js.prop o k
    /\ fa "hp" = Js.Undefined.
Proof.
  intros Hct Hj Hk. pose proof (json_content_type_B _ Hct) as HctB.
  unfold fieldsOf, LeadA.readBody, LeadB.parseBody, LeadC.readBody. cbv zeta.
  rewrite Hct, HctB, Hj. cbn [awaitOpt].
  rewrite bind_ret. cbn [outcome snd ret tryCatch fst].
  eexists. split; [reflexivity|]. split; [reflexivity|]. split; [reflexivity|].
  split; [|reflexivity].
  simpl in Hk. destruct Hk as [<-|[<-|[<-|[<-|[<-|[<-|[<-|[]]]]]]]]; reflexivity.
Qed.

Lemma X20_json_fields_agree_witness :
  exists fa,
    fieldsOf VariantA (Sample.post Sample.jo) = Some fa
    /\ fieldsOf VariantB (Sample.post Sample.jo) = Some (Js.prop Sample.jo)
    /\ fieldsOf VariantC (Sample.post Sample.jo) = Some (Js.prop Sample.jo)
    /\ fa "email" = Js.prop Sample.jo "email"
    /\ fa "hp" = Js.Undefined.
Proof.
  apply (X20_json_fields_agree (Sample.post Sample.jo) Sample.jo "email").
  - reflexivity.
  - reflexivity.
  - simpl. auto.
Defined.

Lemma status_A W ctx :
  statusOf (LeadA.onRequest W ctx) = statusSpec VariantA W ctx.
Proof.
  unfold statusSpec, statusOfSubmission, fieldsOf, LeadA.onRequest.
  read_body (LeadA.readBody (request ctx)) (LeadA_readBody_trace (request ctx)).
  destruct (String.eqb (method (request ctx)) "OPTIONS"); [reflexivity|].
  destruct (String.eqb (method (request ctx)) "POST"); cbn [negb]; [|reflexivity].
  destruct (LEADS_DB (env ctx)) as [db|]; [| destruct o; reflexivity].
  destruct o as [raw|]; [| reflexivity].
  change ([], Normal raw) with (ret raw). rewrite bind_ret.
  unfold honeypotEmpty, honeypotOf, emailValid, requiresConsent,
    LeadA.isValidEmail, d1Run, fetchPost, hookOf, rowOf, sourcePathOf, emailOf.
  cbn [outcome snd ret rawField String.eqb Ascii.eqb Bool.eqb negb orb andb].
  destruct (LEAD_WEBHOOK_URL (env ctx)) as [hook|]; cbn [Js.orEmpty Js.truthy];
    repeat (split_if; cbn [negb orb andb]); reflexivity.
Qed.

Lemma status_B W ctx :
  statusOf (LeadB.onRequest W ctx) = statusSpec VariantB W ctx.
Proof.
  unfold statusSpec, statusOfSubmission, fieldsOf, LeadB.onRequest.
  read_body (LeadB.parseBody (request ctx)) (LeadB_parseBody_trace (request ctx)).
  destruct (String.eqb (method (request ctx)) "OPTIONS"); [reflexivity|].
  destruct (String.eqb (method (request ctx)) "POST"); cbn [negb]; [|reflexivity].
  destruct o as [[|f]|];
    [ destruct (LEADS_DB (env ctx)); reflexivity
    | | destruct (LEADS_DB (env ctx)); reflexivity ].
  change ([], Normal (JsonObject f)) with (ret (JsonObject f)).
  rewrite bind_ret. unfold LeadB.get. rewrite !bind_ret.
  unfold honeypotEmpty, honeypotOf, emailValid, requiresConsent, consentOf,
    LeadB.isValidEmail, d1Run, fetchPost, rowOf, sourcePathOf, emailOf.
  cbn [outcome snd ret negb orb andb].
  destruct (LEADS_DB (env ctx)) as [db|];
    repeat (split_if; cbn [negb orb andb]); reflexivity.
Qed.

Lemma status_C W ctx :
  statusOf (LeadC.onRequest W ctx) = statusSpec VariantC W ctx.
Proof.
  unfold statusSpec, statusOfSubmission, fieldsOf, LeadC.onRequest.
  read_body (LeadC.readBody (request ctx)) (LeadC_readBody_trace (request ctx)).
  destruct (String.eqb (method (request ctx)) "OPTIONS"); [reflexivity|].
  destruct (String.eqb (method (request ctx)) "POST"); cbn [negb]; [|reflexivity].
  destruct o as [[|f]|];
    [ destruct (LEADS_DB (env ctx)); reflexivity
    | | destruct (LEADS_DB (env ctx)); reflexivity ].
  change ([], Normal (JsonObject f)) with (ret (JsonObject f)).
  rewrite bind_ret. unfold LeadC.get. rewrite !bind_ret.
  unfold honeypotEmpty, honeypotOf, emailValid, requiresConsent, consentOf,
    LeadC.isValidEmail, d1Run, fetchPost, rowOf, sourcePathOf, emailOf.
  cbn [outcome snd ret negb orb andb].
  destruct (LEADS_DB (env ctx)) as [db|];
    repeat (split_if; cbn [negb orb andb]); reflexivity.
Qed.

Lemma status_spec v W ctx : statusOf (handle v W ctx) = statusSpec v W ctx.
Proof. destruct v; [apply status_A | apply status_B | apply status_C]. Qed.

Lemma okOf_by_status v W ctx :
  okOf (handle v W ctx)
  = match statusOf (handle v W ctx) with
    | Some st => if (st =? 204)%Z then None else Some (st =? 200)%Z
    | None => None
    end.
Proof.
  unfold okOf, statusOf.
  destruct (outcome (handle v W ctx)) as [r|] eqn:E; [|reflexivity].
  destruct (built v W ctx r E) as [_ Hc]. unfold coherent in Hc.
  destruct (body r) as [b|]; cbn [option_map].
  - apply andb_prop in Hc. destruct Hc as [Hc _].
    apply andb_prop in Hc. destruct Hc as [Hs Ho].
    apply eqb_prop in Ho. rewrite Ho.
    apply existsb_exists in Hs. destruct Hs as (x & Hin & Hx).
    apply Z.eqb_eq in Hx. rewrite Hx.
    simpl in Hin. destruct Hin as [<-|[<-|[<-|[<-|[]]]]]; reflexivity.
  - rewrite Hc. reflexivity.
Qed.



(** X22.  What the outcome of the webhook fetch can change.  Whether the
    fetch resolves or rejects, every variant makes the same storage and
    network calls; in variants B and C the status and the [ok] flag of the
    response are the same too. *)
Theorem X22_fetch_outcome_irrelevant
  (v : variant) (W : World) (f : string -> bool) (ctx : Context) :
  calls (trace (handle v (withFetch f W) ctx)) = calls (trace (handle v W ctx))
  /\ (v <> VariantA ->
      statusOf (handle v (withFetch f W) ctx) = statusOf (handle v W ctx)
      /\ okOf (handle v (withFetch f W) ctx) = okOf (handle v W ctx)).
Proof.
  split.
  - rewrite !calls_spec. destruct v; reflexivity.
  - intros Hv.
    assert (E : statusOf (handle v (withFetch f W) ctx) = statusOf (handle v W ctx)).
    { rewrite !status_spec. destruct v; [contradiction | reflexivity | reflexivity]. }
    split; [exact E|]. rewrite !okOf_by_status, E. reflexivity.
Qed.

(** ** Console output *)

Lemma logs_A W ctx : logs (trace (LeadA.onRequest W ctx)) = [].
Proof.
  unfold LeadA.onRequest.
  read_body (LeadA.readBody (request ctx)) (LeadA_readBody_trace (request ctx)).
  destruct (String.eqb (method (request ctx)) "OPTIONS"); [reflexivity|].
  destruct (String.eqb (method (request ctx)) "POST"); cbn [negb];
    [| reflexivity].
  destruct (LEADS_DB (env ctx)) as [db|]; [| destruct o; reflexivity].
  destruct o as [raw|]; [| reflexivity].
  change ([], Normal raw) with (ret raw). rewrite bind_ret.
  unfold LeadA.isValidEmail, d1Run, fetchPost.
  cbn [outcome snd ret negb orb andb].
  destruct (LEAD_WEBHOOK_URL (env ctx)) as [hook|]; cbn [Js.orEmpty Js.truthy];
    repeat (split_if; cbn [negb orb andb]); reflexivity.
Qed.

Lemma logs_B W ctx : logs (trace (LeadB.onRequest W ctx)) = [].
Proof.
  unfold LeadB.onRequest.
  read_body (LeadB.parseBody (request ctx)) (LeadB_parseBody_trace (request ctx)).
  destruct (String.eqb (method (request ctx)) "OPTIONS"); [reflexivity|].
  destruct (String.eqb (method (request ctx)) "POST"); cbn [negb];
    [| reflexivity].
  destruct o as [[|f]|]; [ reflexivity | | reflexivity ].
  change ([], Normal (JsonObject f)) with (ret (JsonObject f)).
  rewrite bind_ret. unfold LeadB.get. rewrite !bind_ret.
  unfold LeadB.isValidEmail, d1Run, fetchPost.
  cbn [outcome snd ret negb orb andb].
  destruct (LEADS_DB (env ctx)) as [db|];
    repeat (split_if; cbn [negb orb andb]); reflexivity.
Qed.

Lemma logs_C W ctx :
  logs (trace (LeadC.onRequest W ctx)) = logsOf VariantC W ctx.
Proof.
  unfold logsOf, fieldsOf, LeadC.onRequest.
  read_body (LeadC.readBody (request ctx)) (LeadC_readBody_trace (request ctx)).
  settle_method (request ctx).
  1, 3: destruct o as [[|f]|]; destruct (LEADS_DB (env ctx)); reflexivity.
  destruct o as [[|f]|];
    [ destruct (LEADS_DB (env ctx)); reflexivity
    | | destruct (LEADS_DB (env ctx)); reflexivity ].
  change ([], Normal (JsonObject f)) with (ret (JsonObject f)).
  rewrite bind_ret. unfold LeadC.get. rewrite !bind_ret.
  unfold passesValidation, honeypotEmpty, honeypotOf, emailValid,
    requiresConsent, consentOf, LeadC.isValidEmail, d1Run, fetchPost, hookOf,
    rowOf, payloadOf, sourcePathOf, emailOf.
  cbn [outcome snd ret negb orb andb].
  destruct (LEADS_DB (env ctx)) as [db|];
    repeat (split_if; cbn [negb orb andb]); reflexivity.
Qed.

Lemma logs_spec v W ctx : logs (trace (handle v W ctx)) = logsOf v W ctx.
Proof.
  destruct v; [apply logs_A | apply logs_B | apply logs_C].
Qed.

(** X23.  Console output.  Variants A and B never write to the console.
    Variant C writes at most one line per request: [console.error] comes
    with the 500 of its outer [catch] and no webhook call, [console.warn]
    with a 200 after an insert and a webhook fetch that rejected. *)
Theorem X23_console_output (v : variant) (W : World) (ctx : Context) :
  (v <> VariantC -> logs (trace (handle v W ctx)) = [])
  /\ (logs (trace (handle v W ctx)) = []
      \/ logs (trace (handle v W ctx)) = [ConsoleError]
      \/ logs (trace (handle v W ctx)) = [ConsoleWarn])
  /\ (logs (trace (handle v W ctx)) = [ConsoleError] ->
      statusOf (handle v W ctx) = Some 500%Z
      /\ callsWebhook (handle v W ctx) = false)
  /\ (logs (trace (handle v W ctx)) = [ConsoleWarn] ->
      statusOf (handle v W ctx) = Some 200%Z
      /\ exists r u p,
           calls (trace (handle v W ctx)) = [DbRun r; Fetch u p]
           /\ fetchResolves W u = false).
Proof.
  assert (Hw : callsWebhook (handle v W ctx)
               = existsb isFetch (calls (trace (handle v W ctx)))).
  { unfold callsWebhook. induction (trace (handle v W ctx)) as [|e t IH];
      [reflexivity|]. destruct e; simpl; rewrite ?IH; reflexivity. }
  rewrite Hw, logs_spec, calls_spec, status_spec. clear Hw.
  destruct v;
    [ cbn [logsOf]; repeat split; auto; discriminate
    | cbn [logsOf]; repeat split; auto; discriminate | ].
  split; [intros H; contradiction|].
  unfold logsOf, callsOf, statusSpec, statusOfSubmission, passesValidation.
  cbn [requiresConsent negb orb andb].
  destruct (String.eqb (method (request ctx)) "POST") eqn:Ep.
  2: { repeat split; auto; discriminate. }
  apply String.eqb_eq in Ep. rewrite Ep.
  cbn [String.eqb Ascii.eqb Bool.eqb negb andb].
  destruct (fieldsOf VariantC (request ctx)) as [fs|].
  2: { destruct (LEADS_DB (env ctx)); repeat split; auto; discriminate. }
  destruct (honeypotEmpty VariantC fs), (emailValid (emailOf VariantC fs)),
    (consentOf VariantC (fs "consent")); cbn [negb andb orb];
    try (destruct (LEADS_DB (env ctx)); repeat split; auto; discriminate).
  destruct (LEADS_DB (env ctx)) as [db|]; [| repeat split; auto; discriminate].
  destruct (runResolves db _); cbn [andb];
    [| repeat split; auto; discriminate].
  destruct (Js.truthy (hookOf VariantC (env ctx)));
    [| repeat split; auto; discriminate].
  destruct (fetchResolves W (hookOf VariantC (env ctx))) eqn:Ef;
    cbn [negb andb]; repeat split; auto; try discriminate.
  eauto 6.
Qed.
